(** * amf-check-writer: facet naming, CV loading and check compilation

    A shallow embedding of [amf_check_writer/base_file.py],
    [amf_check_writer/cvs/base.py] and
    [amf_check_writer/spreadsheet_handler.py], followed by the properties
    of the CV-to-check compilation pipeline.

    Python values are modelled as follows: [str] is [string]; a list is a
    [list]; a dict is an association list with one binding per key, whose
    order stands for the iteration order of the dict (the properties of
    the rows that the reader delivers do not rely on it); printing, file
    writes and exceptions are the events and the outcome of a small
    writer/error monad. *)

From Stdlib Require Import String Ascii List Bool Arith Lia DecimalString Permutation.
Import ListNotations.
Open Scope list_scope.
Open Scope string_scope.
Set Warnings "-register-all".

(* ================================================================== *)
(** * Python string primitives used by the sources *)
(* ================================================================== *)

Module PyStr.

(** [sep.join(l)] *)
Fixpoint join (sep : string) (l : list string) : string :=
  match l with
  | [] => ""
  | x :: tl =>
      match tl with
      | [] => x
      | _ :: _ => x ++ sep ++ join sep tl
      end
  end.

(** [c in s] for a one-character [c] *)
Fixpoint mem_char (c : ascii) (s : string) : bool :=
  match s with
  | EmptyString => false
  | String d s' => Ascii.eqb c d || mem_char c s'
  end.

(** [s.split(c)] for a one-character separator: the inverse direction of
    [join], used to reason about name spaces. *)
Fixpoint split (c : ascii) (s : string) : list string :=
  match s with
  | EmptyString => [""]
  | String d s' =>
      if Ascii.eqb c d then "" :: split c s'
      else match split c s' with
           | [] => [String d ""]
           | w :: ws => String d w :: ws
           end
  end.

(** The whitespace of [str.strip()] (Python 2 byte strings):
    space, [\t], [\n], [\x0b], [\x0c], [\r]. *)
Definition is_space (c : ascii) : bool :=
  let n := nat_of_ascii c in
  Nat.eqb n 32 || (Nat.leb 9 n && Nat.leb n 13).

Fixpoint lstrip (s : string) : string :=
  match s with
  | EmptyString => EmptyString
  | String c s' => if is_space c then lstrip s' else s
  end.

Fixpoint rstrip (s : string) : string :=
  match s with
  | EmptyString => EmptyString
  | String c s' =>
      match rstrip s' with
      | EmptyString => if is_space c then EmptyString else String c EmptyString
      | r => String c r
      end
  end.

(** [s.strip()] *)
Definition strip (s : string) : string := rstrip (lstrip s).

(** [s.lower()] on ASCII *)
Definition lower_char (c : ascii) : ascii :=
  let n := nat_of_ascii c in
  if Nat.leb 65 n && Nat.leb n 90 then ascii_of_nat (n + 32) else c.

Fixpoint lower (s : string) : string :=
  match s with
  | EmptyString => EmptyString
  | String c s' => String (lower_char c) (lower s')
  end.

(** [s.startswith(p)], returning the rest of [s] after [p] *)
Fixpoint strip_prefix (p s : string) : option string :=
  match p with
  | EmptyString => Some s
  | String a p' =>
      match s with
      | EmptyString => None
      | String b s' => if Ascii.eqb a b then strip_prefix p' s' else None
      end
  end.

Definition startswith (s p : string) : bool :=
  match strip_prefix p s with Some _ => true | None => false end.

Fixpoint last_char (s : string) : option ascii :=
  match s with
  | EmptyString => None
  | String c s' =>
      match last_char s' with
      | None => Some c
      | Some d => Some d
      end
  end.

Definition head_char (s : string) : option ascii :=
  match s with
  | EmptyString => None
  | String c _ => Some c
  end.

Definition endswith_char (s : string) (c : ascii) : bool :=
  match last_char s with
  | Some d => Ascii.eqb c d
  | None => false
  end.

(** [sub in s] *)
Fixpoint contains (sub s : string) : bool :=
  startswith s sub
  || match s with
     | EmptyString => false
     | String _ s' => contains sub s'
     end.

(** [os.path.join(a, b)] of [posixpath] *)
Definition os_path_join (a b : string) : string :=
  if startswith b "/" then b
  else if String.eqb a "" || endswith_char a "/"%char then a ++ b
  else a ++ "/" ++ b.

End PyStr.

(* ================================================================== *)
(** * base_file.py: [AmfFile] *)
(* ================================================================== *)

Module AmfFile.

(** Character to separate facets in namespace and filenames *)
Definition facet_separator : string := "_".

(** [self.namespace = self.facet_separator.join(facets)] *)
Definition namespace (facets : list string) : string :=
  PyStr.join facet_separator facets.

(** ["AMF{sep}{ns}.{ext}".format(...)] for an object built from [facets] *)
Definition get_filename (facets : list string) (ext : string) : string :=
  "AMF" ++ facet_separator ++ namespace facets ++ "." ++ ext.

End AmfFile.

(* ================================================================== *)
(** * Effects: printing, file writes and exceptions *)
(* ================================================================== *)

Module Eff.

Inductive stream := Stdout | Stderr.

(** The exceptions the sources name or can meet. *)
Inductive exn :=
| DimensionsSheetNoRowsError
| CVParseError (msg : string)
| AttributeError (msg : string)
| KeyError (key : string)
| IOError (path : string)
| OtherException (msg : string).

(** [str(ex)] *)
Definition exn_str (e : exn) : string :=
  match e with
  | DimensionsSheetNoRowsError => "No rows in dimensions sheet"
  | CVParseError m => m
  | AttributeError m => m
  | KeyError k => k
  | IOError p => p
  | OtherException m => m
  end.

Inductive event :=
| Print (s : stream) (line : string)
| WriteFile (path content : string).

Inductive outcome (A : Type) :=
| Return (a : A)
| Raise (e : exn).
Arguments Return {A} a.
Arguments Raise {A} e.

(** A computation: the events it performed, in order, and how it ended. *)
Definition M (A : Type) : Type := list event * outcome A.

Definition ret {A} (a : A) : M A := ([], Return a).
Definition raise {A} (e : exn) : M A := ([], Raise e).
Definition print (s : stream) (line : string) : M unit :=
  ([Print s line], Return tt).

Definition bind {A B} (m : M A) (k : A -> M B) : M B :=
  match m with
  | (ev, Return a) => let (ev', r) := k a in ((ev ++ ev')%list, r)
  | (ev, Raise e) => (ev, Raise e)
  end.

Definition events {A} (m : M A) : list event := fst m.
Definition result {A} (m : M A) : outcome A := snd m.

End Eff.
Import Eff.

Notation "x <- c1 ;; c2" := (bind c1 (fun x => c2))
  (at level 61, c1 at next level, right associativity).
Notation "c1 ;; c2" := (bind c1 (fun _ => c2))
  (at level 61, right associativity).

(* ================================================================== *)
(** * cvs/base.py: [StripWhitespaceReader] *)
(* ================================================================== *)

Module CvsBase.

(** A value of the dict returned by [DictReader.next]: a cell, [None] for
    a short row ([restval]), or the list of surplus cells of a long row,
    which [DictReader] stores under the key [None] ([restkey]). *)
Inductive cell :=
| CellStr (s : string)
| CellNone
| CellRest (l : list string).

(** The items of the dict returned by [DictReader.next], in iteration
    order; the key [None] is the [restkey]. *)
Definition raw_row := list (option string * cell).

(** The dict handed to [parse_tsv].  It is a plain dict: the order in
    which the list holds its items is a choice of this representation
    and not something the reader determines, so the properties of rows
    speak of their items, their keys and their lookups, never of the
    position of an item. *)
Definition row := list (string * option string).

(** [d[k] = v]: the binding of [k] is replaced where it stands, a new key
    is put at the end. *)
Fixpoint dict_setitem {V : Type} (k : string) (v : V)
    (d : list (string * V)) : list (string * V) :=
  match d with
  | [] => [(k, v)]
  | (k', v') :: d' =>
      if String.eqb k k' then (k', v) :: d'
      else (k', v') :: dict_setitem k v d'
  end.

(** [k.strip()] *)
Definition strip_key (k : option string) : outcome string :=
  match k with
  | Some s => Return (PyStr.strip s)
  | None => Raise (AttributeError "'NoneType' object has no attribute 'strip'")
  end.

(** [v.strip() if v is not None else v] *)
Definition strip_value (v : cell) : outcome (option string) :=
  match v with
  | CellStr s => Return (Some (PyStr.strip s))
  | CellNone => Return None
  | CellRest _ => Raise (AttributeError "'list' object has no attribute 'strip'")
  end.

(** The dict comprehension of [StripWhitespaceReader.next], applied to
    the items of the row that [DictReader.next] returned. *)
Fixpoint strip_items (items : raw_row) (acc : row) : outcome row :=
  match items with
  | [] => Return acc
  | (k, v) :: rest =>
      match strip_value v with
      | Raise e => Raise e
      | Return v' =>
          match strip_key k with
          | Raise e => Raise e
          | Return k' => strip_items rest (dict_setitem k' v' acc)
          end
      end
  end.

Definition next (r : raw_row) : outcome row := strip_items r [].

End CvsBase.

(* ================================================================== *)
(** * spreadsheet_handler.py *)
(* ================================================================== *)

Module Handler.

Import PyStr.

(** A Python class: its name and its direct base classes ([__bases__]).
    Class identity is identity of names. *)
Inductive pyclass := PyClass (name : string) (bases : list pyclass).

Definition class_name (c : pyclass) : string :=
  match c with PyClass n _ => n end.
Definition class_bases (c : pyclass) : list pyclass :=
  match c with PyClass _ bs => bs end.
Definition class_eqb (c d : pyclass) : bool :=
  String.eqb (class_name c) (class_name d).

(** [b in cs] for a tuple of classes *)
Definition class_in (b : pyclass) (cs : list pyclass) : bool :=
  existsb (class_eqb b) cs.

(** [issubclass(c, b)]: [b] is [c] or an ancestor of [c] at any depth. *)
Fixpoint issubclass (c b : pyclass) : bool :=
  match c with
  | PyClass n bs =>
      String.eqb (class_name b) n || existsb (fun d => issubclass d b) bs
  end.

(** The classes imported from [amf_check_writer.cvs] and
    [amf_check_writer.yaml_check]; their declarations are taken as
    given. *)
Record cv_classes := {
  InstrumentsCV : pyclass;
  ProductsCV : pyclass;
  PlatformsCV : pyclass;
  ScientistsCV : pyclass;
  VariablesCV : pyclass;
  DimensionsCV : pyclass;
  YamlCheck : pyclass
}.

(** A JSON-serializable value, the content of [cv_dict]. *)
Inductive json :=
| JNull
| JStr (s : string)
| JList (l : list json)
| JDict (items : list (string * json)).

(** The [AmfFile] objects the handler builds. *)
Inductive amf_file :=
| CV (cls : pyclass) (facets : list string) (cv_dict : json)
| FileInfoCheck (facets : list string)
| FileStructureCheck (facets : list string)
| GlobalAttrCheck (facets : list string) (cv_dict : json)
| WrapperYamlCheck (child_checks : list amf_file) (facets : list string).

(** [f.facets] *)
Definition facets_of (f : amf_file) : list string :=
  match f with
  | CV _ fs _ => fs
  | FileInfoCheck fs => fs
  | FileStructureCheck fs => fs
  | GlobalAttrCheck fs _ => fs
  | WrapperYamlCheck _ fs => fs
  end.

(** [f.get_filename(ext)] *)
Definition get_filename (f : amf_file) (ext : string) : string :=
  AmfFile.get_filename (facets_of f) ext.

Definition is_wrapper (f : amf_file) : bool :=
  match f with WrapperYamlCheck _ _ => true | _ => false end.

(** Enumeration of valid deployment modes *)
Inductive DeploymentModes := LAND | SEA | AIR.

Definition mode_value (m : DeploymentModes) : string :=
  match m with
  | LAND => "Land"
  | SEA => "Sea"
  | AIR => "Air"
  end.

(** [for mode in DeploymentModes] *)
Definition all_modes : list DeploymentModes := [LAND; SEA; AIR].

(** [SPREADSHEET_NAMES] *)
Definition products_dir := "Product Definition Spreadsheets".
Definition common_spreadsheet := "Common.xlsx".
Definition vocabs_spreadsheet := "Vocabularies.xlsx".
Definition global_attrs_worksheet := "Global Attributes.tsv".
Definition instruments_worksheet := "Instrument Name & Descriptors.tsv".
Definition data_products_worksheet := "Data Products.tsv".
Definition platforms_worksheet := "Platforms.tsv".
Definition scientists_worksheet := "Creators.tsv".

(** Tuple containing information required to parse a TSV file *)
Record CVParseInfo := {
  path : string;
  cls : pyclass;
  facets : list string
}.

(** What the run can observe of its surroundings: the file system, the
    parsers of the CV classes (declared outside these sources) and the
    renderer of a check. *)
Record world := {
  os_path_isfile : string -> bool;
  (** [os.walk(top)]: the [(dirpath, filenames)] of each directory *)
  os_walk : string -> list (string * list string);
  os_path_relpath : string -> string -> string;
  (** [cls(tsv_file, facets).cv_dict] for the file at a path, or the
      exception the constructor raises *)
  parse_cv : pyclass -> string -> outcome json;
  (** the same for [GlobalAttrCheck] *)
  parse_global_attrs : string -> outcome json;
  (** [open(path, "w")] followed by [write]: the exception raised, if any *)
  write_fails : string -> option exn;
  json_dumps : json -> string;
  to_yaml_check : amf_file -> string
}.

(** Mapping from variables/dimensions filename prefix to CV class and name
    to use in facets; a dict, kept in the order it is written. *)
Definition VAR_DIM_FILENAME_MAPPING (K : cv_classes)
  : list (string * (string * pyclass)) :=
  [ ("Variables", ("variable", VariablesCV K));
    ("Dimensions", ("dimension", DimensionsCV K)) ].

Fixpoint dict_get {V : Type} (k : string) (d : list (string * V)) : option V :=
  match d with
  | [] => None
  | (k', v) :: d' => if String.eqb k k' then Some v else dict_get k d'
  end.

(** ** The regular expression of [_get_per_product_parse_info]

    [(?P<name>[a-zA-Z0-9-]+)/(?P=name)\.xlsx/(?P<type>Variables|Dimensions) - Specific.tsv$]

    The name group is greedy and must be followed by ["/"], which is not
    a name character, so only the longest run of name characters can
    match; the two alternatives of the type group start with different
    letters. The matcher below therefore needs no backtracking. The dot
    before [tsv] is unescaped and matches any character but a newline;
    [$] matches at the end or before a final newline. *)

Definition is_name_char (c : ascii) : bool :=
  let n := nat_of_ascii c in
  (Nat.leb 97 n && Nat.leb n 122) || (Nat.leb 65 n && Nat.leb n 90)
  || (Nat.leb 48 n && Nat.leb n 57) || Nat.eqb n 45.

(** the longest prefix of name characters, and what follows it *)
Fixpoint span_name (s : string) : string * string :=
  match s with
  | EmptyString => (EmptyString, EmptyString)
  | String c s' =>
      if is_name_char c
      then let (a, b) := span_name s' in (String c a, b)
      else (EmptyString, s)
  end.

Definition obind {A B} (o : option A) (k : A -> option B) : option B :=
  match o with Some a => k a | None => None end.

Definition match_type (s : string) : option (string * string) :=
  match strip_prefix "Variables" s with
  | Some r => Some ("Variables", r)
  | None =>
      match strip_prefix "Dimensions" s with
      | Some r => Some ("Dimensions", r)
      | None => None
      end
  end.

Definition match_dot (s : string) : option string :=
  match s with
  | EmptyString => None
  | String c s' => if Ascii.eqb c "010"%char then None else Some s'
  end.

Definition match_end (s : string) : bool :=
  String.eqb s "" || String.eqb s (String "010"%char "").

(** [sheet_regex.match(s)]: a match starting at the first character,
    giving the groups [name] and [type] *)
Definition sheet_regex_match (s : string) : option (string * string) :=
  let (name, r1) := span_name s in
  if String.eqb name "" then None else
  obind (strip_prefix "/" r1) (fun r2 =>
  obind (strip_prefix name r2) (fun r3 =>
  obind (strip_prefix ".xlsx/" r3) (fun r4 =>
  obind (match_type r4) (fun '(ty, r5) =>
  obind (strip_prefix " - Specific" r5) (fun r6 =>
  obind (match_dot r6) (fun r7 =>
  obind (strip_prefix "tsv" r7) (fun r8 =>
  if match_end r8 then Some (name, ty) else None))))))).

(** [sheet_regex.search(s)]: the match at the leftmost position that has
    one *)
Fixpoint sheet_regex_search (s : string) : option (string * string) :=
  match sheet_regex_match s with
  | Some g => Some g
  | None =>
      match s with
      | EmptyString => None
      | String _ s' => sheet_regex_search s'
      end
  end.

(** ** The handler proper; [self.path] is [self_path] *)

Section WithWorld.

Variable K : cv_classes.
Variable w : world.
Variable self_path : string.

(** [_isfile]: wrapper around [os.path.isfile] that prints a warning
    message if path is not a file *)
Definition _isfile (p : string) : M bool :=
  let isfile := os_path_isfile w p in
  (if negb isfile
   then print Stderr ("WARNING: Expected to find file at '" ++ p ++ "'")
   else ret tt) ;;
  ret isfile.

(** [_get_common_var_dim_parse_info] *)
Definition _get_common_var_dim_parse_info : list CVParseInfo :=
  let common_dir := os_path_join self_path common_spreadsheet in
  flat_map (fun '(prefix, (name, c)) =>
    map (fun mode =>
      let dep_m := mode_value mode in
      let filename := prefix ++ " - " ++ dep_m ++ ".tsv" in
      {| path := os_path_join common_dir filename;
         cls := c;
         facets := ["product"; "common"; name; lower dep_m] |})
      all_modes)
    (VAR_DIM_FILENAME_MAPPING K).

(** The body of the inner loop of [_get_per_product_parse_info] for one
    file name of one directory. *)
Definition scan_file (dirpath fname : string) : M (list CVParseInfo) :=
  let p := os_path_join dirpath fname in
  match sheet_regex_search p with
  | None => print Stdout ("WARNING: No match for '" ++ p ++ "'") ;; ret []
  | Some (prod_name, cv_type) =>
      match dict_get cv_type (VAR_DIM_FILENAME_MAPPING K) with
      | None => raise (KeyError cv_type)
      | Some (name, c) =>
          ret [ {| path := os_path_relpath w p self_path;
                   cls := c;
                   facets := ["product"; prod_name; name] |} ]
      end
  end.

Fixpoint scan_files (dirpath : string) (filenames : list string)
  : M (list CVParseInfo) :=
  match filenames with
  | [] => ret []
  | fname :: rest =>
      here <- scan_file dirpath fname ;;
      later <- scan_files dirpath rest ;;
      ret (here ++ later)%list
  end.

Fixpoint scan_dirs (walk : list (string * list string))
  : M (list CVParseInfo) :=
  match walk with
  | [] => ret []
  | (dirpath, filenames) :: rest =>
      here <- scan_files dirpath filenames ;;
      later <- scan_dirs rest ;;
      ret (here ++ later)%list
  end.

(** [list(self._get_per_product_parse_info())] *)
Definition _get_per_product_parse_info : M (list CVParseInfo) :=
  let prods_dir := os_path_join self_path products_dir in
  scan_dirs (os_walk w prods_dir).

Definition static_path (name : string) : string :=
  os_path_join vocabs_spreadsheet name.

Definition static_parse_infos : list CVParseInfo :=
  [ {| path := static_path instruments_worksheet;
       cls := InstrumentsCV K; facets := ["instrument"] |};
    {| path := static_path data_products_worksheet;
       cls := ProductsCV K; facets := ["product"] |};
    {| path := static_path platforms_worksheet;
       cls := PlatformsCV K; facets := ["platform"] |};
    {| path := static_path scientists_worksheet;
       cls := ScientistsCV K; facets := ["scientist"] |} ].

(** [base_class and base_class not in cls.__bases__] *)
Definition filtered_out (base_class : option pyclass) (c : pyclass) : bool :=
  match base_class with
  | None => false
  | Some b => negb (class_in b (class_bases c))
  end.

(** The loading loop of [get_all_cvs], lines 194-210, consumed to the
    end as [list(...)] does. *)
Fixpoint load_cvs (base_class : option pyclass) (infos : list CVParseInfo)
  : M (list amf_file) :=
  match infos with
  | [] => ret []
  | i :: rest =>
      if filtered_out base_class (cls i) then load_cvs base_class rest
      else
        let full_path := os_path_join self_path (path i) in
        isf <- _isfile full_path ;;
        if negb isf then load_cvs base_class rest
        else
          match parse_cv w (cls i) full_path with
          | Return d =>
              later <- load_cvs base_class rest ;;
              ret (CV (cls i) (facets i) d :: later)
          | Raise DimensionsSheetNoRowsError =>
              (* Ignore if there is no data in the Dimensions worksheet *)
              load_cvs base_class rest
          | Raise (CVParseError m) =>
              print Stderr ("WARNING: Failed to parse '" ++ full_path
                            ++ "': " ++ exn_str (CVParseError m)) ;;
              load_cvs base_class rest
          | Raise e => raise e
          end
  end.

Definition no_products_warning : string :=
  "WARNING: No product variable/dimension spreadsheets found in "
  ++ os_path_join self_path products_dir.

(** [list(self.get_all_cvs(base_class))] *)
Definition get_all_cvs (base_class : option pyclass) : M (list amf_file) :=
  let cv_parse_infos :=
    (static_parse_infos ++ _get_common_var_dim_parse_info)%list in
  per_product_cvs <- _get_per_product_parse_info ;;
  let cv_parse_infos := (cv_parse_infos ++ per_product_cvs)%list in
  (match per_product_cvs with
   | [] => print Stderr no_products_warning
   | _ :: _ => ret tt
   end) ;;
  load_cvs base_class cv_parse_infos.

(** [if k not in d: d[k] = []] then [d[k].append(v)] *)
Fixpoint dict_append {V : Type} (k : string) (v : V)
    (d : list (string * list V)) : list (string * list V) :=
  match d with
  | [] => [(k, [v])]
  | (k', vs) :: d' =>
      if String.eqb k k' then (k', (vs ++ [v])%list) :: d'
      else (k', vs) :: dict_append k v d'
  end.

(** One round of the grouping loop of [write_yaml], lines 105-116; the
    state is [(product_cvs, common_cvs)]. *)
Definition group_step
    (acc : list (string * list amf_file) * list (string * list amf_file))
    (cv : amf_file) :=
  let (product_cvs, common_cvs) := acc in
  let fs := facets_of cv in
  if Nat.ltb 2 (List.length fs) && String.eqb (nth 0 fs "") "product" then
    let prod_name := nth 1 fs "" in
    if String.eqb prod_name "common" then
      let dep_m := last fs "" in
      (product_cvs, dict_append dep_m cv common_cvs)
    else
      (dict_append prod_name cv product_cvs, common_cvs)
  else acc.

Definition group_cvs (cvs : list amf_file) :=
  fold_left group_step cvs ([], []).

(** [common_cvs.get(dep_m, [])] *)
Definition dict_get_default {V : Type} (k : string)
    (d : list (string * list V)) : list V :=
  match dict_get k d with
  | Some vs => vs
  | None => []
  end.

(** The top-level YAML check of each product/deployment-mode combination,
    lines 120-125. *)
Definition wrapper_checks (global_checks : list amf_file)
    (product_cvs common_cvs : list (string * list amf_file))
  : list amf_file :=
  flat_map (fun '(prod_name, prod_cvs) =>
    map (fun mode =>
      let dep_m := lower (mode_value mode) in
      let facets := ["product"; prod_name; dep_m] in
      let child_checks :=
        (global_checks ++ prod_cvs
         ++ dict_get_default dep_m common_cvs)%list in
      WrapperYamlCheck child_checks facets)
      all_modes)
    product_cvs.

(** The global checks of [write_yaml], lines 89-99. *)
Definition get_global_checks : M (list amf_file) :=
  let global_checks :=
    [FileInfoCheck ["file_info"]; FileStructureCheck ["file_structure"]] in
  let global_attrs_path :=
    os_path_join (os_path_join self_path common_spreadsheet)
                 global_attrs_worksheet in
  isf <- _isfile global_attrs_path ;;
  if isf then
    match parse_global_attrs w global_attrs_path with
    | Return d => ret (global_checks ++ [GlobalAttrCheck ["global_attrs"] d])%list
    | Raise e => raise e
    end
  else ret global_checks.

(** [all_checks] of [write_yaml], given the CVs and the global checks *)
Definition all_checks_of (cvs global_checks : list amf_file)
  : list amf_file :=
  let (product_cvs, common_cvs) := group_cvs cvs in
  (cvs ++ global_checks
   ++ wrapper_checks global_checks product_cvs common_cvs)%list.

(** [write_yaml] up to the call of [_write_output_files]: the list
    [all_checks] *)
Definition compile_checks : M (list amf_file) :=
  cvs <- get_all_cvs (Some (YamlCheck K)) ;;
  global_checks <- get_global_checks ;;
  ret (all_checks_of cvs global_checks).

(** ["{}".format(count)] *)
Definition str_of_nat (n : nat) : string :=
  DecimalString.NilEmpty.string_of_uint (Nat.to_uint n).

(** The loop of [_write_output_files], returning [count]. *)
Fixpoint write_loop (files : list amf_file) (callback : amf_file -> string)
    (output_dir ext : string) (count : nat) : M nat :=
  match files with
  | [] => ret count
  | f :: rest =>
      let fname := get_filename f ext in
      let outpath := os_path_join output_dir fname in
      match write_fails w outpath with
      | Some e => raise e
      | None =>
          ([WriteFile outpath (callback f)], Return tt) ;;
          write_loop rest callback output_dir ext (count + 1)
      end
  end.

(** [_write_output_files] *)
Definition _write_output_files (files : list amf_file)
    (callback : amf_file -> string) (output_dir ext : string) : M unit :=
  count <- write_loop files callback output_dir ext 0 ;;
  print Stdout (str_of_nat count ++ " files written").

(** [write_yaml] *)
Definition write_yaml (output_dir : string) : M unit :=
  all_checks <- compile_checks ;;
  _write_output_files all_checks (to_yaml_check w) output_dir "yml".

(** [BaseCV.to_json]: [json.dumps(self.cv_dict, indent=4)] *)
Definition to_json (f : amf_file) : string :=
  match f with
  | CV _ _ d => json_dumps w d
  | GlobalAttrCheck _ d => json_dumps w d
  | _ => ""
  end.

(** [write_cvs] with [write_pyessv=False] *)
Definition write_cvs (output_dir : string) : M unit :=
  cvs <- get_all_cvs None ;;
  _write_output_files cvs to_json output_dir "json".

End WithWorld.

End Handler.

(* ================================================================== *)
(** * download_from_drive.py *)
(* ================================================================== *)

Module Drive.

Import PyStr.

(** A parenthesized string, not a tuple: [x in SPREADSHEET_MIME_TYPES]
    asks whether [x] occurs in it. *)
Definition SPREADSHEET_MIME_TYPES : string :=
  "application/vnd.google-apps.spreadsheet".

Definition FOLDER_MIME_TYPE : string := "application/vnd.google-apps.folder".

Definition FOLDERS_TO_SKIP : list string :=
  ["products under development"; "TO_DELETE_SOON"; "Archive_1"].

(** ** [api_call]

    The times are floating-point numbers; their arithmetic is left to
    two functions that stand for the expressions of the source. The
    state is the list [API_CALL_TIMES]. *)

Section ApiCall.

Variable float : Type.
(** [now - t > min_time] *)
Variable exceeds_window : float -> float -> bool.
(** [min_time - now + t + 2] *)
Variable wait_time : float -> float -> float.

Definition max_requests : nat := 100.

(** The loop [while now - API_CALL_TIMES[0] > min_time:
    API_CALL_TIMES.pop(0)]: the list it leaves, and whether it raised
    [IndexError] at [API_CALL_TIMES[0]]. *)
Fixpoint trim (now : float) (times : list float) : list float * bool :=
  match times with
  | [] => ([], true)
  | t :: rest => if exceeds_window now t then trim now rest else (times, false)
  end.

Inductive limiter_result :=
| Proceeds (times : list float) (slept : option float)
| RaisesIndexError (times : list float).

(** The body of [inner] up to the call of [func]: [now] and [after] are
    what the two calls of [time.time()] return, [times] is
    [API_CALL_TIMES] before; the result holds [API_CALL_TIMES] after and
    the argument of [time.sleep], if it is called. *)
Definition api_call (now after : float) (times : list float)
  : limiter_result :=
  let (times1, raised) :=
    match times with
    | [] => ([], false)
    | _ :: _ => trim now times
    end in
  if raised then RaisesIndexError times1
  else
    let slept :=
      match times1 with
      | t0 :: _ =>
          if Nat.leb max_requests (List.length times1)
          then Some (wait_time now t0) else None
      | [] => None
      end in
    Proceeds (times1 ++ [after])%list slept.

End ApiCall.

(** ** Where the sheets are saved *)

(** [new_folder] of [find_all_spreadsheets] *)
Definition new_folder (folder_name name : string) : string :=
  os_path_join folder_name name.

(** [target_dir] of [save_spreadsheet_callback] *)
Definition target_dir (out_dir parent_folder name : string) : string :=
  os_path_join (os_path_join out_dir parent_folder) name.

(** [out_file] of [download_all_sheets] for the sheet titled [title] *)
Definition out_file (out_dir title : string) : string :=
  os_path_join out_dir (title ++ ".tsv").

(** ** [find_all_spreadsheets]

    An entry of a folder listing, with the listing of the entry itself:
    what [get_folder_children] returns for its [id]. *)
Inductive drive_file :=
| Entry (name id mimeType : string) (children : list drive_file).

Inductive action :=
| Skipping (name : string)
| Callback (name id folder_name : string).

(** The body of the loop of [find_all_spreadsheets] for one entry, when
    the listings are those of the entry. *)
Fixpoint visit (folder_name : string) (f : drive_file) : list action :=
  match f with
  | Entry name id mimeType children =>
      if String.eqb mimeType FOLDER_MIME_TYPE then
        if existsb (String.eqb name) FOLDERS_TO_SKIP
        then [Skipping name]
        else flat_map (visit (new_folder folder_name name)) children
      else if contains mimeType SPREADSHEET_MIME_TYPES
        then [Callback name id folder_name]
      else []
  end.

Definition find_all_spreadsheets (listing : list drive_file)
    (folder_name : string) : list action :=
  flat_map (visit folder_name) listing.

End Drive.

(* ================================================================== *)
(** * Vocabulary of the statements *)
(* ================================================================== *)

(** A token that does not contain the facet separator. *)
Definition clean_token (t : string) : Prop := PyStr.mem_char "_"%char t = false.

(** An identifier token of a facet sequence: it is not empty and it does
    not contain the facet separator. *)
Definition identifier_token (t : string) : Prop :=
  t <> "" /\ clean_token t.

(** The characters that [str.strip()] takes for whitespace on a byte
    string: space, tab, line feed, vertical tab, form feed and carriage
    return. *)
Definition whitespace : list ascii :=
  [" "; "009"; "010"; "011"; "012"; "013"]%char.

(** [s] holds nothing but whitespace. *)
Definition blank (s : string) : Prop :=
  Forall (fun c => In c whitespace) (list_ascii_of_string s).

(** [t] is [s] with its leading and trailing whitespace removed: [s] is
    [t] between two runs of whitespace, and [t] neither starts nor ends
    with a whitespace character. *)
Definition trimmed_of (s t : string) : Prop :=
  (exists pre post, s = pre ++ t ++ post /\ blank pre /\ blank post) /\
  (forall c rest, t = String c rest -> ~ In c whitespace) /\
  (forall front c, t = front ++ String c "" -> ~ In c whitespace).

(** [v] is what a row may hold for the cell [c] of the underlying row:
    the cell with its leading and trailing whitespace removed, and
    [None] for [None]. *)
Definition trimmed_cell (c : CvsBase.cell) (v : option string) : Prop :=
  match c with
  | CvsBase.CellStr s => exists t, v = Some t /\ trimmed_of s t
  | CvsBase.CellNone => v = None
  | CvsBase.CellRest _ => False
  end.

(** Every character of [s] is whitespace. *)
Fixpoint all_space (s : string) : bool :=
  match s with
  | EmptyString => true
  | String c s' => PyStr.is_space c && all_space s'
  end.

(** [s] neither starts nor ends with whitespace. *)
Definition is_stripped (s : string) : Prop :=
  (forall c, PyStr.head_char s = Some c -> PyStr.is_space c = false) /\
  (forall c, PyStr.last_char s = Some c -> PyStr.is_space c = false).

(** An item of a row whose key and whose value, unless it is [None], are
    stripped. *)
Definition stripped_item (kv : string * option string) : Prop :=
  is_stripped (fst kv) /\
  forall s, snd kv = Some s -> is_stripped s.

(** Where the loop of [get_all_cvs] looks for the file of an entry. *)
Definition full_path_of (self_path : string) (i : Handler.CVParseInfo) : string :=
  PyStr.os_path_join self_path (Handler.path i).

(** The entry is loaded: it passes the class filter, its file exists and
    its parser returns. *)
Definition loaded (w : Handler.world) (self_path : string)
    (base_class : option Handler.pyclass) (i : Handler.CVParseInfo) : bool :=
  negb (Handler.filtered_out base_class (Handler.cls i))
  && Handler.os_path_isfile w (full_path_of self_path i)
  && match Handler.parse_cv w (Handler.cls i) (full_path_of self_path i) with
     | Return _ => true
     | Raise _ => false
     end.

(** The warning of a source that fails to parse. *)
Definition parse_warning (full_path msg : string) : event :=
  Print Stderr ("WARNING: Failed to parse '" ++ full_path ++ "': " ++ msg).

(** The path a record is written to. *)
Definition outpath_of (output_dir ext : string) (f : Handler.amf_file) : string :=
  PyStr.os_path_join output_dir (Handler.get_filename f ext).

(** The write of one record. *)
Definition write_of (callback : Handler.amf_file -> string)
    (output_dir ext : string) (f : Handler.amf_file) : event :=
  WriteFile (outpath_of output_dir ext f) (callback f).

Definition stream_eqb (a b : stream) : bool :=
  match a, b with
  | Stdout, Stdout | Stderr, Stderr => true
  | _, _ => false
  end.

Definition event_eqb (a b : event) : bool :=
  match a, b with
  | Print s l, Print s' l' => stream_eqb s s' && String.eqb l l'
  | WriteFile p c, WriteFile p' c' => String.eqb p p' && String.eqb c c'
  | _, _ => false
  end.

(** How many times the event [e] occurs in [l]. *)
Definition count_event (e : event) (l : list event) : nat :=
  List.length (filter (event_eqb e) l).

(** The warnings of the loading loop and of [_isfile]. *)
Definition load_warning (e : event) : Prop :=
  (exists p, e = Print Stderr ("WARNING: Expected to find file at '" ++ p ++ "'"))
  \/ (exists p m, e = parse_warning p m).

(** The path of the global attributes sheet. *)
Definition global_attrs_path (self_path : string) : string :=
  PyStr.os_path_join
    (PyStr.os_path_join self_path Handler.common_spreadsheet)
    Handler.global_attrs_worksheet.

(** ** Product-scoped records *)

(** The facets of the record start with ["product"] and are more than
    two. *)
Definition product_scoped (f : Handler.amf_file) : bool :=
  Nat.ltb 2 (List.length (Handler.facets_of f))
  && String.eqb (nth 0 (Handler.facets_of f) "") "product".

Definition second_facet (f : Handler.amf_file) : string :=
  nth 1 (Handler.facets_of f) "".

Definition last_facet (f : Handler.amf_file) : string :=
  last (Handler.facets_of f) "".

(** A record of a named product: product-scoped, and its second facet is
    not ["common"]. *)
Definition is_named (f : Handler.amf_file) : bool :=
  product_scoped f && negb (String.eqb (second_facet f) "common").

(** A common record: product-scoped, with second facet ["common"]. *)
Definition is_common (f : Handler.amf_file) : bool :=
  product_scoped f && String.eqb (second_facet f) "common".

(** The records of the named product [p], in the order of [cvs]. *)
Definition records_of_product (p : string) (cvs : list Handler.amf_file) :=
  filter (fun f => is_named f && String.eqb (second_facet f) p) cvs.

(** The common records whose last facet is [m], in the order of [cvs]. *)
Definition common_records (m : string) (cvs : list Handler.amf_file) :=
  filter (fun f => is_common f && String.eqb (last_facet f) m) cvs.

(** The names of the named products, one for each of their records. *)
Definition named_products (cvs : list Handler.amf_file) : list string :=
  map second_facet (filter is_named cvs).

(** The lower-cased deployment mode. *)
Definition mode_token (m : Handler.DeploymentModes) : string :=
  PyStr.lower (Handler.mode_value m).

(** The facets of the record are [fs]. *)
Definition has_facets (fs : list string) (f : Handler.amf_file) : bool :=
  if list_eq_dec string_dec (Handler.facets_of f) fs then true else false.

(** The wrapper [write_yaml] builds for one item [(p, l)] of
    [product_cvs] and one mode, given the global checks and
    [common_cvs]. *)
Definition wrapper_for (gc : list Handler.amf_file)
    (C : list (string * list Handler.amf_file))
    (p : string) (l : list Handler.amf_file) (m : Handler.DeploymentModes)
  : Handler.amf_file :=
  Handler.WrapperYamlCheck
    (gc ++ l ++ Handler.dict_get_default (mode_token m) C)%list
    ["product"; p; mode_token m].

(** The wrapper check of product [p] and deployment mode [m]. *)
Definition the_wrapper (gc cvs : list Handler.amf_file) (p : string)
    (m : Handler.DeploymentModes) : Handler.amf_file :=
  Handler.WrapperYamlCheck
    (gc ++ records_of_product p cvs ++ common_records (mode_token m) cvs)%list
    ["product"; p; mode_token m].

(** Every character of [s] is allowed in a product name. *)
Fixpoint all_name_chars (s : string) : bool :=
  match s with
  | EmptyString => true
  | String c s' => Handler.is_name_char c && all_name_chars s'
  end.

(** The facets the per-product scan can give an entry. *)
Definition product_facets (fs : list string) : Prop :=
  exists n k,
    fs = ["product"; n; k] /\ n <> "" /\ all_name_chars n = true /\
    (k = "variable" \/ k = "dimension").

(** The facets of the entries with a fixed path: the four vocabularies
    and the common sheets of each kind and mode. *)
Definition fixed_facets : list (list string) :=
  [ ["instrument"]; ["product"]; ["platform"]; ["scientist"];
    ["product"; "common"; "variable"; "land"];
    ["product"; "common"; "variable"; "sea"];
    ["product"; "common"; "variable"; "air"];
    ["product"; "common"; "dimension"; "land"];
    ["product"; "common"; "dimension"; "sea"];
    ["product"; "common"; "dimension"; "air"] ].

(** The facets a leaf record can have. *)
Definition leaf_facets (fs : list string) : Prop :=
  In fs fixed_facets \/ product_facets fs.

(** The facets of a wrapper check. *)
Definition wrapper_facets (fs : list string) : Prop :=
  exists p m, fs = ["product"; p; mode_token m] /\ all_name_chars p = true.

(** The name space of a record, cut at the separators. *)
Definition tokens_of (f : Handler.amf_file) : list string :=
  PyStr.split "_"%char (AmfFile.namespace (Handler.facets_of f)).

(** The tokens of the name spaces of the global checks. *)
Definition global_tokens : list (list string) :=
  [ ["file"; "info"]; ["file"; "structure"]; ["global"; "attrs"] ].

(** The file names of the records, for the extension [ext]. *)
Definition filenames (ext : string) (l : list Handler.amf_file) : list string :=
  map (fun f => Handler.get_filename f ext) l.

(** A list of facets that [split] recovers from its name space. *)
Definition clean_facets (fs : list string) : Prop :=
  fs <> [] /\ Forall clean_token fs.

(** The entries [get_all_cvs] loads, given those of the scan. *)
Definition parse_infos_of (K : Handler.cv_classes) (self_path : string)
    (pp : list Handler.CVParseInfo) : list Handler.CVParseInfo :=
  ((Handler.static_parse_infos K
    ++ Handler._get_common_var_dim_parse_info K self_path)
   ++ pp)%list.

(** What [get_all_cvs] prints between the scan and the loading loop. *)
Definition no_products_events_of (self_path : string)
    (pp : list Handler.CVParseInfo) : list event :=
  match pp with
  | [] => [Print Stderr (Handler.no_products_warning self_path)]
  | _ :: _ => []
  end.

(** A scan that returns: its entries have product facets and all it
    prints goes to the standard output. *)
Definition scan_ok (m : M (list Handler.CVParseInfo)) : Prop :=
  exists l,
    result m = Return l /\
    Forall (fun i => product_facets (Handler.facets i)) l /\
    Forall (fun e => exists line, e = Print Stdout line) (events m).

(** ** Rows of the reader *)

(** The item has a header for a key and a cell or [None] for a value:
    it does not come from the surplus cells of a long row. *)
Definition plain_item (kv : option string * CvsBase.cell) : bool :=
  match kv with
  | (Some _, CvsBase.CellStr _) | (Some _, CvsBase.CellNone) => true
  | _ => false
  end.

(** The stripped key of an item. *)
Definition stripped_key (kv : option string * CvsBase.cell) : string :=
  match fst kv with
  | Some k => PyStr.strip k
  | None => ""
  end.

(** The stripped value of an item. *)
Definition stripped_value (kv : option string * CvsBase.cell) : option string :=
  match snd kv with
  | CvsBase.CellStr s => Some (PyStr.strip s)
  | _ => None
  end.

(** The item with key and value stripped. *)
Definition stripped_pair (kv : option string * CvsBase.cell)
  : string * option string :=
  (stripped_key kv, stripped_value kv).

(** The stripped value of the last item of the row whose stripped key
    is [k]. *)
Fixpoint last_binding (k : string) (raw : CvsBase.raw_row)
  : option (option string) :=
  match raw with
  | [] => None
  | kv :: rest =>
      match last_binding k rest with
      | Some v => Some v
      | None =>
          if String.eqb k (stripped_key kv) then Some (stripped_value kv)
          else None
      end
  end.

(** A delivered row, seen again as a row of [DictReader]. *)
Definition as_raw (r : CvsBase.row) : CvsBase.raw_row :=
  map (fun kv =>
         (Some (fst kv),
          match snd kv with
          | Some s => CvsBase.CellStr s
          | None => CvsBase.CellNone
          end)) r.

(** ** Entries of the loading loop *)

(** An outcome of a parser that the loading loop handles itself: a
    result or one of the two parse errors. *)
Definition tame (o : outcome Handler.json) : bool :=
  match o with
  | Return _ => true
  | Raise DimensionsSheetNoRowsError => true
  | Raise (CVParseError _) => true
  | Raise _ => false
  end.

(** The entries the parsers of which are tame where the loop calls
    them. *)
Definition tame_entry (w : Handler.world) (self_path : string)
    (bc : option Handler.pyclass) (i : Handler.CVParseInfo) : bool :=
  Handler.filtered_out bc (Handler.cls i)
  || negb (Handler.os_path_isfile w (full_path_of self_path i))
  || tame (Handler.parse_cv w (Handler.cls i) (full_path_of self_path i)).

(** The record an entry gives, if any. *)
Definition record_of (w : Handler.world) (self_path : string)
    (bc : option Handler.pyclass) (i : Handler.CVParseInfo)
  : list Handler.amf_file :=
  if Handler.filtered_out bc (Handler.cls i) then []
  else if Handler.os_path_isfile w (full_path_of self_path i) then
    match Handler.parse_cv w (Handler.cls i) (full_path_of self_path i) with
    | Return d => [Handler.CV (Handler.cls i) (Handler.facets i) d]
    | Raise _ => []
    end
  else [].

(** The warning an entry gives, if any. *)
Definition warnings_of (w : Handler.world) (self_path : string)
    (bc : option Handler.pyclass) (i : Handler.CVParseInfo) : list event :=
  if Handler.filtered_out bc (Handler.cls i) then []
  else if Handler.os_path_isfile w (full_path_of self_path i) then
    match Handler.parse_cv w (Handler.cls i) (full_path_of self_path i) with
    | Raise (CVParseError m) => [parse_warning (full_path_of self_path i) m]
    | _ => []
    end
  else [Print Stderr ("WARNING: Expected to find file at '"
                      ++ full_path_of self_path i ++ "'")].

(** The class of the record has [b] among its direct bases. *)
Definition has_base (b : Handler.pyclass) (f : Handler.amf_file) : bool :=
  match f with
  | Handler.CV c _ _ => Handler.class_in b (Handler.class_bases c)
  | _ => false
  end.

(** ** Paths of the per-product scan *)

(** The paths the scan looks at, in the order of [os.walk]. *)
Definition walked_paths (walk : list (string * list string)) : list string :=
  flat_map (fun df => map (PyStr.os_path_join (fst df)) (snd df)) walk.

Definition is_sheet_path (p : string) : bool :=
  match Handler.sheet_regex_search p with
  | Some _ => true
  | None => false
  end.

(** The entry the scan makes of a path, if the path is that of a
    sheet. *)
Definition entry_of (K : Handler.cv_classes) (w : Handler.world)
    (self_path p : string) : option Handler.CVParseInfo :=
  match Handler.sheet_regex_search p with
  | Some (prod_name, cv_type) =>
      match Handler.dict_get cv_type (Handler.VAR_DIM_FILENAME_MAPPING K) with
      | Some (name, c) =>
          Some {| Handler.path := Handler.os_path_relpath w p self_path;
                  Handler.cls := c;
                  Handler.facets := ["product"; prod_name; name] |}
      | None => None
      end
  | None => None
  end.

(** The warning for a path that is not that of a sheet. *)
Definition no_match_warning (p : string) : event :=
  Print Stdout ("WARNING: No match for '" ++ p ++ "'").

(** What a scan gives for a list of paths: its entries and its
    output. *)
Definition scan_result (K : Handler.cv_classes) (w : Handler.world)
    (self_path : string) (paths : list string)
  : M (list Handler.CVParseInfo) :=
  (map no_match_warning (filter (fun p => negb (is_sheet_path p)) paths),
   Return (flat_map (fun p => match entry_of K w self_path p with
                              | Some i => [i]
                              | None => []
                              end) paths)).

(** The path of the sheet of kind [t] of the product [n], below
    whatever [pre] stands for. *)
Definition sheet_path (pre n t : string) : string :=
  pre ++ n ++ "/" ++ n ++ ".xlsx/" ++ t ++ " - Specific.tsv".

(** The last [k] characters of [s], or [s] if it is shorter. *)
Fixpoint lastn (k : nat) (s : string) : string :=
  match s with
  | EmptyString => EmptyString
  | String c s' => if Nat.leb k (String.length s') then lastn k s' else s
  end.

(** ** Children of wrappers *)

(** [cv] is a child of the wrapper [f]. *)
Definition child_of (cv f : Handler.amf_file) : Prop :=
  match f with
  | Handler.WrapperYamlCheck children _ => In cv children
  | _ => False
  end.

(** The token is that of a deployment mode. *)
Definition is_mode_token (t : string) : bool :=
  existsb (fun m => String.eqb t (mode_token m)) Handler.all_modes.

(** A written path: the events of a run that are writes, as paths. *)
Definition written_paths (evs : list event) : list string :=
  flat_map (fun e => match e with
                     | WriteFile p _ => [p]
                     | Print _ _ => []
                     end) evs.

(** ** The common sheets *)

(** The file names of the common sheets, by kind and mode. *)
Definition common_sheet_names : list string :=
  [ "Variables - Land.tsv"; "Variables - Sea.tsv"; "Variables - Air.tsv";
    "Dimensions - Land.tsv"; "Dimensions - Sea.tsv"; "Dimensions - Air.tsv" ].

(** The path of a sheet of the common spreadsheet in the tree below
    [self_path], where the global attributes sheet is looked for too. *)
Definition common_sheet_path (self_path name : string) : string :=
  PyStr.os_path_join (PyStr.os_path_join self_path Handler.common_spreadsheet)
                     name.

(** ** The log of the rate limiter *)

(** The log without its leading entries that lie outside the window. *)
Fixpoint within_window {float : Type} (old : float -> bool)
    (times : list float) : list float :=
  match times with
  | [] => []
  | t :: rest => if old t then within_window old rest else times
  end.

(** ** Listings of the drive *)

(** The entry with the listings removed that [find_all_spreadsheets]
    has no use for: those of skipped folders and of entries that are not
    folders. *)
Fixpoint prune (f : Drive.drive_file) : Drive.drive_file :=
  match f with
  | Drive.Entry name id mimeType children =>
      if String.eqb mimeType Drive.FOLDER_MIME_TYPE
         && negb (existsb (String.eqb name) Drive.FOLDERS_TO_SKIP)
      then Drive.Entry name id mimeType (map prune children)
      else Drive.Entry name id mimeType []
  end.

(** The folder is one of those to skip. *)
Definition skipped (name : string) : bool :=
  existsb (String.eqb name) Drive.FOLDERS_TO_SKIP.

(** [reach fn listing fn' f]: starting with the listing [listing] under
    the folder name [fn], the entry [f] is met under the folder name
    [fn'], through folders that are not skipped. *)
Inductive reach : string -> list Drive.drive_file -> string
                  -> Drive.drive_file -> Prop :=
| reach_here (fn : string) (listing : list Drive.drive_file)
    (f : Drive.drive_file) :
    In f listing -> reach fn listing fn f
| reach_below (fn : string) (listing : list Drive.drive_file)
    (name id : string) (children : list Drive.drive_file)
    (fn' : string) (f : Drive.drive_file) :
    In (Drive.Entry name id Drive.FOLDER_MIME_TYPE children) listing ->
    skipped name = false ->
    reach (Drive.new_folder fn name) children fn' f ->
    reach fn listing fn' f.

(** The callbacks of the search of one entry are the entries met whose
    type is not that of a folder and occurs in the spreadsheet type. *)
Definition callbacks_spec (c : Drive.drive_file) : Prop :=
  forall fn n i fn',
    In (Drive.Callback n i fn') (Drive.visit fn c) <->
    exists mime ch,
      reach fn [c] fn' (Drive.Entry n i mime ch) /\
      mime <> Drive.FOLDER_MIME_TYPE /\
      PyStr.contains mime Drive.SPREADSHEET_MIME_TYPES = true.

(** ** Sample classes and input trees *)

Module Samples.

Import Handler.

Definition AmfFileC := PyClass "AmfFile" [].
Definition BaseCVC := PyClass "BaseCV" [AmfFileC].
Definition YamlCheckC := PyClass "YamlCheck" [AmfFileC].

(** A declaration of the CV classes in which the variable and dimension
    CVs are YAML checks and the others are not. *)
Definition K0 : cv_classes :=
  {| InstrumentsCV := PyClass "InstrumentsCV" [BaseCVC];
     ProductsCV := PyClass "ProductsCV" [BaseCVC];
     PlatformsCV := PyClass "PlatformsCV" [BaseCVC];
     ScientistsCV := PyClass "ScientistsCV" [BaseCVC];
     VariablesCV := PyClass "VariablesCV" [BaseCVC; YamlCheckC];
     DimensionsCV := PyClass "DimensionsCV" [BaseCVC; YamlCheckC];
     YamlCheck := YamlCheckC |}.

(** A class that is a YAML check only through an intermediate class. *)
Definition MidCheckC := PyClass "MidCheck" [YamlCheckC].
Definition DeepCV := PyClass "DeepCV" [BaseCVC; MidCheckC].

(** [os.path.relpath(p, start)] for a [p] below [start] *)
Definition relpath (p start : string) : string :=
  match PyStr.strip_prefix (start ++ "/") p with
  | Some r => r
  | None => p
  end.

(** A tree given by its files, by what [os.walk] reports below the
    products directory and by how its sheets parse. *)
Definition tree_with (parse : pyclass -> string -> outcome json)
    (files : list string) (walk : list (string * list string)) : world :=
  {| os_path_isfile := fun p => existsb (String.eqb p) files;
     os_walk := fun _ => walk;
     os_path_relpath := relpath;
     parse_cv := parse;
     parse_global_attrs := fun _ => Return (JDict []);
     write_fails := fun _ => None;
     json_dumps := fun _ => "{}";
     to_yaml_check := fun _ => "" |}.

(** A tree in which every sheet parses. *)
Definition tree := tree_with (fun _ _ => Return (JDict [])).

(** The same tree with an output directory that cannot be written to
    from the file named [bad] on. *)
Definition with_write_failure (w : world) (bad : string) : world :=
  {| os_path_isfile := os_path_isfile w;
     os_walk := os_walk w;
     os_path_relpath := os_path_relpath w;
     parse_cv := parse_cv w;
     parse_global_attrs := parse_global_attrs w;
     write_fails := fun p => if String.eqb p bad then Some (IOError p) else None;
     json_dumps := json_dumps w;
     to_yaml_check := to_yaml_check w |}.

Definition root := "/in".
Definition prods := "/in/Product Definition Spreadsheets".

(** One product, [radar], with a variables sheet. *)
Definition radar_dir := prods ++ "/radar/radar.xlsx".
Definition radar_tree : world :=
  tree [radar_dir ++ "/Variables - Specific.tsv"]
       [(radar_dir, ["Variables - Specific.tsv"])].

(** The sheet of [radar] exported twice, below two folders. *)
Definition twice_tree : world :=
  tree [prods ++ "/a/radar/radar.xlsx/Variables - Specific.tsv";
        prods ++ "/b/radar/radar.xlsx/Variables - Specific.tsv"]
       [(prods ++ "/a/radar/radar.xlsx", ["Variables - Specific.tsv"]);
        (prods ++ "/b/radar/radar.xlsx", ["Variables - Specific.tsv"])].

(** A products directory that holds one file, which is not a sheet. *)
Definition stray_tree : world :=
  tree [prods ++ "/README.txt"] [(prods, ["README.txt"])].

(** An empty tree. *)
Definition empty_tree : world := tree [] [].

(** The dimensions sheets have a header and no rows; a sheet below a
    folder named [broken] has no valid header. *)
Definition faulty_parse (c : pyclass) (p : string) : outcome json :=
  if class_eqb c (DimensionsCV K0) then Raise DimensionsSheetNoRowsError
  else if PyStr.contains "broken" p then Raise (CVParseError "Invalid headers")
  else Return (JDict []).

Definition sheet_of (product kind : string) : string :=
  products_dir ++ "/" ++ product ++ "/" ++ product ++ ".xlsx/" ++ kind
  ++ " - Specific.tsv".

Definition radar_vars : CVParseInfo :=
  {| path := sheet_of "radar" "Variables"; cls := VariablesCV K0;
     facets := ["product"; "radar"; "variable"] |}.
Definition radar_dims : CVParseInfo :=
  {| path := sheet_of "radar" "Dimensions"; cls := DimensionsCV K0;
     facets := ["product"; "radar"; "dimension"] |}.
Definition broken_vars : CVParseInfo :=
  {| path := sheet_of "broken" "Variables"; cls := VariablesCV K0;
     facets := ["product"; "broken"; "variable"] |}.
Definition lidar_vars : CVParseInfo :=
  {| path := sheet_of "lidar" "Variables"; cls := VariablesCV K0;
     facets := ["product"; "lidar"; "variable"] |}.

Definition faulty_tree : world :=
  tree_with faulty_parse
    (map (fun i => root ++ "/" ++ path i)
       [radar_vars; radar_dims; broken_vars; lidar_vars])
    [].

(** The leaf record of a sheet that parses in these trees. *)
Definition leaf (i : CVParseInfo) : amf_file :=
  CV (cls i) (facets i) (JDict []).

(** What check compilation emits for the tree of [radar]. *)
Definition checks_of (w : world) : list amf_file :=
  match result (compile_checks K0 w root) with
  | Return l => l
  | Raise _ => []
  end.

Definition radar_checks : list amf_file :=
  Eval vm_compute in checks_of radar_tree.

(** Two products, one of them with both sheets, the common variables of
    the mode Land and the global attributes. *)
Definition radar_lidar_tree : world :=
  tree
    [ root ++ "/" ++ path radar_vars; root ++ "/" ++ path radar_dims;
      root ++ "/" ++ path lidar_vars;
      root ++ "/Common.xlsx/Variables - Land.tsv";
      root ++ "/Common.xlsx/Global Attributes.tsv" ]
    [ (radar_dir, ["Variables - Specific.tsv"; "Dimensions - Specific.tsv"]);
      (prods ++ "/lidar/lidar.xlsx", ["Variables - Specific.tsv"]) ].

Definition radar_lidar_checks : list amf_file :=
  Eval vm_compute in checks_of radar_lidar_tree.

Definition common_vars_land : amf_file :=
  CV (VariablesCV K0) ["product"; "common"; "variable"; "land"] (JDict []).

Definition global_checks3 : list amf_file :=
  [FileInfoCheck ["file_info"]; FileStructureCheck ["file_structure"];
   GlobalAttrCheck ["global_attrs"] (JDict [])].

(** A product that is itself named [common], beside [radar]. *)
Definition common_product_vars : CVParseInfo :=
  {| path := sheet_of "common" "Variables"; cls := VariablesCV K0;
     facets := ["product"; "common"; "variable"] |}.

Definition common_product_tree : world :=
  tree
    [ root ++ "/" ++ path radar_vars; root ++ "/" ++ path common_product_vars ]
    [ (radar_dir, ["Variables - Specific.tsv"]);
      (prods ++ "/common/common.xlsx", ["Variables - Specific.tsv"]) ].

Definition common_product_checks : list amf_file :=
  Eval vm_compute in checks_of common_product_tree.

Definition global_checks2 : list amf_file :=
  [FileInfoCheck ["file_info"]; FileStructureCheck ["file_structure"]].

(** The tree of [radar] with a global attributes sheet that has no
    valid header. *)
Definition broken_attrs_tree : world :=
  {| os_path_isfile :=
       fun p => existsb (String.eqb p)
                  [ root ++ "/" ++ path radar_vars;
                    root ++ "/Common.xlsx/Global Attributes.tsv" ];
     os_walk := fun _ => [(radar_dir, ["Variables - Specific.tsv"])];
     os_path_relpath := relpath;
     parse_cv := fun _ _ => Return (JDict []);
     parse_global_attrs := fun _ => Raise (CVParseError "Invalid headers");
     write_fails := fun _ => None;
     json_dumps := fun _ => "{}";
     to_yaml_check := fun _ => "" |}.

(** Times in whole seconds, for the rate limiter. *)
Definition exceeds_window (now t : nat) : bool := Nat.ltb 120 (now - t).
Definition wait_time (now t : nat) : nat := 120 + t + 2 - now.

(** A drive with a product folder, a folder to skip and a file that is
    no spreadsheet. *)
Definition sheet_mime := "application/vnd.google-apps.spreadsheet".
Definition folder_mime := "application/vnd.google-apps.folder".
Definition drive_listing : list Drive.drive_file :=
  [ Drive.Entry "Product Definition Spreadsheets" "f1" folder_mime
      [ Drive.Entry "radar" "f2" folder_mime
          [ Drive.Entry "radar.xlsx" "s1" sheet_mime [];
            Drive.Entry "notes.pdf" "p1" "application/pdf" [] ] ];
    Drive.Entry "Archive_1" "f3" folder_mime
      [ Drive.Entry "old.xlsx" "s2" sheet_mime [] ];
    Drive.Entry "Common.xlsx" "s3" sheet_mime [] ].

(** A row as [DictReader] returns it, with padded header and cells and a
    missing last cell. *)
Definition padded_row : CvsBase.raw_row :=
  [ (Some " name ", CvsBase.CellStr "refl ");
    (Some "units", CvsBase.CellStr (String "009"%char "dBZ"));
    (Some "notes ", CvsBase.CellNone) ].

End Samples.

(* ================================================================== *)
(** * Properties of the string primitives *)
(* ================================================================== *)

Section StringFacts.

Import PyStr.

Lemma str_length_app (a b : string) :
  String.length (a ++ b) = String.length a + String.length b.
Proof.
  induction a as [|c a IH]; simpl; [reflexivity | now rewrite IH].
Qed.

Lemma app_cancel_l (a x y : string) : a ++ x = a ++ y -> x = y.
Proof.
  induction a as [|c a IH]; simpl; intros H; [exact H|].
  injection H as H. now apply IH.
Qed.

Lemma app_cancel_r (b x y : string) : x ++ b = y ++ b -> x = y.
Proof.
  revert y. induction x as [|c x IH]; intros [|d y] H; simpl in H.
  - reflexivity.
  - apply (f_equal String.length) in H. simpl in H.
    rewrite str_length_app in H. lia.
  - apply (f_equal String.length) in H. simpl in H.
    rewrite str_length_app in H. lia.
  - injection H as -> H. f_equal. now apply IH.
Qed.

(** A token without the separator splits into itself. *)
Lemma split_clean (c : ascii) (t : string) :
  mem_char c t = false -> split c t = [t].
Proof.
  induction t as [|d t IH]; simpl; [reflexivity|].
  intros H. apply orb_false_iff in H as [Hd Ht].
  rewrite Hd, (IH Ht). reflexivity.
Qed.

Lemma split_clean_app (c : ascii) (t r : string) :
  mem_char c t = false ->
  split c (t ++ String c r) = t :: split c r.
Proof.
  induction t as [|d t IH]; simpl.
  - intros _. now rewrite Ascii.eqb_refl.
  - intros H. apply orb_false_iff in H as [Hd Ht].
    rewrite Hd, (IH Ht). reflexivity.
Qed.

(** Splitting at the separator undoes [join] on a non-empty list of
    tokens that do not contain it. *)
Lemma split_join (c : ascii) (l : list string) :
  l <> [] ->
  Forall (fun t => mem_char c t = false) l ->
  split c (join (String c "") l) = l.
Proof.
  induction l as [|t l IH]; intros Hne Hcl; [congruence|].
  inversion Hcl as [|? ? Ht Hl]; subst.
  destruct l as [|u l].
  - simpl. now apply split_clean.
  - change (join (String c "") (t :: u :: l))
      with (t ++ String c "" ++ join (String c "") (u :: l)).
    simpl (String c "" ++ _).
    rewrite split_clean_app by assumption.
    f_equal. apply IH; [discriminate | assumption].
Qed.

Lemma join_inj (c : ascii) (l l' : list string) :
  l <> [] -> l' <> [] ->
  Forall (fun t => mem_char c t = false) l ->
  Forall (fun t => mem_char c t = false) l' ->
  join (String c "") l = join (String c "") l' -> l = l'.
Proof.
  intros Hl Hl' Hc Hc' E.
  rewrite <- (split_join c l), <- (split_join c l') by assumption.
  now rewrite E.
Qed.

Lemma get_filename_namespace (F G : list string) (ext : string) :
  AmfFile.get_filename F ext = AmfFile.get_filename G ext ->
  AmfFile.namespace F = AmfFile.namespace G.
Proof.
  unfold AmfFile.get_filename. intros H.
  apply app_cancel_l in H. apply app_cancel_l in H.
  exact (app_cancel_r ("." ++ ext) _ _ H).
Qed.

End StringFacts.

(* ================================================================== *)
(** * The facet namer *)
(* ================================================================== *)

Section NamerFacts.

Import PyStr.

(** The joined string starts with the first token. *)
Lemma join_first (sep t : string) (l : list string) :
  exists rest, join sep (t :: l) = t ++ rest.
Proof.
  destruct l as [|u l].
  - exists "". simpl. clear. induction t as [|c t IH]; simpl; congruence.
  - now exists (sep ++ join sep (u :: l)).
Qed.

(** Only a list that starts with the empty token, or no token at all,
    is joined to the empty string. *)
Lemma join_empty (sep : string) (l : list string) :
  Forall (fun t => t <> "") l -> join sep l = "" -> l = [].
Proof.
  destruct l as [|t l]; [reflexivity|].
  intros H E. apply Forall_cons_iff in H as [Ht _].
  destruct (join_first sep t l) as [rest R]. rewrite R in E.
  destruct t as [|c t]; [congruence | discriminate E].
Qed.

(** [join] is injective on lists of identifier tokens, the empty list
    included. *)
Lemma join_identifiers_inj (F G : list string) :
  Forall identifier_token F -> Forall identifier_token G ->
  join "_" F = join "_" G -> F = G.
Proof.
  intros HF HG E.
  assert (NF : Forall (fun t => t <> "") F)
    by (eapply Forall_impl; [|exact HF]; now intros t [Ht _]).
  assert (NG : Forall (fun t => t <> "") G)
    by (eapply Forall_impl; [|exact HG]; now intros t [Ht _]).
  assert (CF : Forall (fun t => mem_char "_"%char t = false) F)
    by (eapply Forall_impl; [|exact HF]; now intros t [_ Ht]).
  assert (CG : Forall (fun t => mem_char "_"%char t = false) G)
    by (eapply Forall_impl; [|exact HG]; now intros t [_ Ht]).
  destruct F as [|f F].
  - symmetry. apply (join_empty "_"); [exact NG | now rewrite <- E].
  - destruct G as [|g G].
    + apply (join_empty "_"); [exact NF | exact E].
    + apply (join_inj "_"%char); try assumption; discriminate.
Qed.

End NamerFacts.

(** The empty token is the one thing the identifier tokens leave out: a
    facet list holding nothing but the empty token is named like the
    empty facet list. *)
Example empty_token_named_like_no_facet :
  AmfFile.get_filename [""] "yml" = AmfFile.get_filename [] "yml".
Proof. reflexivity. Qed.

(** C4: the name space is the facets joined by ["_"] with no escaping,
    the file name is ["AMF" + "_" + namespace + "." + ext], equal inputs
    give equal outputs, and two distinct facet sequences of identifier
    tokens (non-empty, without the separator), the empty sequence
    included, get distinct file names. *)
Theorem facet_namer_injective (F G : list string) (ext : string) :
  Forall identifier_token F -> Forall identifier_token G ->
  AmfFile.namespace F = PyStr.join "_" F /\
  AmfFile.get_filename F ext = "AMF" ++ "_" ++ AmfFile.namespace F ++ "." ++ ext /\
  (F = G -> AmfFile.get_filename F ext = AmfFile.get_filename G ext) /\
  (F <> G -> AmfFile.get_filename F ext <> AmfFile.get_filename G ext).
Proof.
  intros HF HG.
  split; [reflexivity|].
  split; [reflexivity|].
  split; [now intros ->|].
  intros Hne E. apply Hne.
  apply get_filename_namespace in E.
  now apply join_identifiers_inj.
Qed.

Lemma facet_namer_injective_witness :
  AmfFile.get_filename ["product"; "radar"; "land"] "yml"
  <> AmfFile.get_filename ["product"; "radar"] "yml".
Proof.
  apply (facet_namer_injective
           ["product"; "radar"; "land"] ["product"; "radar"] "yml").
  - repeat constructor; discriminate.
  - repeat constructor; discriminate.
  - discriminate.
Defined.

(* ================================================================== *)
(** * The whitespace-stripping reader *)
(* ================================================================== *)

Section StripFacts.

Import PyStr CvsBase.

Lemma lstrip_head (s : string) (c : ascii) :
  head_char (lstrip s) = Some c -> is_space c = false.
Proof.
  induction s as [|d s IH]; simpl; [discriminate|].
  destruct (is_space d) eqn:E; [exact IH|].
  simpl. intros [= <-]. exact E.
Qed.

Lemma rstrip_last (s : string) (c : ascii) :
  last_char (rstrip s) = Some c -> is_space c = false.
Proof.
  revert c. induction s as [|d s IH]; intros c; simpl; [discriminate|].
  destruct (rstrip s) as [|e r] eqn:R.
  - destruct (is_space d) eqn:E; simpl; [discriminate|].
    intros [= <-]. exact E.
  - specialize (IH c). simpl in IH |- *.
    destruct (last_char r); exact IH.
Qed.

Lemma rstrip_head (s : string) (c : ascii) :
  head_char (rstrip s) = Some c -> head_char s = Some c.
Proof.
  destruct s as [|d s]; simpl; [discriminate|].
  destruct (rstrip s); [destruct (is_space d)|]; simpl; congruence.
Qed.

Lemma lstrip_decompose (s : string) :
  exists pre, s = pre ++ lstrip s /\ all_space pre = true.
Proof.
  induction s as [|d s [pre [E P]]]; simpl.
  - now exists "".
  - destruct (is_space d) eqn:D.
    + exists (String d pre). simpl. rewrite D, P. split; [now f_equal|reflexivity].
    + now exists "".
Qed.

Lemma rstrip_decompose (s : string) :
  exists post, s = rstrip s ++ post /\ all_space post = true.
Proof.
  induction s as [|d s [post [E P]]]; simpl.
  - now exists "".
  - destruct (rstrip s) as [|e r] eqn:R.
    + destruct (is_space d) eqn:D.
      * exists (String d post). simpl in E. subst s. simpl.
        now rewrite D, P.
      * exists post. simpl in E. subst s. now split.
    + exists post. split; [|exact P]. simpl. f_equal. exact E.
Qed.

(** [strip] removes a run of whitespace at each end and nothing else. *)
Lemma strip_spec (s : string) :
  is_stripped (strip s) /\
  exists pre post,
    s = pre ++ strip s ++ post /\
    all_space pre = true /\ all_space post = true.
Proof.
  split.
  - split; intros c H.
    + apply rstrip_head in H. now apply lstrip_head in H.
    + now apply rstrip_last in H.
  - destruct (lstrip_decompose s) as [pre [E P]].
    destruct (rstrip_decompose (lstrip s)) as [post [E' P']].
    exists pre, post. unfold strip. now rewrite <- E', <- E.
Qed.

Lemma dict_setitem_Forall {V} (P : string * V -> Prop) k v d :
  P (k, v) -> Forall P d -> Forall P (dict_setitem k v d).
Proof.
  intros Hkv. induction 1 as [|[k' v'] d Hx Hd IH]; simpl.
  - now constructor.
  - destruct (String.eqb_spec k k') as [->|_]; constructor; auto.
Qed.

Lemma dict_setitem_key_in {V} k (v : V) d :
  exists v', In (k, v') (dict_setitem k v d).
Proof.
  induction d as [|[k' v'] d [u IH]]; simpl.
  - exists v. now left.
  - destruct (String.eqb_spec k k') as [->|_].
    + exists v. now left.
    + exists u. now right.
Qed.

Lemma dict_setitem_key_kept {V} k (v : V) k0 v0 d :
  In (k0, v0) d -> exists v', In (k0, v') (dict_setitem k v d).
Proof.
  induction d as [|[k' v'] d IH]; simpl; [tauto|].
  intros [[= -> ->]|H].
  - destruct (String.eqb_spec k k0) as [->|_]; eexists; left; reflexivity.
  - destruct (IH H) as [u Hu].
    destruct (String.eqb k k'); [exists v0 | exists u]; now right.
Qed.

Lemma strip_items_stripped (items : raw_row) :
  forall acc r,
    Forall stripped_item acc ->
    strip_items items acc = Return r ->
    Forall stripped_item r.
Proof.
  induction items as [|[k v] items IH]; intros acc r Hacc; simpl.
  - now intros [= <-].
  - destruct v as [s| |l]; simpl; try discriminate;
      destruct k as [k|]; simpl; try discriminate;
      apply IH; apply dict_setitem_Forall; try assumption;
      split; simpl; try apply strip_spec; try discriminate.
    intros s0 [= <-]. apply strip_spec.
Qed.

Lemma strip_items_keys (items : raw_row) :
  forall acc r,
    strip_items items acc = Return r ->
    (forall k v, In (k, v) acc -> exists v', In (k, v') r) /\
    (forall k0 c0, In (Some k0, c0) items -> exists v', In (strip k0, v') r).
Proof.
  induction items as [|[k v] items IH]; intros acc r; simpl.
  - intros [= <-]. split; [eauto | tauto].
  - destruct (strip_value v) as [v'|] eqn:V; [|discriminate].
    destruct k as [k|]; simpl; [|discriminate].
    intros H. destruct (IH _ _ H) as [Hacc Hitems]. split.
    + intros k1 v1 Hin.
      destruct (dict_setitem_key_kept (strip k) v' k1 v1 acc Hin) as [u Hu].
      eauto.
    + intros k0 c0 [[= -> ->]|Hin]; [|eauto].
      destruct (dict_setitem_key_in (strip k0) v' acc) as [u Hu]. eauto.
Qed.

Lemma strip_items_total (items : raw_row) :
  (forall k c, In (k, c) items -> k <> None /\ forall l, c <> CellRest l) ->
  forall acc, exists r, strip_items items acc = Return r.
Proof.
  induction items as [|[k v] items IH]; intros Hwf acc; simpl.
  - eauto.
  - destruct (Hwf k v (or_introl eq_refl)) as [Hk Hv].
    destruct v as [s| |l]; [| |now destruct (Hv l)];
      (destruct k as [k|]; [|congruence]); simpl;
      apply IH; intros; apply Hwf; now right.
Qed.

End StripFacts.

Section TrimFacts.

Import PyStr CvsBase.

(** [is_space] holds of the six whitespace characters and of no other. *)
Lemma is_space_whitespace (c : ascii) :
  is_space c = true <-> In c whitespace.
Proof.
  assert (E : is_space c = existsb (Ascii.eqb c) whitespace)
    by (destruct c as [[] [] [] [] [] [] [] []]; reflexivity).
  rewrite E, existsb_exists. split.
  - intros [x [Hin Hx]]. apply Ascii.eqb_eq in Hx. now subst x.
  - intros Hin. exists c. split; [exact Hin | apply Ascii.eqb_refl].
Qed.

Lemma all_space_blank (s : string) : all_space s = true -> blank s.
Proof.
  unfold blank. induction s as [|c s IH]; simpl; intros H.
  - constructor.
  - apply andb_true_iff in H as [Hc Hs].
    constructor; [now apply is_space_whitespace | now apply IH].
Qed.

Lemma last_char_snoc (front : string) (c : ascii) :
  last_char (front ++ String c "") = Some c.
Proof.
  induction front as [|d front IH]; simpl; [reflexivity | now rewrite IH].
Qed.

Lemma not_space_not_whitespace (c : ascii) :
  is_space c = false -> ~ In c whitespace.
Proof.
  intros H Hin. apply is_space_whitespace in Hin. congruence.
Qed.

(** What [strip] returns is its argument with the whitespace at both
    ends removed. *)
Lemma strip_trimmed (s : string) : trimmed_of s (strip s).
Proof.
  destruct (strip_spec s) as [[Hh Hl] [pre [post [E [P Q]]]]].
  split; [|split].
  - exists pre, post. auto using all_space_blank.
  - intros c rest T. apply not_space_not_whitespace, Hh.
    now rewrite T.
  - intros front c T. apply not_space_not_whitespace, Hl.
    rewrite T. apply last_char_snoc.
Qed.

Lemma strip_value_trimmed (c : cell) (v : option string) :
  strip_value c = Return v -> trimmed_cell c v.
Proof.
  destruct c as [s| |l]; simpl; [| |discriminate].
  - intros [= <-]. exists (strip s). split; [reflexivity | apply strip_trimmed].
  - now intros [= <-].
Qed.

Lemma dict_setitem_In {V} (k : string) (v : V) (d : list (string * V)) kv :
  In kv (dict_setitem k v d) -> kv = (k, v) \/ In kv d.
Proof.
  induction d as [|[k' v'] d IH]; simpl.
  - intros [<-|[]]. now left.
  - destruct (String.eqb_spec k k') as [->|_]; simpl.
    + intros [<-|H]; [now left | right; now right].
    + intros [<-|H]; [right; now left|].
      destruct (IH H) as [->|H']; [now left | right; now right].
Qed.

(** Every item of the row that the comprehension builds was there
    before or is the trimmed form of an item it went through. *)
Lemma strip_items_sources (items : raw_row) :
  forall acc r,
    strip_items items acc = Return r ->
    forall k v, In (k, v) r ->
      In (k, v) acc \/
      exists k0 c0,
        In (Some k0, c0) items /\ trimmed_of k0 k /\ trimmed_cell c0 v.
Proof.
  induction items as [|[k1 c1] items IH]; intros acc r; simpl.
  - intros [= <-]. now left.
  - destruct (strip_value c1) as [v1|] eqn:V; [|discriminate].
    destruct k1 as [k1|]; simpl; [|discriminate].
    intros H k v Hin.
    destruct (IH _ _ H k v Hin) as [Hacc|(k0 & c0 & Hi & Hk & Hv)].
    + apply dict_setitem_In in Hacc as [[= -> ->]|Hacc]; [|now left].
      right. exists k1, c1. split; [now left|].
      split; [apply strip_trimmed | now apply strip_value_trimmed].
    + right. exists k0, c0. split; [now right | now split].
Qed.

End TrimFacts.

(** C7: whenever [StripWhitespaceReader.next] delivers a row, every item
    of that row is an item of the underlying row with the leading and
    trailing whitespace removed from its header and, unless it is
    [None], from its cell; every header of the underlying row is present
    with its whitespace removed, and it holds its own cell with the
    whitespace removed when no other cell stands under a header that is
    trimmed to the same key; no key and no value of the row starts or
    ends with whitespace; and a row is delivered whenever the underlying
    row has no surplus cells. *)
Theorem strip_reader_normalizes (raw : CvsBase.raw_row) (r : CvsBase.row) :
  CvsBase.next raw = Return r ->
  (forall k v, In (k, v) r ->
     exists k0 c0,
       In (Some k0, c0) raw /\ trimmed_of k0 k /\ trimmed_cell c0 v) /\
  (forall k0 c0, In (Some k0, c0) raw ->
     exists v,
       In (PyStr.strip k0, v) r /\
       trimmed_of k0 (PyStr.strip k0) /\
       ((forall k1 c1 k,
           In (Some k1, c1) raw ->
           trimmed_of k0 k -> trimmed_of k1 k -> c1 = c0) ->
        trimmed_cell c0 v)) /\
  Forall stripped_item r /\
  (forall raw',
     (forall k c, In (k, c) raw' ->
        k <> None /\ forall l, c <> CvsBase.CellRest l) ->
     exists r', CvsBase.next raw' = Return r').
Proof.
  intros H.
  assert (S : forall k v, In (k, v) r ->
            exists k0 c0,
              In (Some k0, c0) raw /\ trimmed_of k0 k /\ trimmed_cell c0 v).
  { intros k v Hin.
    destruct (strip_items_sources raw [] r H k v Hin) as [[]|E]. exact E. }
  split; [exact S|]. split; [|split].
  - intros k0 c0 Hin.
    destruct (proj2 (strip_items_keys raw [] r H) k0 c0 Hin) as [v Hv].
    exists v. split; [exact Hv|]. split; [apply strip_trimmed|].
    intros Hone.
    destruct (S _ _ Hv) as (k1 & c1 & Hi & Hk & Hc).
    now rewrite <- (Hone k1 c1 (PyStr.strip k0) Hi (strip_trimmed k0) Hk).
  - eapply strip_items_stripped; [constructor | exact H].
  - intros raw' Hwf. now apply strip_items_total.
Qed.

Lemma strip_reader_normalizes_witness :
  exists k0 c0,
    In (Some k0, c0) Samples.padded_row /\
    trimmed_of k0 "units" /\ trimmed_cell c0 (Some "dBZ").
Proof.
  apply (proj1 (strip_reader_normalizes Samples.padded_row
                  [("name", Some "refl"); ("units", Some "dBZ");
                   ("notes", None)] eq_refl) "units" (Some "dBZ")).
  right. left. reflexivity.
Defined.

(* ================================================================== *)
(** * Laws of the effect monad *)
(* ================================================================== *)

Section MonadFacts.

Context {A B C : Type}.

Lemma bind_ret_l (a : A) (k : A -> M B) : bind (ret a) k = k a.
Proof. unfold bind, ret. now destruct (k a). Qed.

Lemma bind_ret_r (m : M A) : bind m ret = m.
Proof.
  destruct m as [ev [a|e]]; simpl; [|reflexivity].
  now rewrite app_nil_r.
Qed.

Lemma bind_raise (e : exn) (k : A -> M B) : bind (raise e) k = raise e.
Proof. reflexivity. Qed.

Lemma bind_assoc (m : M A) (k : A -> M B) (h : B -> M C) :
  bind (bind m k) h = bind m (fun a => bind (k a) h).
Proof.
  destruct m as [ev [a|e]]; simpl; [|reflexivity].
  destruct (k a) as [ev' [b|e']]; simpl; [|reflexivity].
  destruct (h b) as [ev'' r]. now rewrite app_assoc.
Qed.

Lemma bind_events_cons (x : event) (k : unit -> M B) :
  bind ([x], Return tt) k = (x :: events (k tt), result (k tt)).
Proof. unfold bind. now destruct (k tt). Qed.

Lemma result_bind (m : M A) (k : A -> M B) :
  result (bind m k)
  = match result m with
    | Return a => result (k a)
    | Raise e => Raise e
    end.
Proof.
  destruct m as [ev [a|e]]; simpl; [|reflexivity]. now destruct (k a).
Qed.

Lemma events_bind (m : M A) (k : A -> M B) :
  events (bind m k)
  = match result m with
    | Return a => (events m ++ events (k a))%list
    | Raise _ => events m
    end.
Proof.
  destruct m as [ev [a|e]]; simpl; [|reflexivity]. now destruct (k a).
Qed.

Lemma result_bind_Return (m : M A) (k : A -> M B) (b : B) :
  result (bind m k) = Return b ->
  exists a, result m = Return a /\ result (k a) = Return b.
Proof.
  rewrite result_bind. destruct (result m) as [a|e]; [eauto | discriminate].
Qed.

End MonadFacts.

(* ================================================================== *)
(** * The loading loop of [get_all_cvs] *)
(* ================================================================== *)

Section ContainsFacts.

Import PyStr.

Lemma strip_prefix_app (p s : string) : strip_prefix p (p ++ s) = Some s.
Proof.
  induction p as [|c p IH]; simpl; [reflexivity|].
  now rewrite Ascii.eqb_refl.
Qed.

Lemma contains_here (sub s : string) : contains sub (sub ++ s) = true.
Proof.
  destruct (sub ++ s) eqn:E; simpl; unfold startswith;
    rewrite <- E, strip_prefix_app; reflexivity.
Qed.

Lemma contains_later (sub a s : string) :
  contains sub s = true -> contains sub (a ++ s) = true.
Proof.
  intros H. induction a as [|c a IH]; simpl; [exact H|].
  rewrite IH. apply orb_true_r.
Qed.

Lemma contains_middle (sub a b : string) :
  contains sub (a ++ sub ++ b) = true.
Proof. apply contains_later, contains_here. Qed.

End ContainsFacts.

Section LoadFacts.

Import Handler.

Variable K : cv_classes.
Variable w : world.
Variable self_path : string.

Abbreviation load := (load_cvs w self_path).
Abbreviation full := (full_path_of self_path).

Lemma _isfile_eq (p : string) :
  _isfile w p
  = ((if os_path_isfile w p then []
      else [Print Stderr ("WARNING: Expected to find file at '" ++ p ++ "'")]),
     Return (os_path_isfile w p)).
Proof.
  unfold _isfile. now destruct (os_path_isfile w p).
Qed.

(** One round of the loop, by the cases of its body. *)
Lemma load_cons (bc : option pyclass) (i : CVParseInfo) (rest : list CVParseInfo) :
  load bc (i :: rest)
  = if filtered_out bc (cls i) then load bc rest
    else if os_path_isfile w (full i) then
      match parse_cv w (cls i) (full i) with
      | Return d =>
          bind (load bc rest) (fun later => ret (CV (cls i) (facets i) d :: later))
      | Raise DimensionsSheetNoRowsError => load bc rest
      | Raise (CVParseError m) =>
          (parse_warning (full i) m :: events (load bc rest),
           result (load bc rest))
      | Raise e => raise e
      end
    else
      (Print Stderr ("WARNING: Expected to find file at '" ++ full i ++ "'")
         :: events (load bc rest),
       result (load bc rest)).
Proof.
  simpl. fold (full i).
  destruct (filtered_out bc (cls i)); [reflexivity|].
  rewrite _isfile_eq.
  destruct (os_path_isfile w (full i)); simpl.
  - destruct (parse_cv w (cls i) (full i)) as [d|e].
    + now destruct (bind _ _).
    + destruct e; try reflexivity;
        try (destruct (load bc rest); reflexivity).
  - now destruct (load bc rest).
Qed.

(** The loop over a concatenation is the loop over its parts. *)
Lemma load_app (bc : option pyclass) (l1 l2 : list CVParseInfo) :
  load bc (l1 ++ l2)
  = bind (load bc l1) (fun a =>
      bind (load bc l2) (fun b => ret (a ++ b)%list)).
Proof.
  induction l1 as [|i l1 IH].
  - simpl. destruct (load bc l2) as [ev [b|e]]; simpl;
      rewrite ?app_nil_r; reflexivity.
  - rewrite <- app_comm_cons, !load_cons, IH.
    destruct (filtered_out bc (cls i)); [reflexivity|].
    destruct (os_path_isfile w (full i));
      [destruct (parse_cv w (cls i) (full i)) as [d|[]]|];
      destruct (load bc l1) as [ev [a|e]]; simpl; try reflexivity;
      destruct (load bc l2) as [ev2 [b|e]]; simpl;
      rewrite ?app_nil_r, ?app_assoc; reflexivity.
Qed.

(** The two parse errors are caught in the loop. *)
Lemma load_never_parse_error (bc : option pyclass) (infos : list CVParseInfo) :
  result (load bc infos) <> Raise DimensionsSheetNoRowsError /\
  forall m, result (load bc infos) <> Raise (CVParseError m).
Proof.
  induction infos as [|i rest [IH1 IH2]]; [split; [|intros m]; discriminate|].
  rewrite load_cons.
  destruct (filtered_out bc (cls i)); [now split|].
  destruct (os_path_isfile w (full i)); [|now split].
  destruct (parse_cv w (cls i) (full i)) as [d|e].
  - rewrite result_bind.
    destruct (result (load bc rest)); [split; [|intros m]; discriminate|].
    now split.
  - destruct e; try (split; [|intros m]; discriminate); now split.
Qed.

(** What the loop returns: the loaded entries, in order. *)
Lemma load_result (bc : option pyclass) (infos : list CVParseInfo) (cvs : list amf_file) :
  result (load bc infos) = Return cvs ->
  cvs = flat_map (fun i =>
          match parse_cv w (cls i) (full i) with
          | Return d => [CV (cls i) (facets i) d]
          | Raise _ => []
          end) (filter (loaded w self_path bc) infos).
Proof.
  revert cvs. induction infos as [|i rest IH]; intros cvs.
  - simpl. now intros [= <-].
  - rewrite load_cons. simpl filter. unfold loaded at 1.
    destruct (filtered_out bc (cls i)); simpl; [apply IH|].
    destruct (os_path_isfile w (full i)); simpl; [|apply IH].
    destruct (parse_cv w (cls i) (full i)) as [d|e] eqn:P.
    + rewrite result_bind.
      destruct (result (load bc rest)) as [later|e] eqn:R; [|discriminate].
      simpl. intros [= <-]. rewrite P. simpl. f_equal. now apply IH.
    + destruct e; simpl; try discriminate; apply IH.
Qed.

End LoadFacts.

(* ================================================================== *)
(** * The per-product scan *)
(* ================================================================== *)

Section RegexFacts.

Import PyStr Handler.

Lemma span_name_chars (s : string) : all_name_chars (fst (span_name s)) = true.
Proof.
  induction s as [|c s IH]; simpl; [reflexivity|].
  destruct (is_name_char c) eqn:E; [|reflexivity].
  destruct (span_name s) as [a b]. simpl in *. now rewrite E.
Qed.

Lemma name_chars_clean (n : string) : all_name_chars n = true -> clean_token n.
Proof.
  unfold clean_token. induction n as [|c n IH]; [reflexivity|].
  cbn [all_name_chars mem_char].
  intros H. apply andb_true_iff in H as [Hc Hn].
  rewrite (IH Hn), orb_false_r.
  destruct (Ascii.eqb_spec "_"%char c) as [<-|]; [|reflexivity].
  vm_compute in Hc. discriminate.
Qed.

Lemma match_type_cases (s t r : string) :
  match_type s = Some (t, r) -> t = "Variables" \/ t = "Dimensions".
Proof.
  unfold match_type.
  destruct (strip_prefix "Variables" s); [intros [= <- _]; now left|].
  destruct (strip_prefix "Dimensions" s); [intros [= <- _]; now right|].
  discriminate.
Qed.

Ltac step_obind :=
  match goal with
  | |- obind ?x _ = Some _ -> _ =>
      let E := fresh "E" in destruct x eqn:E; simpl; [|discriminate]
  end.

Lemma sheet_regex_match_groups (s n t : string) :
  sheet_regex_match s = Some (n, t) ->
  n <> "" /\ all_name_chars n = true /\ (t = "Variables" \/ t = "Dimensions").
Proof.
  unfold sheet_regex_match.
  pose proof (span_name_chars s) as Hn.
  destruct (span_name s) as [name r1]. simpl in Hn.
  destruct (String.eqb_spec name "") as [|Hne]; [discriminate|].
  do 3 step_obind.
  step_obind. destruct p as [ty r5].
  do 3 step_obind.
  destruct (match_end _); [|discriminate].
  intros [= <- <-]. repeat split; try assumption.
  eapply match_type_cases; eassumption.
Qed.

Lemma sheet_regex_search_groups (s n t : string) :
  sheet_regex_search s = Some (n, t) ->
  n <> "" /\ all_name_chars n = true /\ (t = "Variables" \/ t = "Dimensions").
Proof.
  induction s as [|c s IH]; cbn [sheet_regex_search].
  - destruct (sheet_regex_match "") as [[n' t']|] eqn:E; [|discriminate].
    intros [= -> ->]. exact (sheet_regex_match_groups _ _ _ E).
  - destruct (sheet_regex_match (String c s)) as [[n' t']|] eqn:E; [|exact IH].
    intros [= -> ->]. exact (sheet_regex_match_groups _ _ _ E).
Qed.

End RegexFacts.

Section ScanFacts.

Import PyStr Handler.

Variable K : cv_classes.
Variable w : world.
Variable self_path : string.

(** What the scan does with one file: a warning on the standard output
    and no entry, or one entry and no output. *)
Lemma scan_file_cases (dirpath fname : string) :
  (sheet_regex_search (os_path_join dirpath fname) = None /\
   scan_file K w self_path dirpath fname
   = ([Print Stdout ("WARNING: No match for '"
                     ++ os_path_join dirpath fname ++ "'")],
      Return [])) \/
  (exists i,
     scan_file K w self_path dirpath fname = ([], Return [i]) /\
     product_facets (facets i)).
Proof.
  unfold scan_file.
  destruct (sheet_regex_search (os_path_join dirpath fname))
    as [[n t]|] eqn:E.
  - right. apply sheet_regex_search_groups in E as (Hne & Hn & [-> | ->]);
      simpl; eexists; (split; [reflexivity|]); simpl;
      exists n; eexists; repeat split; eauto.
  - left. split; reflexivity.
Qed.

Lemma scan_ok_bind2 (m1 m2 : M (list CVParseInfo)) :
  scan_ok m1 -> scan_ok m2 ->
  scan_ok (bind m1 (fun a => bind m2 (fun b => ret (a ++ b)%list))).
Proof.
  intros (l1 & R1 & F1 & E1) (l2 & R2 & F2 & E2).
  destruct m1 as [ev1 r1], m2 as [ev2 r2]. simpl in *. subst.
  exists (l1 ++ l2)%list. simpl. rewrite app_nil_r.
  repeat split; [|now apply Forall_app]. now apply Forall_app.
Qed.

Lemma scan_files_ok (dirpath : string) (filenames : list string) :
  scan_ok (scan_files K w self_path dirpath filenames).
Proof.
  induction filenames as [|f rest IH]; simpl.
  - exists []. repeat split; constructor.
  - apply scan_ok_bind2; [|exact IH].
    destruct (scan_file_cases dirpath f) as [[_ ->] | (i & -> & Hi)].
    + exists []. repeat split; repeat constructor. eauto.
    + exists [i]. repeat split; repeat constructor. exact Hi.
Qed.

Lemma scan_dirs_ok (walk : list (string * list string)) :
  scan_ok (scan_dirs K w self_path walk).
Proof.
  induction walk as [|[d fs] rest IH]; simpl.
  - exists []. repeat split; constructor.
  - apply scan_ok_bind2; [apply scan_files_ok | exact IH].
Qed.

(** The scan always returns; its entries have product facets and its
    output goes to the standard output. *)
Lemma per_product_scan_ok : scan_ok (_get_per_product_parse_info K w self_path).
Proof. apply scan_dirs_ok. Qed.

End ScanFacts.

(* ================================================================== *)
(** * [get_all_cvs] *)
(* ================================================================== *)

Section GetAllCvsFacts.

Import PyStr Handler.

Variable K : cv_classes.
Variable w : world.
Variable self_path : string.

Abbreviation load := (load_cvs w self_path).
Abbreviation full := (full_path_of self_path).
Abbreviation scan := (_get_per_product_parse_info K w self_path).

Abbreviation parse_infos := (parse_infos_of K self_path).
Abbreviation no_products_events := (no_products_events_of self_path).

Lemma get_all_cvs_unfold (bc : option pyclass) :
  exists pp,
    result scan = Return pp /\
    Forall (fun i => product_facets (facets i)) pp /\
    Forall (fun e => exists line, e = Print Stdout line) (events scan) /\
    events (get_all_cvs K w self_path bc)
    = (events scan ++ no_products_events pp
       ++ events (load bc (parse_infos pp)))%list /\
    result (get_all_cvs K w self_path bc) = result (load bc (parse_infos pp)).
Proof.
  destruct (per_product_scan_ok K w self_path) as (pp & R & F & E).
  exists pp. repeat split; try assumption.
  - unfold get_all_cvs. rewrite events_bind, R.
    f_equal. fold (parse_infos_of K self_path pp).
    destruct (load bc (parse_infos pp)) as [ev r]. now destruct pp.
  - unfold get_all_cvs. rewrite result_bind, R.
    fold (parse_infos_of K self_path pp).
    destruct (load bc (parse_infos pp)) as [ev r]. now destruct pp.
Qed.

Lemma loaded_in_result (bc : option pyclass) (infos : list CVParseInfo)
    (cvs : list amf_file) :
  result (load bc infos) = Return cvs ->
  forall x, In x cvs <->
    exists i d, In i infos /\ loaded w self_path bc i = true /\
      parse_cv w (cls i) (full i) = Return d /\
      x = CV (cls i) (facets i) d.
Proof.
  intros R x. rewrite (load_result w self_path bc infos cvs R).
  rewrite in_flat_map. split.
  - intros (i & Hi & Hx). apply filter_In in Hi as [Hi Hl].
    destruct (parse_cv w (cls i) (full i)) as [d|e] eqn:P; [|destruct Hx].
    destruct Hx as [<-|[]]. now exists i, d.
  - intros (i & d & Hi & Hl & P & ->). exists i. split.
    + now apply filter_In.
    + rewrite P. now left.
Qed.

End GetAllCvsFacts.

(** C5: in the loading loop, a source whose parser raises
    [DimensionsSheetNoRowsError] leaves no trace (the run is the run
    without that source); a source whose parser raises another
    [CVParseError] adds one warning on the error stream, which holds the
    path of the source, and changes nothing else; and neither exception
    is ever the outcome of the loop or of [get_all_cvs]. *)
Theorem parse_errors_are_contained
    (K : Handler.cv_classes) (w : Handler.world) (self_path : string)
    (bc : option Handler.pyclass)
    (pre rest : list Handler.CVParseInfo) (i : Handler.CVParseInfo) :
  Handler.filtered_out bc (Handler.cls i) = false ->
  Handler.os_path_isfile w (full_path_of self_path i) = true ->
  let load := Handler.load_cvs w self_path bc in
  let outcome_of_parse :=
    Handler.parse_cv w (Handler.cls i) (full_path_of self_path i) in
  (outcome_of_parse = Raise DimensionsSheetNoRowsError ->
     load (pre ++ i :: rest)%list = load (pre ++ rest)%list) /\
  (forall m, outcome_of_parse = Raise (CVParseError m) ->
     result (load (pre ++ i :: rest)%list) = result (load (pre ++ rest)%list) /\
     (forall a, result (load pre) = Return a ->
        events (load (pre ++ i :: rest)%list)
        = (events (load pre)
           ++ Print Stderr ("WARNING: Failed to parse '"
                            ++ full_path_of self_path i ++ "': " ++ m)
           :: events (load rest))%list) /\
     PyStr.contains (full_path_of self_path i)
       ("WARNING: Failed to parse '" ++ full_path_of self_path i
        ++ "': " ++ m) = true) /\
  (forall infos e,
     result (Handler.load_cvs w self_path bc infos) = Raise e ->
     e <> DimensionsSheetNoRowsError /\ forall m, e <> CVParseError m) /\
  (forall e,
     result (Handler.get_all_cvs K w self_path bc) = Raise e ->
     e <> DimensionsSheetNoRowsError /\ forall m, e <> CVParseError m).
Proof.
  intros Hf Hfile load outcome_of_parse. subst load outcome_of_parse.
  assert (never : forall infos e,
     result (Handler.load_cvs w self_path bc infos) = Raise e ->
     e <> DimensionsSheetNoRowsError /\ forall m, e <> CVParseError m).
  { intros infos e R.
    destruct (load_never_parse_error w self_path bc infos) as [N1 N2].
    split; [|intros m]; intros ->; [apply N1 | apply (N2 m)]; exact R. }
  repeat split.
  - intros P. rewrite !load_app. rewrite (load_cons w self_path bc i rest).
    now rewrite Hf, Hfile, P.
  - rewrite !load_app, (load_cons w self_path bc i rest), Hf, Hfile, H.
    rewrite !result_bind.
    destruct (result (Handler.load_cvs w self_path bc pre)); [|reflexivity].
    rewrite !result_bind. reflexivity.
  - intros a Ra.
    rewrite load_app, (load_cons w self_path bc i rest), Hf, Hfile, H.
    rewrite events_bind, Ra, events_bind. simpl.
    destruct (result (Handler.load_cvs w self_path bc rest)); simpl;
      now rewrite ?app_nil_r.
  - apply contains_middle.
  - apply (never infos e H).
  - apply (never infos e H).
  - destruct (get_all_cvs_unfold K w self_path bc) as (pp & _ & _ & _ & _ & R).
    rewrite R in H. apply (never _ e H).
  - destruct (get_all_cvs_unfold K w self_path bc) as (pp & _ & _ & _ & _ & R).
    rewrite R in H. apply (never _ e H).
Qed.

Lemma parse_errors_are_contained_witness :
  Handler.load_cvs Samples.faulty_tree Samples.root None
    [Samples.radar_vars; Samples.radar_dims; Samples.lidar_vars]
  = Handler.load_cvs Samples.faulty_tree Samples.root None
      [Samples.radar_vars; Samples.lidar_vars].
Proof.
  exact (proj1 (parse_errors_are_contained Samples.K0 Samples.faulty_tree
                  Samples.root None [Samples.radar_vars] [Samples.lidar_vars]
                  Samples.radar_dims eq_refl eq_refl) eq_refl).
Defined.

(** C10: with a base-class filter, [get_all_cvs] yields a record only if
    the filter class is among the DIRECT bases of the record's class; a
    class that reaches the filter class only through an intermediate
    class is filtered out although it is a subclass; without a filter,
    every discovered entry whose file exists and parses is yielded. *)
Theorem base_class_filter_is_direct
    (K : Handler.cv_classes) (w : Handler.world) (self_path : string)
    (cvs : list Handler.amf_file) :
  (forall b,
     result (Handler.get_all_cvs K w self_path (Some b)) = Return cvs ->
     forall c fs d, In (Handler.CV c fs d) cvs ->
       Handler.class_in b (Handler.class_bases c) = true) /\
  (forall b c,
     Handler.class_in b (Handler.class_bases c) = false ->
     Handler.filtered_out (Some b) c = true) /\
  (Handler.issubclass Samples.DeepCV Samples.YamlCheckC = true /\
   Handler.filtered_out (Some Samples.YamlCheckC) Samples.DeepCV = true) /\
  (result (Handler.get_all_cvs K w self_path None) = Return cvs ->
   forall pp,
     result (Handler._get_per_product_parse_info K w self_path) = Return pp ->
     forall i d,
       In i (parse_infos_of K self_path pp) ->
       Handler.os_path_isfile w (full_path_of self_path i) = true ->
       Handler.parse_cv w (Handler.cls i) (full_path_of self_path i) = Return d ->
       In (Handler.CV (Handler.cls i) (Handler.facets i) d) cvs).
Proof.
  split; [|split; [|split]].
  - intros b R c fs d Hin.
    destruct (get_all_cvs_unfold K w self_path (Some b))
      as (pp & _ & _ & _ & _ & E).
    rewrite E in R.
    apply (loaded_in_result w self_path _ _ _ R) in Hin
      as (i & d' & _ & Hl & _ & [= -> _ _]).
    unfold loaded in Hl. apply andb_true_iff in Hl as [Hl _].
    apply andb_true_iff in Hl as [Hl _].
    simpl in Hl. now rewrite negb_involutive in Hl.
  - intros b c H. simpl. now rewrite H.
  - split; reflexivity.
  - intros R pp Rs i d Hin Hfile P.
    destruct (get_all_cvs_unfold K w self_path None)
      as (pp' & Rs' & _ & _ & _ & E).
    rewrite Rs in Rs'. injection Rs' as <-.
    rewrite E in R.
    apply (loaded_in_result w self_path _ _ _ R).
    exists i, d. repeat split; try assumption.
    unfold loaded. simpl. now rewrite Hfile, P.
Qed.

Lemma base_class_filter_is_direct_witness :
  Handler.class_in Samples.YamlCheckC
    (Handler.class_bases (Handler.VariablesCV Samples.K0)) = true.
Proof.
  apply (proj1 (base_class_filter_is_direct Samples.K0 Samples.radar_tree
                  Samples.root [Samples.leaf Samples.radar_vars])
           Samples.YamlCheckC eq_refl
           (Handler.VariablesCV Samples.K0)
           ["product"; "radar"; "variable"] (Handler.JDict [])).
  left. reflexivity.
Defined.

(* ================================================================== *)
(** * The streams of the warnings *)
(* ================================================================== *)

Section WarningFacts.

Import Handler.

Variable K : cv_classes.
Variable w : world.
Variable self_path : string.

Lemma load_events_shape (bc : option pyclass) (infos : list CVParseInfo) :
  Forall load_warning (events (load_cvs w self_path bc infos)).
Proof.
  induction infos as [|i rest IH]; [constructor|].
  rewrite load_cons.
  destruct (filtered_out bc (cls i)); [exact IH|].
  destruct (os_path_isfile w (full_path_of self_path i)).
  - destruct (parse_cv w (cls i) (full_path_of self_path i)) as [d|e].
    + rewrite events_bind.
      destruct (result _); [|exact IH]. simpl. now rewrite app_nil_r.
    + destruct e; try constructor; try exact IH.
      right. eauto.
  - constructor; [|exact IH]. left. eauto.
Qed.

Lemma global_checks_events_shape :
  Forall load_warning (events (get_global_checks w self_path)).
Proof.
  unfold get_global_checks. rewrite _isfile_eq.
  destruct (os_path_isfile w _); simpl.
  - destruct (parse_global_attrs w _); constructor.
  - constructor; [|constructor]. left. eexists. reflexivity.
Qed.

Lemma count_event_app (e : event) (l1 l2 : list event) :
  count_event e (l1 ++ l2) = count_event e l1 + count_event e l2.
Proof. unfold count_event. now rewrite filter_app, List.length_app. Qed.

Lemma count_no_products_stdout (l : list event) :
  Forall (fun e => exists line, e = Print Stdout line) l ->
  count_event (Print Stderr (no_products_warning self_path)) l = 0.
Proof.
  induction 1 as [|e l [line ->] _ IH]; [reflexivity|exact IH].
Qed.

Lemma count_no_products_load (l : list event) :
  Forall load_warning l ->
  count_event (Print Stderr (no_products_warning self_path)) l = 0.
Proof.
  induction 1 as [|e l He _ IH]; [reflexivity|].
  destruct He as [[p ->]|(p & m & ->)]; exact IH.
Qed.

End WarningFacts.

(** C9 (fails on the code): a file below the products directory that
    does not match the sheet pattern is reported on the standard output,
    not on the error stream, while the warning for a missing file of the
    same run goes to the error stream. *)
Theorem pattern_mismatch_warning_on_stdout :
  let evs := events (Handler.write_yaml Samples.K0 Samples.stray_tree
                       Samples.root "out") in
  In (Print Stdout
        "WARNING: No match for '/in/Product Definition Spreadsheets/README.txt'")
     evs /\
  ~ In (Print Stderr
        "WARNING: No match for '/in/Product Definition Spreadsheets/README.txt'")
     evs /\
  In (Print Stderr
        "WARNING: Expected to find file at '/in/Common.xlsx/Global Attributes.tsv'")
     evs.
Proof.
  vm_compute. repeat split.
  - now left.
  - intros H. repeat (destruct H as [H|H]; [discriminate H|]). exact H.
  - do 8 right. now left.
Qed.

(* ================================================================== *)
(** * The bulk writer *)
(* ================================================================== *)

Section WriterFacts.

Import Handler.

Variable w : world.
Variable callback : amf_file -> string.
Variable output_dir ext : string.

Abbreviation outpath := (outpath_of output_dir ext).
Abbreviation write1 := (write_of callback output_dir ext).

Lemma write_loop_ok (files : list amf_file) (count : nat) :
  (forall f, In f files -> write_fails w (outpath f) = None) ->
  write_loop w files callback output_dir ext count
  = (map write1 files, Return (count + List.length files)).
Proof.
  revert count. induction files as [|f rest IH]; intros count Hok;
    cbn [write_loop].
  - unfold ret. simpl. now rewrite Nat.add_0_r.
  - fold (outpath f). rewrite (Hok f (or_introl eq_refl)).
    rewrite bind_events_cons, IH by (intros; apply Hok; now right).
    simpl. unfold write_of. do 2 f_equal. lia.
Qed.

Lemma write_loop_fail (pre rest : list amf_file) (f : amf_file) (e : exn)
    (count : nat) :
  (forall g, In g pre -> write_fails w (outpath g) = None) ->
  write_fails w (outpath f) = Some e ->
  write_loop w (pre ++ f :: rest) callback output_dir ext count
  = (map write1 pre, Raise e).
Proof.
  revert count. induction pre as [|g pre IH]; intros count Hok Hbad;
    cbn [write_loop app].
  - fold (outpath f). now rewrite Hbad.
  - fold (outpath g). rewrite (Hok g (or_introl eq_refl)).
    rewrite bind_events_cons, IH by (try assumption; intros; apply Hok; now right).
    reflexivity.
Qed.

End WriterFacts.

(** C8: when no write fails, [_write_output_files] performs one write
    per record, in order, each below the output directory under the
    record's file name and with the rendered record as content, and then
    reports the number of records; when the write of a record fails, the
    records before it have been written, the exception is the outcome,
    no later record is written and no count is reported. *)
Theorem bulk_writer_contract
    (w : Handler.world) (callback : Handler.amf_file -> string)
    (output_dir ext : string) (pre rest : list Handler.amf_file) :
  (forall g, In g pre ->
     Handler.write_fails w (outpath_of output_dir ext g) = None) ->
  ((forall g, In g rest ->
      Handler.write_fails w (outpath_of output_dir ext g) = None) ->
   Handler._write_output_files w (pre ++ rest) callback output_dir ext
   = ((map (write_of callback output_dir ext) (pre ++ rest)
       ++ [Print Stdout
             (Handler.str_of_nat (List.length (pre ++ rest)) ++ " files written")])%list,
      Return tt)) /\
  (forall f e,
     Handler.write_fails w (outpath_of output_dir ext f) = Some e ->
     Handler._write_output_files w (pre ++ f :: rest) callback output_dir ext
     = (map (write_of callback output_dir ext) pre, Raise e)) /\
  (forall f, write_of callback output_dir ext f
             = WriteFile (PyStr.os_path_join output_dir
                            (Handler.get_filename f ext))
                         (callback f)).
Proof.
  intros Hpre. split; [|split].
  - intros Hrest. unfold Handler._write_output_files.
    rewrite write_loop_ok.
    + reflexivity.
    + intros f Hin. apply in_app_or in Hin as [H|H]; auto.
  - intros f e Hbad. unfold Handler._write_output_files.
    now rewrite (write_loop_fail w callback output_dir ext pre rest f e).
  - reflexivity.
Qed.

Lemma bulk_writer_contract_witness :
  Handler._write_output_files
    (Samples.with_write_failure Samples.radar_tree "out/AMF_file_structure.yml")
    [Handler.FileInfoCheck ["file_info"];
     Handler.FileStructureCheck ["file_structure"];
     Samples.leaf Samples.radar_vars]
    (fun _ => "") "out" "yml"
  = ([WriteFile "out/AMF_file_info.yml" ""],
     Raise (IOError "out/AMF_file_structure.yml")).
Proof.
  assert (Hpre : forall g, In g [Handler.FileInfoCheck ["file_info"]] ->
            Handler.write_fails
              (Samples.with_write_failure Samples.radar_tree
                 "out/AMF_file_structure.yml")
              (outpath_of "out" "yml" g) = None).
  { intros g [<-|[]]. reflexivity. }
  apply (proj1 (proj2 (bulk_writer_contract
           (Samples.with_write_failure Samples.radar_tree
              "out/AMF_file_structure.yml")
           (fun _ => "") "out" "yml"
           [Handler.FileInfoCheck ["file_info"]]
           [Samples.leaf Samples.radar_vars] Hpre))
         (Handler.FileStructureCheck ["file_structure"])
         (IOError "out/AMF_file_structure.yml")).
  reflexivity.
Defined.

(* ================================================================== *)
(** * A products directory without sheets *)
(* ================================================================== *)

Section NoProductsFacts.

Import Handler.

Variable K : cv_classes.
Variable w : world.
Variable self_path : string.

Lemma load_all_missing (bc : option pyclass) (infos : list CVParseInfo) :
  (forall i, In i infos -> os_path_isfile w (full_path_of self_path i) = false) ->
  result (load_cvs w self_path bc infos) = Return [].
Proof.
  induction infos as [|i rest IH]; intros Hmiss; [reflexivity|].
  rewrite load_cons, (Hmiss i (or_introl eq_refl)).
  assert (R : result (load_cvs w self_path bc rest) = Return [])
    by (apply IH; intros; apply Hmiss; now right).
  now destruct (filtered_out bc (cls i)).
Qed.

Lemma count_no_products_self :
  count_event (Print Stderr (no_products_warning self_path))
    [Print Stderr (no_products_warning self_path)] = 1.
Proof.
  unfold count_event. cbn [filter event_eqb stream_eqb andb].
  now rewrite String.eqb_refl.
Qed.

Lemma count_no_products_get_all_cvs (bc : option pyclass) :
  result (_get_per_product_parse_info K w self_path) = Return [] ->
  count_event (Print Stderr (no_products_warning self_path))
    (events (get_all_cvs K w self_path bc)) = 1.
Proof.
  intros R.
  destruct (get_all_cvs_unfold K w self_path bc) as (pp & R' & _ & S & E & _).
  rewrite R in R'. injection R' as <-.
  rewrite E, !count_event_app.
  rewrite (count_no_products_stdout self_path _ S).
  rewrite (count_no_products_load self_path _ (load_events_shape w self_path bc _)).
  cbn [no_products_events_of]. now rewrite count_no_products_self.
Qed.

Lemma all_checks_of_nil (gc : list amf_file) : all_checks_of [] gc = gc.
Proof. unfold all_checks_of. simpl. apply app_nil_r. Qed.

End NoProductsFacts.

(** C6: when the per-product scan yields no entry, the warning that
    names the products directory is printed exactly once, on the error
    stream, by [get_all_cvs] and so by check compilation; if moreover no
    vocabulary or common sheet exists, check compilation ends as the
    building of the global checks does and emits exactly the global
    checks: with no global attributes sheet either, the two fixed checks,
    and [write_yaml] returns when no write fails. *)
Theorem zero_products_warns_once
    (K : Handler.cv_classes) (w : Handler.world) (self_path : string) :
  result (Handler._get_per_product_parse_info K w self_path) = Return [] ->
  let warning :=
    Print Stderr
      ("WARNING: No product variable/dimension spreadsheets found in "
       ++ PyStr.os_path_join self_path "Product Definition Spreadsheets") in
  (forall bc,
     count_event warning (events (Handler.get_all_cvs K w self_path bc)) = 1) /\
  count_event warning (events (Handler.compile_checks K w self_path)) = 1 /\
  ((forall i, In i (parse_infos_of K self_path []) ->
      Handler.os_path_isfile w (full_path_of self_path i) = false) ->
   result (Handler.compile_checks K w self_path)
   = result (Handler.get_global_checks w self_path) /\
   (Handler.os_path_isfile w (global_attrs_path self_path) = false ->
    result (Handler.compile_checks K w self_path)
    = Return [Handler.FileInfoCheck ["file_info"];
              Handler.FileStructureCheck ["file_structure"]] /\
    forall output_dir,
      (forall p, Handler.write_fails w p = None) ->
      result (Handler.write_yaml K w self_path output_dir) = Return tt)).
Proof.
  intros R warning. subst warning.
  change (Print Stderr _) with (Print Stderr (Handler.no_products_warning self_path)).
  split; [|split].
  - intros bc. now apply count_no_products_get_all_cvs.
  - unfold Handler.compile_checks. rewrite events_bind.
    pose proof (count_no_products_get_all_cvs K w self_path
                  (Some (Handler.YamlCheck K)) R) as C.
    destruct (result (Handler.get_all_cvs K w self_path _)) as [cvs|e];
      [|exact C].
    rewrite count_event_app, C, events_bind.
    pose proof (global_checks_events_shape w self_path) as G.
    destruct (result (Handler.get_global_checks w self_path)); simpl;
      rewrite ?app_nil_r;
      now rewrite (count_no_products_load self_path _ G).
  - intros Hmiss.
    assert (Rc : result (Handler.get_all_cvs K w self_path
                           (Some (Handler.YamlCheck K))) = Return []).
    { destruct (get_all_cvs_unfold K w self_path (Some (Handler.YamlCheck K)))
        as (pp & R' & _ & _ & _ & E).
      rewrite R in R'. injection R' as <-.
      rewrite E. now apply load_all_missing. }
    assert (Rg : result (Handler.compile_checks K w self_path)
                 = result (Handler.get_global_checks w self_path)).
    { unfold Handler.compile_checks. rewrite result_bind, Rc, result_bind.
      destruct (result (Handler.get_global_checks w self_path)) as [gc|e];
        [|reflexivity].
      simpl. now rewrite all_checks_of_nil. }
    split; [exact Rg|]. intros Hga.
    assert (Rg' : result (Handler.compile_checks K w self_path)
                  = Return [Handler.FileInfoCheck ["file_info"];
                            Handler.FileStructureCheck ["file_structure"]]).
    { rewrite Rg. unfold Handler.get_global_checks.
      rewrite _isfile_eq. fold (global_attrs_path self_path).
      now rewrite Hga. }
    split; [exact Rg'|]. intros output_dir Hw.
    unfold Handler.write_yaml. rewrite result_bind, Rg'.
    unfold Handler._write_output_files.
    rewrite write_loop_ok by (intros; apply Hw). reflexivity.
Qed.

Lemma zero_products_warns_once_witness :
  count_event
    (Print Stderr
       "WARNING: No product variable/dimension spreadsheets found in /in/Product Definition Spreadsheets")
    (events (Handler.compile_checks Samples.K0 Samples.stray_tree Samples.root))
  = 1.
Proof.
  exact (proj1 (proj2 (zero_products_warns_once Samples.K0 Samples.stray_tree
                         Samples.root eq_refl))).
Defined.

(* ================================================================== *)
(** * Grouping by product and by deployment mode *)
(* ================================================================== *)

Section DictFacts.

Import Handler.

Context {V : Type}.

Lemma dict_append_get_same (k : string) (v : V) (d : list (string * list V)) :
  dict_get_default k (dict_append k v d) = (dict_get_default k d ++ [v])%list.
Proof.
  unfold dict_get_default.
  induction d as [|[k' vs] d IH]; simpl.
  - now rewrite String.eqb_refl.
  - destruct (String.eqb_spec k k') as [->|N]; simpl.
    + now rewrite String.eqb_refl.
    + destruct (String.eqb_spec k k'); [contradiction|exact IH].
Qed.

Lemma dict_append_get_other (k k' : string) (v : V) (d : list (string * list V)) :
  k <> k' ->
  dict_get_default k' (dict_append k v d) = dict_get_default k' d.
Proof.
  unfold dict_get_default. intros N.
  induction d as [|[k0 vs] d IH]; simpl.
  - destruct (String.eqb_spec k' k); [congruence|reflexivity].
  - destruct (String.eqb_spec k k0) as [->|N0]; simpl.
    + destruct (String.eqb_spec k' k0); [congruence|reflexivity].
    + destruct (String.eqb_spec k' k0); [reflexivity|exact IH].
Qed.

Lemma dict_append_keys (k : string) (v : V) (d : list (string * list V)) (x : string) :
  In x (map fst (dict_append k v d)) <-> x = k \/ In x (map fst d).
Proof.
  induction d as [|[k0 vs] d IH]; simpl.
  - intuition.
  - destruct (String.eqb_spec k k0) as [->|N0]; simpl.
    + intuition.
    + rewrite IH. intuition.
Qed.

Lemma dict_append_NoDup (k : string) (v : V) (d : list (string * list V)) :
  NoDup (map fst d) -> NoDup (map fst (dict_append k v d)).
Proof.
  induction d as [|[k0 vs] d IH]; simpl; intros H.
  - repeat constructor. intros [].
  - inversion H as [|? ? Hn Hd]; subst.
    destruct (String.eqb_spec k k0) as [->|N0]; simpl.
    + now constructor.
    + constructor; [|now apply IH].
      rewrite dict_append_keys. intros [E|E]; [congruence|contradiction].
Qed.

Lemma dict_item_get (k : string) (vs : list V) (d : list (string * list V)) :
  NoDup (map fst d) -> In (k, vs) d -> dict_get_default k d = vs.
Proof.
  unfold dict_get_default.
  induction d as [|[k0 vs0] d IH]; simpl; intros H Hin; [contradiction|].
  inversion H as [|? ? Hn Hd]; subst.
  destruct Hin as [[= -> ->]|Hin].
  - now rewrite String.eqb_refl.
  - destruct (String.eqb_spec k k0) as [->|N0]; [|now apply IH].
    exfalso. apply Hn. now apply (in_map fst) in Hin.
Qed.

End DictFacts.

Section GroupFacts.

Import Handler.

Lemma group_step_cases (P C : list (string * list amf_file)) (f : amf_file) :
  group_step (P, C) f
  = if is_named f then (dict_append (second_facet f) f P, C)
    else if is_common f then (P, dict_append (last_facet f) f C)
    else (P, C).
Proof.
  unfold group_step, is_named, is_common, product_scoped.
  fold (second_facet f). fold (last_facet f).
  destruct (_ && _); simpl; [|reflexivity].
  now destruct (String.eqb (second_facet f) "common").
Qed.

Lemma named_not_common (f : amf_file) :
  is_named f = true -> is_common f = false.
Proof.
  unfold is_named, is_common.
  destruct (product_scoped f); simpl; [|reflexivity].
  now destruct (String.eqb (second_facet f) "common").
Qed.

(** The state of the grouping loop after a run over [cvs] from the
    state [(P, C)]. *)
Lemma group_fold (cvs : list amf_file) :
  forall P C P' C',
    fold_left group_step cvs (P, C) = (P', C') ->
    (forall p, dict_get_default p P'
               = (dict_get_default p P ++ records_of_product p cvs)%list) /\
    (forall m, dict_get_default m C'
               = (dict_get_default m C ++ common_records m cvs)%list) /\
    (forall p, In p (map fst P')
               <-> In p (map fst P) \/ In p (named_products cvs)) /\
    (NoDup (map fst P) -> NoDup (map fst P')).
Proof.
  induction cvs as [|f cvs IH]; intros P C P' C'; cbn [fold_left].
  - intros [= <- <-]. unfold records_of_product, common_records, named_products.
    simpl. repeat split; intros; rewrite ?app_nil_r; tauto.
  - rewrite group_step_cases. unfold records_of_product, common_records,
      named_products in *. simpl filter.
    destruct (is_named f) eqn:Nf; simpl.
    + rewrite (named_not_common f Nf). simpl.
      intros H. destruct (IH _ _ _ _ H) as (HP & HC & HK & HN).
      repeat split.
      * intros p. rewrite HP.
        destruct (String.eqb_spec (second_facet f) p) as [<-|N].
        -- rewrite dict_append_get_same, <- app_assoc. reflexivity.
        -- now rewrite dict_append_get_other.
      * exact HC.
      * rewrite HK, dict_append_keys. simpl. intuition.
      * rewrite HK, dict_append_keys. simpl. intuition.
      * intros D. apply HN. now apply dict_append_NoDup.
    + destruct (is_common f) eqn:Cf; simpl.
      * intros H. destruct (IH _ _ _ _ H) as (HP & HC & HK & HN).
        repeat split; try assumption; try apply HK.
        intros m. rewrite HC.
        destruct (String.eqb_spec (last_facet f) m) as [<-|N].
        -- rewrite dict_append_get_same, <- app_assoc. reflexivity.
        -- now rewrite dict_append_get_other.
      * apply IH.
Qed.

(** The groups [write_yaml] works with. *)
Lemma group_cvs_spec (cvs : list amf_file) :
  let (P, C) := group_cvs cvs in
  (forall p l, In (p, l) P -> l = records_of_product p cvs) /\
  (forall m, dict_get_default m C = common_records m cvs) /\
  (forall p, In p (map fst P) <-> In p (named_products cvs)) /\
  NoDup (map fst P).
Proof.
  unfold group_cvs.
  destruct (fold_left group_step cvs ([], [])) as [P C] eqn:E.
  destruct (group_fold cvs _ _ _ _ E) as (HP & HC & HK & HN).
  assert (D : NoDup (map fst P)) by (apply HN; constructor).
  repeat split.
  - intros p l Hin. rewrite <- (dict_item_get p l P D Hin). apply HP.
  - intros m. apply HC.
  - rewrite HK. simpl. tauto.
  - rewrite HK. simpl. tauto.
  - exact D.
Qed.

End GroupFacts.

(* ================================================================== *)
(** * The wrapper checks *)
(* ================================================================== *)

Section WrapperFacts.

Import Handler.

Variable gc : list amf_file.
Variable C : list (string * list amf_file).

Abbreviation wrapper_of := (wrapper_for gc C).

Lemma wrapper_checks_cons (p : string) (l : list amf_file)
    (P : list (string * list amf_file)) :
  wrapper_checks gc ((p, l) :: P) C
  = (map (wrapper_of p l) all_modes ++ wrapper_checks gc P C)%list.
Proof. reflexivity. Qed.

Lemma wrapper_checks_in (P : list (string * list amf_file)) (x : amf_file) :
  In x (wrapper_checks gc P C)
  <-> exists p l m, In (p, l) P /\ x = wrapper_of p l m.
Proof.
  unfold wrapper_checks. rewrite in_flat_map. split.
  - intros ([p l] & Hin & Hx). apply in_map_iff in Hx as (m & <- & _).
    now exists p, l, m.
  - intros (p & l & m & Hin & ->). exists (p, l). split; [exact Hin|].
    apply in_map_iff. exists m. split; [reflexivity|].
    destruct m; simpl; tauto.
Qed.

Lemma wrapper_checks_length (P : list (string * list amf_file)) :
  List.length (wrapper_checks gc P C) = 3 * List.length P.
Proof.
  induction P as [|[p l] P IH]; [reflexivity|].
  rewrite wrapper_checks_cons, List.length_app, IH. simpl. lia.
Qed.

Lemma wrapper_checks_wrappers (P : list (string * list amf_file)) :
  filter is_wrapper (wrapper_checks gc P C) = wrapper_checks gc P C.
Proof.
  induction P as [|[p l] P IH]; [reflexivity|].
  rewrite wrapper_checks_cons, filter_app, IH. reflexivity.
Qed.

Lemma has_facets_wrapper (p p0 t t0 : string) (ch : list amf_file) :
  has_facets ["product"; p; t] (WrapperYamlCheck ch ["product"; p0; t0])
  = String.eqb p0 p && String.eqb t0 t.
Proof.
  unfold has_facets. simpl facets_of.
  destruct (list_eq_dec string_dec _ _) as [E|N];
    destruct (String.eqb_spec p0 p), (String.eqb_spec t0 t); simpl;
    try reflexivity; congruence.
Qed.

Lemma has_facets_wrapper_of (p p0 t : string) (l : list amf_file)
    (m0 : DeploymentModes) :
  has_facets ["product"; p; t] (wrapper_of p0 l m0)
  = String.eqb p0 p && String.eqb (mode_token m0) t.
Proof. apply has_facets_wrapper. Qed.

Lemma filter_modes (p p0 : string) (l : list amf_file) (m : DeploymentModes) :
  filter (has_facets ["product"; p; mode_token m])
         (map (wrapper_of p0 l) all_modes)
  = if String.eqb p0 p then [wrapper_of p0 l m] else [].
Proof.
  unfold all_modes. cbn [map filter].
  rewrite !has_facets_wrapper_of.
  destruct (String.eqb p0 p); [|reflexivity].
  destruct m; reflexivity.
Qed.

Lemma filter_absent (p t : string) (P : list (string * list amf_file)) :
  ~ In p (map fst P) ->
  filter (has_facets ["product"; p; t]) (wrapper_checks gc P C) = [].
Proof.
  induction P as [|[p0 l] P IH]; intros Hn; [reflexivity|].
  rewrite wrapper_checks_cons, filter_app, IH by (simpl in Hn; tauto).
  unfold all_modes. cbn [map filter].
  rewrite !has_facets_wrapper_of.
  destruct (String.eqb_spec p0 p) as [->|_]; [|reflexivity].
  exfalso. apply Hn. now left.
Qed.

(** Among the wrappers there is exactly one with the facets of a given
    product and mode. *)
Lemma wrapper_checks_filter (P : list (string * list amf_file))
    (p : string) (l : list amf_file) (m : DeploymentModes) :
  NoDup (map fst P) -> In (p, l) P ->
  filter (has_facets ["product"; p; mode_token m]) (wrapper_checks gc P C)
  = [wrapper_of p l m].
Proof.
  induction P as [|[p0 l0] P IH]; intros D Hin; [destruct Hin|].
  simpl in D. inversion D as [|? ? Hn HD]; subst.
  rewrite wrapper_checks_cons, filter_app, filter_modes.
  destruct Hin as [[= -> ->]|Hin].
  - rewrite String.eqb_refl, filter_absent by assumption. reflexivity.
  - destruct (String.eqb_spec p0 p) as [->|_].
    + exfalso. apply Hn. now apply (in_map fst) in Hin.
    + now rewrite IH.
Qed.

End WrapperFacts.

(* ================================================================== *)
(** * Check compilation *)
(* ================================================================== *)

Section CompileFacts.

Import Handler.

Variable K : cv_classes.
Variable w : world.
Variable self_path : string.

Lemma compile_checks_inv (checks : list amf_file) :
  result (compile_checks K w self_path) = Return checks ->
  exists cvs gc,
    result (get_all_cvs K w self_path (Some (YamlCheck K))) = Return cvs /\
    result (get_global_checks w self_path) = Return gc /\
    checks = all_checks_of cvs gc.
Proof.
  unfold compile_checks. intros H.
  apply result_bind_Return in H as (cvs & Rc & H).
  apply result_bind_Return in H as (gc & Rg & H).
  injection H as <-. now exists cvs, gc.
Qed.

Lemma all_checks_of_eq (cvs gc : list amf_file) :
  all_checks_of cvs gc
  = (cvs ++ gc
     ++ wrapper_checks gc (fst (group_cvs cvs)) (snd (group_cvs cvs)))%list.
Proof. unfold all_checks_of. now destruct (group_cvs cvs). Qed.

Lemma cvs_are_leaves (bc : option pyclass) (cvs : list amf_file) :
  result (get_all_cvs K w self_path bc) = Return cvs ->
  forall x, In x cvs -> exists c fs d, x = CV c fs d.
Proof.
  intros R x Hin.
  destruct (get_all_cvs_unfold K w self_path bc) as (pp & _ & _ & _ & _ & E).
  rewrite E in R.
  apply (loaded_in_result w self_path _ _ _ R) in Hin
    as (i & d & _ & _ & _ & ->).
  eauto.
Qed.

Lemma global_checks_shape (gc : list amf_file) :
  result (get_global_checks w self_path) = Return gc ->
  gc = [FileInfoCheck ["file_info"]; FileStructureCheck ["file_structure"]]
  \/ exists d,
       gc = [FileInfoCheck ["file_info"]; FileStructureCheck ["file_structure"];
             GlobalAttrCheck ["global_attrs"] d].
Proof.
  unfold get_global_checks. rewrite _isfile_eq.
  destruct (os_path_isfile w _); simpl.
  - destruct (parse_global_attrs w _) as [d|e]; simpl; [|discriminate].
    intros [= <-]. right. now exists d.
  - intros [= <-]. now left.
Qed.

Lemma filter_none {A} (f : A -> bool) (l : list A) :
  (forall x, In x l -> f x = false) -> filter f l = [].
Proof.
  induction l as [|a l IH]; intros H; [reflexivity|]. simpl.
  rewrite (H a (or_introl eq_refl)). apply IH. intros; apply H; now right.
Qed.

(** The wrappers among the emitted records are those [write_yaml]
    synthesizes. *)
Lemma wrappers_of_all_checks (cvs gc : list amf_file) :
  (forall x, In x cvs -> exists c fs d, x = CV c fs d) ->
  (forall x, In x gc -> is_wrapper x = false) ->
  filter is_wrapper (all_checks_of cvs gc)
  = wrapper_checks gc (fst (group_cvs cvs)) (snd (group_cvs cvs)).
Proof.
  intros Hc Hg. rewrite all_checks_of_eq, !filter_app.
  rewrite (filter_none is_wrapper cvs), (filter_none is_wrapper gc Hg).
  - apply wrapper_checks_wrappers.
  - intros x Hin. destruct (Hc x Hin) as (c & fs & d & ->). reflexivity.
Qed.

Lemma global_checks_not_wrappers (gc : list amf_file) :
  result (get_global_checks w self_path) = Return gc ->
  forall x, In x gc -> is_wrapper x = false.
Proof.
  intros R x Hin.
  destruct (global_checks_shape gc R) as [->|[d ->]]; simpl in Hin;
    repeat (destruct Hin as [<-|Hin]; [reflexivity|]); destruct Hin.
Qed.

End CompileFacts.

(** C1: for every named product among the parsed product-scoped records
    and every deployment mode, the emitted wrappers hold exactly one
    whose facets are [["product"; p; mode]]: its children are the global
    checks, then the records of the product, then the common records
    whose last facet is the lower-cased mode (none, if there is no such
    record); and there are three wrappers for each named product. *)
Theorem one_wrapper_per_product_and_mode
    (K : Handler.cv_classes) (w : Handler.world) (self_path : string)
    (checks : list Handler.amf_file) :
  result (Handler.compile_checks K w self_path) = Return checks ->
  exists cvs gc,
    result (Handler.get_all_cvs K w self_path (Some (Handler.YamlCheck K)))
    = Return cvs /\
    result (Handler.get_global_checks w self_path) = Return gc /\
    (forall p m,
       In p (named_products cvs) ->
       filter (has_facets ["product"; p; PyStr.lower (Handler.mode_value m)])
              (filter Handler.is_wrapper checks)
       = [Handler.WrapperYamlCheck
            (gc ++ records_of_product p cvs
             ++ common_records (PyStr.lower (Handler.mode_value m)) cvs)%list
            ["product"; p; PyStr.lower (Handler.mode_value m)]]) /\
    List.length (filter Handler.is_wrapper checks)
    = 3 * List.length (nodup string_dec (named_products cvs)).
Proof.
  intros R.
  destruct (compile_checks_inv K w self_path checks R)
    as (cvs & gc & Rc & Rg & ->).
  exists cvs, gc. split; [exact Rc|]. split; [exact Rg|].
  rewrite (wrappers_of_all_checks cvs gc
             (cvs_are_leaves K w self_path _ cvs Rc)
             (global_checks_not_wrappers w self_path gc Rg)).
  pose proof (group_cvs_spec cvs) as G.
  destruct (Handler.group_cvs cvs) as [P C]. simpl fst; simpl snd.
  destruct G as (HP & HC & HK & HD). split.
  - intros p m Hp. apply HK in Hp.
    apply in_map_iff in Hp as ([p' l] & E & Hin). simpl in E. subst p'.
    fold (mode_token m).
    rewrite (wrapper_checks_filter gc C P p l m HD Hin).
    unfold wrapper_for. now rewrite HC, (HP p l Hin).
  - rewrite wrapper_checks_length. f_equal.
    rewrite <- (length_map fst P).
    apply Permutation_length, NoDup_Permutation;
      [exact HD | apply NoDup_nodup |].
    intros x. now rewrite nodup_In, HK.
Qed.

Lemma one_wrapper_per_product_and_mode_witness :
  exists cvs gc,
    result (Handler.get_all_cvs Samples.K0 Samples.radar_lidar_tree Samples.root
              (Some (Handler.YamlCheck Samples.K0))) = Return cvs /\
    result (Handler.get_global_checks Samples.radar_lidar_tree Samples.root)
    = Return gc /\
    (forall p m,
       In p (named_products cvs) ->
       filter (has_facets ["product"; p; PyStr.lower (Handler.mode_value m)])
              (filter Handler.is_wrapper Samples.radar_lidar_checks)
       = [Handler.WrapperYamlCheck
            (gc ++ records_of_product p cvs
             ++ common_records (PyStr.lower (Handler.mode_value m)) cvs)%list
            ["product"; p; PyStr.lower (Handler.mode_value m)]]) /\
    List.length (filter Handler.is_wrapper Samples.radar_lidar_checks)
    = 3 * List.length (nodup string_dec (named_products cvs)).
Proof.
  apply (one_wrapper_per_product_and_mode Samples.K0 Samples.radar_lidar_tree
           Samples.root Samples.radar_lidar_checks).
  reflexivity.
Defined.

(** C2, as the claim states it, fails: for the tree that holds the
    variables sheet of [radar], the leaf record of that sheet is emitted,
    and it is neither a global check nor a wrapper. *)
Lemma leaf_records_are_emitted :
  exists checks gc,
    result (Handler.compile_checks Samples.K0 Samples.radar_tree Samples.root)
    = Return checks /\
    result (Handler.get_global_checks Samples.radar_tree Samples.root)
    = Return gc /\
    In (Samples.leaf Samples.radar_vars) checks /\
    ~ In (Samples.leaf Samples.radar_vars) gc /\
    Handler.is_wrapper (Samples.leaf Samples.radar_vars) = false.
Proof.
  eexists. eexists. split; [vm_compute; reflexivity|].
  split; [vm_compute; reflexivity|].
  split; [now left|]. split; [|reflexivity].
  intros [H|[H|[]]]; discriminate H.
Qed.

(** C2 (amended): the records check compilation emits are exactly the
    leaf records that [get_all_cvs] yields under the [YamlCheck] filter,
    the global checks, and one wrapper for every named product and
    deployment mode. *)
Theorem emitted_records_are_leaves_globals_wrappers
    (K : Handler.cv_classes) (w : Handler.world) (self_path : string)
    (checks : list Handler.amf_file) :
  result (Handler.compile_checks K w self_path) = Return checks ->
  exists cvs gc,
    result (Handler.get_all_cvs K w self_path (Some (Handler.YamlCheck K)))
    = Return cvs /\
    result (Handler.get_global_checks w self_path) = Return gc /\
    (forall x, In x cvs -> exists c fs d, x = Handler.CV c fs d) /\
    (forall x,
       In x checks <->
       In x cvs \/ In x gc \/
       exists p m, In p (named_products cvs) /\ x = the_wrapper gc cvs p m).
Proof.
  intros R.
  destruct (compile_checks_inv K w self_path checks R)
    as (cvs & gc & Rc & Rg & ->).
  exists cvs, gc. split; [exact Rc|]. split; [exact Rg|].
  split; [exact (cvs_are_leaves K w self_path _ cvs Rc)|].
  intros x. rewrite all_checks_of_eq, !in_app_iff, wrapper_checks_in.
  pose proof (group_cvs_spec cvs) as G.
  destruct (Handler.group_cvs cvs) as [P C]. simpl fst; simpl snd.
  destruct G as (HP & HC & HK & HD).
  assert (W : forall p l m, In (p, l) P ->
                wrapper_for gc C p l m = the_wrapper gc cvs p m).
  { intros p l m Hin. unfold wrapper_for, the_wrapper.
    now rewrite HC, (HP p l Hin). }
  split.
  - intros [H|[H|(p & l & m & Hin & ->)]]; [now left | now right; left |].
    right; right. exists p, m. split; [|now apply W].
    apply HK. now apply (in_map fst) in Hin.
  - intros [H|[H|(p & m & Hp & ->)]]; [now left | now right; left |].
    right; right. apply HK in Hp.
    apply in_map_iff in Hp as ([p' l] & E & Hin). simpl in E. subst p'.
    exists p, l, m. split; [exact Hin|]. symmetry. now apply W.
Qed.

Lemma emitted_records_are_leaves_globals_wrappers_witness :
  exists cvs gc,
    result (Handler.get_all_cvs Samples.K0 Samples.radar_lidar_tree Samples.root
              (Some (Handler.YamlCheck Samples.K0))) = Return cvs /\
    result (Handler.get_global_checks Samples.radar_lidar_tree Samples.root)
    = Return gc /\
    (forall x, In x cvs -> exists c fs d, x = Handler.CV c fs d) /\
    (forall x,
       In x Samples.radar_lidar_checks <->
       In x cvs \/ In x gc \/
       exists p m, In p (named_products cvs) /\ x = the_wrapper gc cvs p m).
Proof.
  apply (emitted_records_are_leaves_globals_wrappers Samples.K0
           Samples.radar_lidar_tree Samples.root Samples.radar_lidar_checks).
  reflexivity.
Defined.

(* ================================================================== *)
(** * File names of the emitted records *)
(* ================================================================== *)

Section NoDupFacts.

Context {A B : Type} (key : A -> B).

(** An injective [key] keeps distinct elements distinct. *)
Lemma NoDup_map_injective (xs : list A) :
  (forall x y, key x = key y -> x = y) -> NoDup xs -> NoDup (map key xs).
Proof.
  intros Hinj Hxs. induction Hxs as [|a xs Hn Hd IH]; simpl; constructor;
    [|exact IH].
  intros Hin. apply in_map_iff in Hin as (x & E & Hx).
  apply Hinj in E. now subst.
Qed.

(** Dropping elements keeps the keys of the others distinct. *)
Lemma NoDup_map_filter (keep : A -> bool) (xs : list A) :
  NoDup (map key xs) -> NoDup (map key (filter keep xs)).
Proof.
  induction xs as [|a xs IH]; simpl; [constructor|].
  rewrite NoDup_cons_iff. intros [Hn Hd].
  destruct (keep a); simpl; [|now apply IH].
  apply NoDup_cons; [|now apply IH].
  rewrite in_map_iff. intros (x & E & Hx).
  apply filter_In in Hx as [Hx _].
  apply Hn. rewrite <- E. now apply in_map.
Qed.

End NoDupFacts.

Section FacetShapes.

Import Handler.

Lemma fixed_facets_clean (fs : list string) :
  In fs fixed_facets -> clean_facets fs.
Proof.
  intros H. simpl in H.
  repeat (destruct H as [<-|H];
          [split; [discriminate | repeat constructor]|]).
  destruct H.
Qed.

Lemma product_facets_clean (fs : list string) :
  product_facets fs -> clean_facets fs.
Proof.
  intros (n & k & -> & _ & Hn & Hk). split; [discriminate|].
  repeat constructor.
  - now apply name_chars_clean.
  - destruct Hk as [->| ->]; reflexivity.
Qed.

Lemma leaf_facets_clean (fs : list string) : leaf_facets fs -> clean_facets fs.
Proof.
  intros [H|H]; [now apply fixed_facets_clean | now apply product_facets_clean].
Qed.

Lemma wrapper_facets_clean (fs : list string) :
  wrapper_facets fs -> clean_facets fs.
Proof.
  intros (p & m & -> & Hp). split; [discriminate|].
  repeat constructor.
  - now apply name_chars_clean.
  - destruct m; reflexivity.
Qed.

Lemma tokens_of_clean (f : amf_file) :
  clean_facets (facets_of f) -> tokens_of f = facets_of f.
Proof.
  intros [Hne Hc]. unfold tokens_of, AmfFile.namespace, AmfFile.facet_separator.
  now apply split_join.
Qed.

(** The three kinds of token lists are pairwise apart. *)
Lemma leaf_not_global (fs : list string) :
  leaf_facets fs -> ~ In fs global_tokens.
Proof.
  intros [H|(n & k & -> & _)] G; simpl in G.
  - simpl in H.
    repeat (destruct H as [<-|H];
            [repeat (destruct G as [G|G]; [discriminate G|]); exact G|]).
    exact H.
  - repeat (destruct G as [G|G]; [discriminate G|]). exact G.
Qed.

Lemma leaf_not_wrapper (fs : list string) :
  leaf_facets fs -> ~ wrapper_facets fs.
Proof.
  intros [H|(n & k & -> & _ & _ & Hk)] (p & m & E & _).
  - subst fs. simpl in H.
    repeat (destruct H as [H|H]; [discriminate H|]). exact H.
  - injection E as _ E. destruct Hk as [->| ->]; destruct m; discriminate E.
Qed.

Lemma global_not_wrapper (fs : list string) :
  In fs global_tokens -> ~ wrapper_facets fs.
Proof.
  intros G (p & m & -> & _). simpl in G.
  repeat (destruct G as [G|G]; [discriminate G|]). exact G.
Qed.

End FacetShapes.

Section LeafFacets.

Import Handler.

Variable K : cv_classes.
Variable w : world.
Variable self_path : string.

Lemma loaded_facets (bc : option pyclass) (infos : list CVParseInfo)
    (cvs : list amf_file) :
  result (load_cvs w self_path bc infos) = Return cvs ->
  map facets_of cvs = map facets (filter (loaded w self_path bc) infos).
Proof.
  intros R. rewrite (load_result w self_path bc infos cvs R). clear R.
  induction infos as [|i rest IH]; [reflexivity|].
  simpl filter. destruct (loaded w self_path bc i) eqn:L; [|exact IH].
  simpl. unfold loaded in L. apply andb_true_iff in L as [_ L].
  destruct (parse_cv w (cls i) (full_path_of self_path i)); [|discriminate].
  simpl. now rewrite IH.
Qed.

Lemma fixed_parse_infos_facets :
  map facets (static_parse_infos K ++ _get_common_var_dim_parse_info K self_path)
  = fixed_facets.
Proof. reflexivity. Qed.

Lemma fixed_facets_NoDup : NoDup fixed_facets.
Proof.
  unfold fixed_facets.
  repeat (constructor;
          [intros H; simpl in H;
           repeat (destruct H as [H|H]; [discriminate H|]); exact H|]).
  constructor.
Qed.

Lemma fixed_not_product (fs : list string) :
  In fs fixed_facets -> ~ product_facets fs.
Proof.
  intros H (n & k & -> & _ & _ & Hk). simpl in H.
  repeat (destruct H as [H|H]; [discriminate H|]). exact H.
Qed.

Lemma parse_infos_facets_NoDup (pp : list CVParseInfo) :
  Forall (fun i => product_facets (facets i)) pp ->
  NoDup (map facets pp) ->
  NoDup (map facets (parse_infos_of K self_path pp)).
Proof.
  intros F D. unfold parse_infos_of. rewrite map_app, fixed_parse_infos_facets.
  apply NoDup_app; [apply fixed_facets_NoDup | exact D |].
  intros fs Hf Hin. apply (fixed_not_product fs Hf).
  apply in_map_iff in Hin as (i & <- & Hi).
  rewrite Forall_forall in F. now apply F.
Qed.

Lemma parse_infos_leaf_facets (pp : list CVParseInfo) (i : CVParseInfo) :
  Forall (fun i => product_facets (facets i)) pp ->
  In i (parse_infos_of K self_path pp) -> leaf_facets (facets i).
Proof.
  intros F Hin. unfold parse_infos_of in Hin. apply in_app_or in Hin as [H|H].
  - left. rewrite <- fixed_parse_infos_facets. now apply in_map.
  - right. rewrite Forall_forall in F. now apply F.
Qed.

(** A named record with the facets of a leaf carries a product name. *)
Lemma named_leaf_product (f : amf_file) :
  leaf_facets (facets_of f) -> is_named f = true ->
  all_name_chars (second_facet f) = true.
Proof.
  unfold is_named, product_scoped, second_facet.
  intros [H|(n & k & E & _ & Hn & _)].
  - simpl in H.
    repeat (destruct H as [<-|H]; [discriminate|]). destruct H.
  - rewrite E. intros _. exact Hn.
Qed.

End LeafFacets.

Section WrapperFacets.

Import Handler.

Variable gc : list amf_file.
Variable C : list (string * list amf_file).

Lemma wrapper_checks_facets (P : list (string * list amf_file)) :
  map facets_of (wrapper_checks gc P C)
  = flat_map (fun p => map (fun m => ["product"; p; mode_token m]) all_modes)
             (map fst P).
Proof.
  induction P as [|[p l] P IH]; [reflexivity|].
  rewrite wrapper_checks_cons, map_app, IH. reflexivity.
Qed.

Lemma wrapper_facets_NoDup (keys : list string) :
  NoDup keys ->
  NoDup (flat_map (fun p => map (fun m => ["product"; p; mode_token m]) all_modes)
                  keys).
Proof.
  induction 1 as [|p keys Hn Hd IH]; [constructor|].
  cbn [flat_map]. apply NoDup_app; [|exact IH|].
  - unfold all_modes. cbn [map].
    repeat (constructor;
            [intros H; simpl in H;
             repeat (destruct H as [H|H]; [discriminate H|]); exact H|]).
    constructor.
  - intros fs H1 H2.
    apply in_map_iff in H1 as (m & <- & _).
    apply in_flat_map in H2 as (q & Hq & H2).
    apply in_map_iff in H2 as (m' & [= -> _] & _). contradiction.
Qed.

Lemma wrapper_checks_wrapper_facets (P : list (string * list amf_file)) :
  (forall p, In p (map fst P) -> all_name_chars p = true) ->
  forall fs, In fs (map facets_of (wrapper_checks gc P C)) -> wrapper_facets fs.
Proof.
  intros HP fs Hin. apply in_map_iff in Hin as (x & <- & Hx).
  apply wrapper_checks_in in Hx as (p & l & m & Hin & ->).
  exists p, m. split; [reflexivity|].
  apply HP. now apply (in_map fst) in Hin.
Qed.

End WrapperFacets.

Section UniqueNames.

Import Handler.

Variable K : cv_classes.
Variable w : world.
Variable self_path : string.

(** Distinct token lists give distinct file names. *)
Lemma filenames_NoDup (ext : string) (l : list amf_file) :
  NoDup (map tokens_of l) -> NoDup (filenames ext l).
Proof.
  intros H. unfold filenames.
  rewrite <- (map_map (fun f => AmfFile.namespace (facets_of f))
                      (fun ns => "AMF" ++ AmfFile.facet_separator ++ ns
                                 ++ "." ++ ext)).
  apply NoDup_map_injective.
  - intros x y E. apply app_cancel_l in E. apply app_cancel_l in E.
    exact (app_cancel_r ("." ++ ext) _ _ E).
  - unfold tokens_of in H.
    rewrite <- (map_map (fun f => AmfFile.namespace (facets_of f))
                        (PyStr.split "_"%char)) in H.
    now apply NoDup_map_inv in H.
Qed.

Lemma map_tokens_clean (l : list amf_file) :
  (forall x, In x l -> clean_facets (facets_of x)) ->
  map tokens_of l = map facets_of l.
Proof.
  intros H. apply map_ext_in. intros x Hx. now apply tokens_of_clean, H.
Qed.

Lemma global_checks_tokens (gc : list amf_file) :
  result (get_global_checks w self_path) = Return gc ->
  NoDup (map tokens_of gc) /\
  forall fs, In fs (map tokens_of gc) -> In fs global_tokens.
Proof.
  intros R.
  destruct (global_checks_shape w self_path gc R) as [->|[d ->]]; split.
  - repeat constructor; simpl; intuition discriminate.
  - intros fs H. simpl in H |- *.
    repeat (destruct H as [<-|H]; [tauto|]). destruct H.
  - repeat constructor; simpl; intuition discriminate.
  - intros fs H. simpl in H |- *.
    repeat (destruct H as [<-|H]; [tauto|]). destruct H.
Qed.

(** The token lists of everything check compilation emits are pairwise
    distinct when those of the scanned sheets are. *)
Lemma compile_checks_tokens_NoDup (checks : list amf_file)
    (pp : list CVParseInfo) :
  result (compile_checks K w self_path) = Return checks ->
  result (_get_per_product_parse_info K w self_path) = Return pp ->
  NoDup (map facets pp) ->
  NoDup (map tokens_of checks).
Proof.
  intros R Rs D.
  destruct (compile_checks_inv K w self_path checks R)
    as (cvs & gc & Rc & Rg & ->).
  destruct (get_all_cvs_unfold K w self_path (Some (YamlCheck K)))
    as (pp' & Rs' & F & _ & _ & E).
  rewrite Rs in Rs'. injection Rs' as <-.
  rewrite E in Rc.
  (* the leaf records *)
  assert (Lf : forall x, In x cvs -> leaf_facets (facets_of x)).
  { intros x Hx.
    apply (loaded_in_result w self_path _ _ _ Rc) in Hx
      as (i & d & Hi & _ & _ & ->).
    simpl. now apply (parse_infos_leaf_facets K self_path pp). }
  assert (Tc : map tokens_of cvs = map facets_of cvs).
  { apply map_tokens_clean. intros x Hx. now apply leaf_facets_clean, Lf. }
  assert (Dc : NoDup (map facets_of cvs)).
  { rewrite (loaded_facets w self_path _ _ _ Rc).
    apply NoDup_map_filter. now apply parse_infos_facets_NoDup. }
  (* the global checks *)
  destruct (global_checks_tokens gc Rg) as [Dg Gg].
  (* the wrappers *)
  rewrite all_checks_of_eq.
  pose proof (group_cvs_spec cvs) as G.
  destruct (group_cvs cvs) as [P C]. simpl fst; simpl snd.
  destruct G as (_ & _ & HK & HD).
  assert (Nm : forall p, In p (map fst P) -> all_name_chars p = true).
  { intros p Hp. apply HK in Hp. unfold named_products in Hp.
    apply in_map_iff in Hp as (f & <- & Hf).
    apply filter_In in Hf as [Hf Hn].
    now apply named_leaf_product; [apply Lf|]. }
  assert (Wf : forall fs, In fs (map facets_of (wrapper_checks gc P C)) ->
                 wrapper_facets fs)
    by now apply wrapper_checks_wrapper_facets.
  assert (Tw : map tokens_of (wrapper_checks gc P C)
               = map facets_of (wrapper_checks gc P C)).
  { apply map_tokens_clean. intros x Hx.
    apply wrapper_facets_clean, Wf. now apply in_map. }
  assert (Dw : NoDup (map facets_of (wrapper_checks gc P C))).
  { rewrite wrapper_checks_facets. now apply wrapper_facets_NoDup. }
  rewrite !map_app, Tc, Tw.
  apply NoDup_app; [exact Dc | apply NoDup_app; assumption || idtac |].
  - intros fs Hg Hw. exact (global_not_wrapper fs (Gg fs Hg) (Wf fs Hw)).
  - intros fs Hc Hin.
    assert (Hl : leaf_facets fs).
    { apply in_map_iff in Hc as (x & <- & Hx). now apply Lf. }
    apply in_app_or in Hin as [Hg|Hw].
    + exact (leaf_not_global fs Hl (Gg fs Hg)).
    + exact (leaf_not_wrapper fs Hl (Wf fs Hw)).
Qed.

End UniqueNames.

(** C3, as the claim states it, fails: when the sheet of one product is
    found below two folders of the products directory, both are loaded
    with the same facets, and two of the emitted records are named
    [AMF_product_radar_variable.yml]. *)
Lemma duplicate_sheet_duplicate_filename :
  exists checks,
    result (Handler.compile_checks Samples.K0 Samples.twice_tree Samples.root)
    = Return checks /\
    ~ NoDup (filenames "yml" checks) /\
    ~ NoDup (map Handler.facets_of checks).
Proof.
  eexists. split; [vm_compute; reflexivity|].
  split; intros H; inversion H as [|? ? Hn _]; apply Hn; now left.
Qed.

(** C3 (amended): when no two sheets found by the per-product scan have
    the same facets, that is the same product and kind, the records
    emitted by one run of check compilation have pairwise distinct file
    names and pairwise distinct facet sequences. *)
Theorem output_filenames_unique
    (K : Handler.cv_classes) (w : Handler.world) (self_path ext : string)
    (checks : list Handler.amf_file) (pp : list Handler.CVParseInfo) :
  result (Handler.compile_checks K w self_path) = Return checks ->
  result (Handler._get_per_product_parse_info K w self_path) = Return pp ->
  NoDup (map Handler.facets pp) ->
  NoDup (filenames ext checks) /\ NoDup (map Handler.facets_of checks).
Proof.
  intros R Rs D.
  pose proof (compile_checks_tokens_NoDup K w self_path checks pp R Rs D) as T.
  split; [now apply filenames_NoDup|].
  unfold tokens_of in T.
  rewrite <- (map_map Handler.facets_of
                (fun fs => PyStr.split "_"%char (AmfFile.namespace fs))) in T.
  now apply NoDup_map_inv in T.
Qed.

Lemma output_filenames_unique_witness :
  NoDup (filenames "yml" Samples.radar_lidar_checks) /\
  NoDup (map Handler.facets_of Samples.radar_lidar_checks).
Proof.
  apply (output_filenames_unique Samples.K0 Samples.radar_lidar_tree
           Samples.root "yml" Samples.radar_lidar_checks
           [Samples.radar_vars; Samples.radar_dims; Samples.lidar_vars]).
  - reflexivity.
  - reflexivity.
  - repeat (constructor;
            [intros H; simpl in H;
             repeat (destruct H as [H|H]; [discriminate H|]); exact H|]).
    constructor.
Defined.

(* ================================================================== *)
(** * Worked scenarios *)
(* ================================================================== *)

(** The names of what is emitted for two products, the common variables
    of one mode and the global attributes. *)
Example radar_lidar_filenames :
  filenames "yml" Samples.radar_lidar_checks
  = [ "AMF_product_common_variable_land.yml";
      "AMF_product_radar_variable.yml";
      "AMF_product_radar_dimension.yml";
      "AMF_product_lidar_variable.yml";
      "AMF_file_info.yml"; "AMF_file_structure.yml"; "AMF_global_attrs.yml";
      "AMF_product_radar_land.yml"; "AMF_product_radar_sea.yml";
      "AMF_product_radar_air.yml";
      "AMF_product_lidar_land.yml"; "AMF_product_lidar_sea.yml";
      "AMF_product_lidar_air.yml" ].
Proof. reflexivity. Qed.

(** With a common sheet for the mode Land only, the wrapper of [lidar]
    for Land lists the common record and the one for Sea does not. *)
Example common_record_only_in_its_mode :
  In (Handler.WrapperYamlCheck
        (Samples.global_checks3
         ++ [Samples.leaf Samples.lidar_vars] ++ [Samples.common_vars_land])
        ["product"; "lidar"; "land"]) Samples.radar_lidar_checks /\
  In (Handler.WrapperYamlCheck
        (Samples.global_checks3 ++ [Samples.leaf Samples.lidar_vars] ++ [])
        ["product"; "lidar"; "sea"]) Samples.radar_lidar_checks.
Proof.
  split.
  - do 10 right. left. reflexivity.
  - do 11 right. left. reflexivity.
Qed.

(** The loading loop on sheets that fail to parse: the dimensions sheet
    without rows leaves no trace, the broken sheet one warning. *)
Example faulty_sheets_are_skipped :
  Handler.load_cvs Samples.faulty_tree Samples.root None
    [Samples.radar_vars; Samples.radar_dims; Samples.broken_vars;
     Samples.lidar_vars]
  = ([Print Stderr
        "WARNING: Failed to parse '/in/Product Definition Spreadsheets/broken/broken.xlsx/Variables - Specific.tsv': Invalid headers"],
     Return [Samples.leaf Samples.radar_vars; Samples.leaf Samples.lidar_vars]).
Proof. reflexivity. Qed.

(** A sheet is found by the end of its path: a folder whose name only
    ends with the product name matches as well. *)
Example sheet_regex_is_not_anchored :
  Handler.sheet_regex_search
    "/in/Product Definition Spreadsheets/old-radar/radar.xlsx/Variables - Specific.tsv"
  = Some ("radar", "Variables").
Proof. reflexivity. Qed.

(* ================================================================== *)
(** * More on the whitespace-stripping reader *)
(* ================================================================== *)

Section ReaderFacts.

Import PyStr CvsBase.

Lemma lstrip_fix (s : string) :
  (forall c, head_char s = Some c -> is_space c = false) -> lstrip s = s.
Proof.
  destruct s as [|c s]; simpl; [reflexivity|].
  intros H. now rewrite (H c eq_refl).
Qed.

Lemma rstrip_fix (s : string) :
  (forall c, last_char s = Some c -> is_space c = false) -> rstrip s = s.
Proof.
  induction s as [|c s IH]; simpl; [reflexivity|].
  intros H. destruct s as [|d s].
  - simpl in *. now rewrite (H c eq_refl).
  - assert (E : rstrip (String d s) = String d s).
    { apply IH. intros x Hx. apply H.
      change (last_char (String d s)) with
        (match last_char s with None => Some d | Some e => Some e end) in Hx.
      simpl. destruct (last_char s); exact Hx. }
    now rewrite E.
Qed.

Lemma strip_fix (s : string) : is_stripped s -> strip s = s.
Proof.
  intros [Hh Hl]. unfold strip. rewrite (lstrip_fix s Hh). now apply rstrip_fix.
Qed.

Lemma dict_setitem_fresh {V} (k : string) (v : V) (d : list (string * V)) :
  ~ In k (map fst d) -> dict_setitem k v d = (d ++ [(k, v)])%list.
Proof.
  induction d as [|[k' v'] d IH]; simpl; intros H; [reflexivity|].
  destruct (String.eqb_spec k k') as [->|_]; [tauto|].
  rewrite IH by tauto. reflexivity.
Qed.

Lemma dict_setitem_keys {V} (k : string) (v : V) (d : list (string * V)) (x : string) :
  In x (map fst (dict_setitem k v d)) <-> x = k \/ In x (map fst d).
Proof.
  induction d as [|[k' v'] d IH]; simpl.
  - intuition.
  - destruct (String.eqb_spec k k') as [->|N]; simpl.
    + intuition.
    + rewrite IH. intuition.
Qed.

Lemma dict_setitem_NoDup {V} (k : string) (v : V) (d : list (string * V)) :
  NoDup (map fst d) -> NoDup (map fst (dict_setitem k v d)).
Proof.
  induction d as [|[k' v'] d IH]; simpl; intros H.
  - repeat constructor. intros [].
  - apply NoDup_cons_iff in H as [Hn Hd].
    destruct (String.eqb_spec k k') as [->|N]; simpl.
    + now constructor.
    + constructor; [|now apply IH].
      rewrite dict_setitem_keys. intros [E|E]; [congruence|contradiction].
Qed.

Lemma dict_get_setitem {V} (k x : string) (v : V) (d : list (string * V)) :
  Handler.dict_get x (dict_setitem k v d)
  = if String.eqb x k then Some v else Handler.dict_get x d.
Proof.
  induction d as [|[k' v'] d IH]; simpl.
  - reflexivity.
  - destruct (String.eqb_spec k k') as [->|N]; simpl.
    + now destruct (String.eqb x k').
    + rewrite IH. destruct (String.eqb_spec x k') as [->|_]; [|reflexivity].
      destruct (String.eqb_spec k' k); [congruence|reflexivity].
Qed.

(** One round of the comprehension on a plain item. *)
Lemma strip_items_plain (kv : option string * cell) (rest : raw_row) (acc : row) :
  plain_item kv = true ->
  strip_items (kv :: rest) acc
  = strip_items rest (dict_setitem (stripped_key kv) (stripped_value kv) acc).
Proof.
  destruct kv as [[k|] [s| |l]]; simpl; try discriminate; reflexivity.
Qed.

(** One round of the comprehension on an item of surplus cells. *)
Lemma strip_items_surplus (kv : option string * cell) (rest : raw_row) (acc : row) :
  plain_item kv = false ->
  exists m, strip_items (kv :: rest) acc = Raise (AttributeError m).
Proof.
  destruct kv as [[k|] [s| |l]]; simpl; try discriminate; eauto.
Qed.

Lemma strip_items_app (items : raw_row) :
  forall acc,
    forallb plain_item items = true ->
    NoDup (map fst acc ++ map stripped_key items) ->
    strip_items items acc = Return (acc ++ map stripped_pair items)%list.
Proof.
  induction items as [|kv items IH]; intros acc Hp Hd; simpl map.
  - simpl. now rewrite app_nil_r.
  - simpl in Hp. apply andb_true_iff in Hp as [Hkv Hp].
    rewrite strip_items_plain by exact Hkv.
    assert (Hfresh : ~ In (stripped_key kv) (map fst acc)).
    { intros Hin. apply NoDup_remove_2 in Hd. apply Hd.
      apply in_or_app. now left. }
    rewrite dict_setitem_fresh by exact Hfresh.
    rewrite IH; [|exact Hp|].
    + now rewrite <- app_assoc.
    + rewrite map_app. simpl. rewrite <- app_assoc. exact Hd.
Qed.

Lemma strip_items_lookup (items : raw_row) :
  forall acc r,
    strip_items items acc = Return r ->
    (NoDup (map fst acc) -> NoDup (map fst r)) /\
    forall k, Handler.dict_get k r
              = match last_binding k items with
                | Some v => Some v
                | None => Handler.dict_get k acc
                end.
Proof.
  induction items as [|kv items IH]; intros acc r.
  - simpl. intros [= <-]. split; [tauto|reflexivity].
  - destruct (plain_item kv) eqn:Hp.
    + rewrite strip_items_plain by exact Hp. intros H.
      destruct (IH _ _ H) as [HD HL]. split.
      * intros D. apply HD. now apply dict_setitem_NoDup.
      * intros k. rewrite HL. simpl.
        destruct (last_binding k items); [reflexivity|].
        rewrite dict_get_setitem.
        now destruct (String.eqb k (stripped_key kv)).
    + destruct (strip_items_surplus kv items acc Hp) as [m ->]. discriminate.
Qed.

Lemma strip_items_outcome (items : raw_row) (acc : row) :
  (forallb plain_item items = true /\ exists r, strip_items items acc = Return r)
  \/ (forallb plain_item items = false
      /\ exists m, strip_items items acc = Raise (AttributeError m)).
Proof.
  revert acc. induction items as [|kv items IH]; intros acc.
  - left. split; [reflexivity|]. simpl. eauto.
  - simpl forallb. destruct (plain_item kv) eqn:Hp.
    + rewrite strip_items_plain by exact Hp. simpl. apply IH.
    + right. split; [reflexivity|]. now apply strip_items_surplus.
Qed.

(** With pairwise distinct stripped headers, the last item under the
    stripped key of an item is that item. *)
Lemma last_binding_own (raw : raw_row) (kv : option string * cell) :
  NoDup (map stripped_key raw) -> In kv raw ->
  last_binding (stripped_key kv) raw = Some (stripped_value kv).
Proof.
  induction raw as [|x raw IH]; simpl; intros Hd Hin; [destruct Hin|].
  apply NoDup_cons_iff in Hd as [Hx Hd].
  destruct Hin as [->|Hin].
  - assert (N : last_binding (stripped_key kv) raw = None).
    { destruct (last_binding (stripped_key kv) raw) eqn:L; [|reflexivity].
      exfalso. apply Hx. clear -L.
      induction raw as [|y raw IH]; simpl in L; [discriminate|].
      destruct (last_binding (stripped_key kv) raw).
      - right. now apply IH.
      - destruct (String.eqb_spec (stripped_key kv) (stripped_key y)) as [E|_];
          [left; now symmetry | discriminate]. }
    now rewrite N, String.eqb_refl.
  - now rewrite (IH Hd Hin).
Qed.

End ReaderFacts.

(** X1: when the stripped headers of a row without surplus cells are
    pairwise distinct, the reader delivers a row that holds exactly the
    items of the underlying row, each with its key and its value
    stripped and each once, whatever the order of the dict: nothing is
    lost and nothing is merged, and every header looks up its own
    stripped cell. *)
Theorem reader_distinct_headers (raw : CvsBase.raw_row) :
  forallb plain_item raw = true ->
  NoDup (map stripped_key raw) ->
  exists r,
    CvsBase.next raw = Return r /\
    Permutation r (map stripped_pair raw) /\
    forall kv, In kv raw ->
      Handler.dict_get (stripped_key kv) r = Some (stripped_value kv).
Proof.
  intros Hp Hd. exists (map stripped_pair raw).
  assert (E : CvsBase.next raw = Return (map stripped_pair raw))
    by (unfold CvsBase.next; now rewrite strip_items_app).
  split; [exact E|]. split; [apply Permutation_refl|].
  intros kv Hin.
  destruct (strip_items_lookup raw [] _ E) as [_ HL]. rewrite HL.
  rewrite (last_binding_own raw kv Hd Hin). reflexivity.
Qed.

Lemma reader_distinct_headers_witness :
  exists r,
    CvsBase.next Samples.padded_row = Return r /\
    Permutation r (map stripped_pair Samples.padded_row) /\
    forall kv, In kv Samples.padded_row ->
      Handler.dict_get (stripped_key kv) r = Some (stripped_value kv).
Proof.
  apply (reader_distinct_headers Samples.padded_row).
  - reflexivity.
  - repeat (constructor;
            [intros H; simpl in H;
             repeat (destruct H as [H|H]; [discriminate H|]); exact H|]).
    constructor.
Defined.

(** X2: in a delivered row no key occurs twice, and the value under a
    key is the stripped value of the LAST item of the underlying row
    whose header strips to that key; a key that no header strips to is
    absent. *)
Theorem reader_last_header_wins (raw : CvsBase.raw_row) (r : CvsBase.row) :
  CvsBase.next raw = Return r ->
  NoDup (map fst r) /\
  forall k, Handler.dict_get k r = last_binding k raw.
Proof.
  intros H. destruct (strip_items_lookup raw [] r H) as [HD HL]. split.
  - apply HD. constructor.
  - intros k. rewrite HL. now destruct (last_binding k raw).
Qed.

Lemma reader_last_header_wins_witness :
  Handler.dict_get "name" [("name", Some "b")] = Some (Some "b").
Proof.
  exact (proj2 (reader_last_header_wins
                  [(Some "name", CvsBase.CellStr "a");
                   (Some " name", CvsBase.CellStr " b ")]
                  [("name", Some "b")] eq_refl) "name").
Defined.

(** X3: the reader raises exactly when the underlying row has an item
    made of surplus cells (a row longer than the header), and what it
    raises is then an [AttributeError]. *)
Theorem reader_raises_on_surplus_cells (raw : CvsBase.raw_row) :
  (forallb plain_item raw = false <->
   exists e, CvsBase.next raw = Raise e) /\
  (forall e, CvsBase.next raw = Raise e -> exists m, e = AttributeError m).
Proof.
  unfold CvsBase.next.
  destruct (strip_items_outcome raw []) as [[Hp [r Hr]]|[Hp [m Hm]]];
    rewrite Hp.
  - split.
    + split; [discriminate|]. intros [e He]. rewrite Hr in He. discriminate.
    + intros e He. rewrite Hr in He. discriminate.
  - split.
    + split; [eauto|reflexivity].
    + intros e He. rewrite Hm in He. injection He as <-. eauto.
Qed.

(** X4: normalizing is idempotent: a delivered row, read again as the
    row of a [DictReader], is delivered unchanged. *)
Theorem reader_idempotent (raw : CvsBase.raw_row) (r : CvsBase.row) :
  CvsBase.next raw = Return r ->
  CvsBase.next (as_raw r) = Return r.
Proof.
  intros H.
  pose proof (strip_items_stripped raw [] r (Forall_nil _) H) as S.
  destruct (strip_items_lookup raw [] r H) as [HD _].
  specialize (HD (NoDup_nil _)).
  assert (E : map stripped_pair (as_raw r) = r).
  { clear H HD. induction r as [|[k v] r IH]; [reflexivity|].
    apply Forall_cons_iff in S as [[Hk Hv] S]. simpl in Hk, Hv.
    simpl. rewrite (IH S). f_equal.
    unfold stripped_pair, stripped_key, stripped_value. simpl.
    rewrite (strip_fix k Hk). destruct v as [s|]; [|reflexivity].
    now rewrite (strip_fix s (Hv s eq_refl)). }
  assert (K : map stripped_key (as_raw r) = map fst r).
  { rewrite <- E at 2. rewrite map_map. reflexivity. }
  unfold CvsBase.next. rewrite strip_items_app.
  - simpl. now rewrite E.
  - unfold as_raw. rewrite forallb_forall. intros kv Hin.
    apply in_map_iff in Hin as ([k v] & <- & _). now destruct v.
  - simpl. now rewrite K.
Qed.

Lemma reader_idempotent_witness :
  CvsBase.next
    (as_raw [("name", Some "refl"); ("units", Some "dBZ"); ("notes", None)])
  = Return [("name", Some "refl"); ("units", Some "dBZ"); ("notes", None)].
Proof.
  apply (reader_idempotent Samples.padded_row). reflexivity.
Defined.

Lemma reader_raises_on_surplus_cells_witness :
  exists e,
    CvsBase.next [(Some "name", CvsBase.CellStr "refl");
                  (None, CvsBase.CellRest ["dBZ"; "x"])] = Raise e.
Proof.
  apply (proj1 (proj1 (reader_raises_on_surplus_cells
                         [(Some "name", CvsBase.CellStr "refl");
                          (None, CvsBase.CellRest ["dBZ"; "x"])]))).
  reflexivity.
Defined.

(* ================================================================== *)
(** * More on the loading loop *)
(* ================================================================== *)

Section LoadMore.

Import Handler.

Variable w : world.
Variable self_path : string.

Abbreviation load := (load_cvs w self_path).
Abbreviation full := (full_path_of self_path).

Lemma load_tame (bc : option pyclass) (infos : list CVParseInfo) :
  forallb (tame_entry w self_path bc) infos = true ->
  load bc infos
  = (flat_map (warnings_of w self_path bc) infos,
     Return (flat_map (record_of w self_path bc) infos)).
Proof.
  induction infos as [|i rest IH]; intros H; [reflexivity|].
  simpl in H. apply andb_true_iff in H as [Hi Hr].
  rewrite load_cons, (IH Hr). cbn [flat_map].
  unfold tame_entry in Hi. unfold warnings_of, record_of.
  destruct (filtered_out bc (cls i)); [reflexivity|].
  destruct (os_path_isfile w (full i)); [|reflexivity].
  simpl in Hi.
  destruct (parse_cv w (cls i) (full i)) as [d|[]]; try discriminate Hi;
    simpl; rewrite ?app_nil_r; reflexivity.
Qed.

Lemma load_filter (b : pyclass) (infos : list CVParseInfo) :
  forall cvs,
    result (load None infos) = Return cvs ->
    result (load (Some b) infos) = Return (filter (has_base b) cvs).
Proof.
  induction infos as [|i rest IH]; intros cvs.
  - simpl. now intros [= <-].
  - rewrite !load_cons. cbn [filtered_out].
    destruct (os_path_isfile w (full i)).
    + destruct (parse_cv w (cls i) (full i)) as [d|e].
      * rewrite result_bind.
        destruct (result (load None rest)) as [later|e] eqn:R; [|discriminate].
        simpl. intros [= <-]. simpl.
        destruct (class_in b (class_bases (cls i))); simpl.
        -- rewrite result_bind, (IH later eq_refl). reflexivity.
        -- now apply IH.
      * destruct e; simpl; try discriminate; intros H;
          destruct (class_in b (class_bases (cls i))); simpl; now apply IH.
    + simpl. intros H.
      destruct (class_in b (class_bases (cls i))); simpl; now apply IH.
Qed.

End LoadMore.

(** X5: an exception of a parser other than the two parse errors ends
    the enumeration: it is the outcome of the loop, the sources after
    the failing one are not touched (nothing more is printed), and the
    records of the sources before it are not returned. *)
Theorem other_exceptions_end_enumeration
    (w : Handler.world) (self_path : string) (bc : option Handler.pyclass)
    (pre rest : list Handler.CVParseInfo) (i : Handler.CVParseInfo)
    (e : exn) (a : list Handler.amf_file) :
  Handler.filtered_out bc (Handler.cls i) = false ->
  Handler.os_path_isfile w (full_path_of self_path i) = true ->
  Handler.parse_cv w (Handler.cls i) (full_path_of self_path i) = Raise e ->
  tame (Raise e) = false ->
  result (Handler.load_cvs w self_path bc pre) = Return a ->
  Handler.load_cvs w self_path bc (pre ++ i :: rest)
  = (events (Handler.load_cvs w self_path bc pre), Raise e).
Proof.
  intros Hf Hfile P He Ra.
  rewrite load_app, (load_cons w self_path bc i rest), Hf, Hfile, P.
  destruct (Handler.load_cvs w self_path bc pre) as [ev r].
  simpl in Ra. subst r.
  destruct e; try discriminate He; simpl; now rewrite app_nil_r.
Qed.

Lemma other_exceptions_end_enumeration_witness :
  Handler.load_cvs
    (Samples.tree_with (fun _ _ => Raise (AttributeError "strip"))
       [Samples.root ++ "/" ++ Handler.path Samples.radar_vars] [])
    Samples.root None
    [Samples.lidar_vars; Samples.radar_vars; Samples.radar_dims]
  = ([Print Stderr
        "WARNING: Expected to find file at '/in/Product Definition Spreadsheets/lidar/lidar.xlsx/Variables - Specific.tsv'"],
     Raise (AttributeError "strip")).
Proof.
  apply (other_exceptions_end_enumeration
           (Samples.tree_with (fun _ _ => Raise (AttributeError "strip"))
              [Samples.root ++ "/" ++ Handler.path Samples.radar_vars] [])
           Samples.root None [Samples.lidar_vars] [Samples.radar_dims]
           Samples.radar_vars (AttributeError "strip") []);
    reflexivity.
Defined.

(** X6: when every parser the loop calls returns or raises one of the
    two parse errors, [get_all_cvs] returns; the loop then gives, in the
    order of the entries, one record for each entry that passes the
    filter, exists and parses, and one warning for each that passes the
    filter and is missing or fails to parse. *)
Theorem enumeration_returns_when_parsers_are_tame
    (K : Handler.cv_classes) (w : Handler.world) (self_path : string)
    (bc : option Handler.pyclass) :
  (forall c p, tame (Handler.parse_cv w c p) = true) ->
  (forall infos,
     Handler.load_cvs w self_path bc infos
     = (flat_map (warnings_of w self_path bc) infos,
        Return (flat_map (record_of w self_path bc) infos))) /\
  exists cvs, result (Handler.get_all_cvs K w self_path bc) = Return cvs.
Proof.
  intros T.
  assert (L : forall infos,
     Handler.load_cvs w self_path bc infos
     = (flat_map (warnings_of w self_path bc) infos,
        Return (flat_map (record_of w self_path bc) infos))).
  { intros infos. apply load_tame. apply forallb_forall. intros i _.
    unfold tame_entry. rewrite T. apply orb_true_r. }
  split; [exact L|].
  destruct (get_all_cvs_unfold K w self_path bc) as (pp & _ & _ & _ & _ & E).
  rewrite E, L. eexists. reflexivity.
Qed.

Lemma enumeration_returns_when_parsers_are_tame_witness :
  exists cvs,
    result (Handler.get_all_cvs Samples.K0 Samples.faulty_tree Samples.root None)
    = Return cvs.
Proof.
  apply (enumeration_returns_when_parsers_are_tame Samples.K0
           Samples.faulty_tree Samples.root None).
  intros c p. simpl. unfold Samples.faulty_parse.
  destruct (Handler.class_eqb c _); [reflexivity|].
  destruct (PyStr.contains "broken" p); reflexivity.
Defined.

(** X7: the base-class filter commutes with the enumeration: when
    [get_all_cvs] without a filter returns, [get_all_cvs] with the filter
    class [b] returns those of its records whose class has [b] among its
    direct bases, in the same order. *)
Theorem filtered_enumeration_is_a_filter
    (K : Handler.cv_classes) (w : Handler.world) (self_path : string)
    (b : Handler.pyclass) (cvs : list Handler.amf_file) :
  result (Handler.get_all_cvs K w self_path None) = Return cvs ->
  result (Handler.get_all_cvs K w self_path (Some b))
  = Return (filter (has_base b) cvs).
Proof.
  intros R.
  destruct (get_all_cvs_unfold K w self_path None) as (pp & Rs & _ & _ & _ & E).
  destruct (get_all_cvs_unfold K w self_path (Some b))
    as (pp' & Rs' & _ & _ & _ & E').
  rewrite Rs in Rs'. injection Rs' as <-.
  rewrite E'. rewrite E in R. now apply load_filter.
Qed.

Lemma filtered_enumeration_is_a_filter_witness :
  result (Handler.get_all_cvs Samples.K0 Samples.radar_lidar_tree Samples.root
            (Some Samples.BaseCVC))
  = Return (filter (has_base Samples.BaseCVC)
              [Samples.common_vars_land; Samples.leaf Samples.radar_vars;
               Samples.leaf Samples.radar_dims; Samples.leaf Samples.lidar_vars]).
Proof.
  apply (filtered_enumeration_is_a_filter Samples.K0 Samples.radar_lidar_tree
           Samples.root Samples.BaseCVC).
  reflexivity.
Defined.

(* ================================================================== *)
(** * More on the per-product scan *)
(* ================================================================== *)

Section RegexSound.

Import PyStr Handler.

Lemma strip_prefix_sound (p s r : string) :
  strip_prefix p s = Some r -> s = p ++ r.
Proof.
  revert s. induction p as [|a p IH]; intros s; simpl.
  - now intros [= ->].
  - destruct s as [|b s]; [discriminate|].
    destruct (Ascii.eqb_spec a b) as [->|_]; [|discriminate].
    intros H. now rewrite (IH s H).
Qed.

Lemma span_name_sound (s : string) :
  s = fst (span_name s) ++ snd (span_name s).
Proof.
  induction s as [|c s IH]; simpl; [reflexivity|].
  destruct (is_name_char c); [|reflexivity].
  destruct (span_name s) as [a b]. simpl in *. now rewrite <- IH.
Qed.

Lemma match_type_sound (s t r : string) :
  match_type s = Some (t, r) -> s = t ++ r.
Proof.
  unfold match_type.
  destruct (strip_prefix "Variables" s) as [r1|] eqn:E1.
  - intros [= <- <-]. now apply strip_prefix_sound.
  - destruct (strip_prefix "Dimensions" s) as [r2|] eqn:E2; [|discriminate].
    intros [= <- <-]. now apply strip_prefix_sound.
Qed.

Lemma match_dot_sound (s r : string) :
  match_dot s = Some r -> exists c, s = String c r /\ c <> "010"%char.
Proof.
  destruct s as [|c s]; simpl; [discriminate|].
  destruct (Ascii.eqb_spec c "010"%char) as [|N]; [discriminate|].
  intros [= <-]. eauto.
Qed.

Lemma match_end_sound (s : string) :
  match_end s = true -> s = "" \/ s = String "010"%char "".
Proof.
  unfold match_end. intros H. apply orb_true_iff in H as [H|H];
    apply String.eqb_eq in H; auto.
Qed.

Ltac step_obind' :=
  match goal with
  | |- obind ?x _ = Some _ -> _ =>
      let E := fresh "E" in destruct x eqn:E; cbn [obind]; [|discriminate]
  end.

(** What a match at the first character says of the string. *)
Lemma sheet_regex_match_sound (s n t : string) :
  sheet_regex_match s = Some (n, t) ->
  exists c e,
    s = n ++ "/" ++ n ++ ".xlsx/" ++ t ++ " - Specific" ++ String c ("tsv" ++ e)
    /\ c <> "010"%char /\ (e = "" \/ e = String "010"%char "").
Proof.
  unfold sheet_regex_match.
  pose proof (span_name_sound s) as Hs.
  destruct (span_name s) as [name r1]. simpl in Hs.
  destruct (String.eqb name ""); [discriminate|].
  do 3 step_obind'.
  step_obind'. destruct p as [ty r5].
  do 3 step_obind'.
  destruct (match_end s5) eqn:Eend; [|discriminate].
  intros [= <- <-].
  apply strip_prefix_sound in E, E0, E1, E3, E5.
  apply match_type_sound in E2.
  apply match_dot_sound in E4 as (c & E4 & Hc).
  apply match_end_sound in Eend.
  exists c, s5. split; [|split; assumption].
  subst. reflexivity.
Qed.

Lemma sheet_regex_search_sound (s n t : string) :
  sheet_regex_search s = Some (n, t) ->
  exists pre c e,
    s = pre ++ n ++ "/" ++ n ++ ".xlsx/" ++ t ++ " - Specific"
            ++ String c ("tsv" ++ e)
    /\ c <> "010"%char /\ (e = "" \/ e = String "010"%char "").
Proof.
  induction s as [|a s IH]; cbn [sheet_regex_search].
  - destruct (sheet_regex_match "") as [[n' t']|] eqn:E; [|discriminate].
    intros [= -> ->]. exists "". now apply sheet_regex_match_sound.
  - destruct (sheet_regex_match (String a s)) as [[n' t']|] eqn:E.
    + intros [= -> ->]. exists "". now apply sheet_regex_match_sound.
    + intros H. destruct (IH H) as (pre & c & e & -> & Hc & He).
      exists (String a pre), c, e. now repeat split.
Qed.

End RegexSound.

(** X8: a path in which the sheet pattern is found ends with
    [<name>/<name>.xlsx/<type> - Specific], one character that is not a
    newline, [tsv] and at most a final newline, where the name is a
    non-empty run of letters, digits and hyphens and the type is
    [Variables] or [Dimensions]; the groups of the match are that name
    and that type. *)
Theorem sheet_pattern_shape (s n t : string) :
  Handler.sheet_regex_search s = Some (n, t) ->
  (exists pre c e,
     s = pre ++ n ++ "/" ++ n ++ ".xlsx/" ++ t ++ " - Specific"
             ++ String c ("tsv" ++ e)
     /\ c <> "010"%char /\ (e = "" \/ e = String "010"%char "")) /\
  n <> "" /\ all_name_chars n = true /\
  (t = "Variables" \/ t = "Dimensions").
Proof.
  intros H. split.
  - now apply sheet_regex_search_sound.
  - exact (sheet_regex_search_groups s n t H).
Qed.

Lemma sheet_pattern_shape_witness :
  "radar" <> "" /\ all_name_chars "radar" = true /\
  ("Variables" = "Variables" \/ "Variables" = "Dimensions").
Proof.
  exact (proj2 (sheet_pattern_shape
                  "/in/Product Definition Spreadsheets/old-radar/radar.xlsx/Variables - Specific.tsv"
                  "radar" "Variables" eq_refl)).
Defined.

Section ScanMore.

Import PyStr Handler.

Variable K : cv_classes.
Variable w : world.
Variable self_path : string.

Lemma entry_of_sheet (p : string) :
  is_sheet_path p = true -> exists i, entry_of K w self_path p = Some i.
Proof.
  unfold is_sheet_path, entry_of.
  destruct (sheet_regex_search p) as [[n t]|] eqn:E; [|discriminate].
  intros _.
  apply sheet_regex_search_groups in E as (_ & _ & [-> | ->]); simpl; eauto.
Qed.

Lemma scan_file_eq (dirpath fname : string) :
  let p := os_path_join dirpath fname in
  scan_file K w self_path dirpath fname
  = (if is_sheet_path p then [] else [no_match_warning p],
     Return (match entry_of K w self_path p with
             | Some i => [i]
             | None => []
             end)).
Proof.
  intros p. unfold scan_file, is_sheet_path, entry_of. fold p.
  destruct (sheet_regex_search p) as [[n t]|] eqn:E; [|reflexivity].
  apply sheet_regex_search_groups in E as (_ & _ & [-> | ->]); reflexivity.
Qed.

Abbreviation scan_of := (scan_result K w self_path).

Lemma scan_of_app (l1 l2 : list string) :
  bind (scan_of l1) (fun a => bind (scan_of l2) (fun b => ret (a ++ b)%list))
  = scan_of (l1 ++ l2).
Proof.
  unfold scan_result. simpl.
  now rewrite app_nil_r, filter_app, map_app, flat_map_app.
Qed.

Lemma scan_files_eq (dirpath : string) (filenames : list string) :
  scan_files K w self_path dirpath filenames
  = scan_of (map (os_path_join dirpath) filenames).
Proof.
  induction filenames as [|f rest IH]; [reflexivity|].
  cbn [scan_files map]. rewrite IH, scan_file_eq.
  change (os_path_join dirpath f :: map (os_path_join dirpath) rest)
    with ([os_path_join dirpath f] ++ map (os_path_join dirpath) rest)%list.
  rewrite <- scan_of_app. f_equal.
  unfold scan_result. simpl.
  destruct (is_sheet_path (os_path_join dirpath f)); simpl;
    now rewrite app_nil_r.
Qed.

Lemma scan_dirs_eq (walk : list (string * list string)) :
  scan_dirs K w self_path walk = scan_of (walked_paths walk).
Proof.
  induction walk as [|[d fs] rest IH]; [reflexivity|].
  cbn [scan_dirs]. rewrite IH, scan_files_eq.
  unfold walked_paths. cbn [flat_map fst snd]. apply scan_of_app.
Qed.

Lemma entries_of_sheets (paths : list string) :
  map Some
    (flat_map (fun p => match entry_of K w self_path p with
                        | Some i => [i]
                        | None => []
                        end) paths)
  = map (entry_of K w self_path) (filter is_sheet_path paths).
Proof.
  induction paths as [|p paths IH]; [reflexivity|].
  cbn [flat_map filter]. rewrite map_app, IH.
  destruct (is_sheet_path p) eqn:S.
  - destruct (entry_of_sheet p S) as [i E]. rewrite E. simpl.
    now rewrite E.
  - unfold is_sheet_path in S. unfold entry_of.
    now destruct (sheet_regex_search p).
Qed.

End ScanMore.

(** X9: the per-product scan never raises and accounts for every path
    it walks: a path in which the sheet pattern is found gives one entry,
    any other path one warning on the standard output, both in the order
    of the walk, so that entries and warnings together are as many as the
    paths. *)
Theorem scan_accounts_for_every_path
    (K : Handler.cv_classes) (w : Handler.world) (self_path : string) :
  let paths :=
    walked_paths
      (Handler.os_walk w
         (PyStr.os_path_join self_path "Product Definition Spreadsheets")) in
  exists pp,
    Handler._get_per_product_parse_info K w self_path
    = (map no_match_warning (filter (fun p => negb (is_sheet_path p)) paths),
       Return pp) /\
    map Some pp = map (entry_of K w self_path) (filter is_sheet_path paths) /\
    List.length pp
    + List.length (events (Handler._get_per_product_parse_info K w self_path))
    = List.length paths.
Proof.
  intros paths. unfold Handler._get_per_product_parse_info.
  fold Handler.products_dir. rewrite scan_dirs_eq. fold paths.
  eexists. split; [reflexivity|]. split; [apply entries_of_sheets|].
  simpl. rewrite length_map.
  rewrite <- (length_map Some), entries_of_sheets, length_map.
  apply filter_length.
Qed.

Section RegexComplete.

Import PyStr Handler.

Lemma str_app_assoc (a b c : string) : (a ++ b) ++ c = a ++ (b ++ c).
Proof.
  induction a as [|x a IH]; simpl; [reflexivity | now rewrite IH].
Qed.

Lemma lastn_app (k : nat) (x a : string) :
  k <= String.length a -> lastn k (x ++ a) = lastn k a.
Proof.
  intros Hk. induction x as [|c x IH]; [reflexivity|].
  cbn [append lastn]. rewrite str_length_app.
  destruct (Nat.leb_spec k (String.length x + String.length a)); [exact IH|lia].
Qed.

Lemma lastn_eq (k : nat) (x y a b : string) :
  x ++ a = y ++ b ->
  k <= String.length a -> k <= String.length b ->
  lastn k a = lastn k b.
Proof.
  intros E Ha Hb.
  rewrite <- (lastn_app k x a Ha), <- (lastn_app k y b Hb). now rewrite E.
Qed.

Lemma app_inj_suffix (x y a b : string) :
  String.length a = String.length b -> x ++ a = y ++ b -> x = y /\ a = b.
Proof.
  intros L. revert y. induction x as [|c x IH]; intros [|d y] E; simpl in E.
  - now split.
  - apply (f_equal String.length) in E. simpl in E.
    rewrite str_length_app in E. lia.
  - apply (f_equal String.length) in E. simpl in E.
    rewrite str_length_app in E. lia.
  - injection E as -> E. destruct (IH y E) as [-> ->]. now split.
Qed.

Lemma mem_char_middle (c : ascii) (y b : string) :
  mem_char c (y ++ String c b) = true.
Proof.
  induction y as [|d y IH]; simpl.
  - now rewrite Ascii.eqb_refl.
  - rewrite IH. apply orb_true_r.
Qed.

(** A string splits in one way only at its last separator. *)
Lemma last_separator_unique (c : ascii) (x y a b : string) :
  mem_char c a = false -> mem_char c b = false ->
  x ++ String c a = y ++ String c b -> x = y /\ a = b.
Proof.
  intros Ha Hb. revert y. induction x as [|d x IH]; intros [|d' y] E;
    simpl in E.
  - injection E as ->. now split.
  - injection E as _ E. rewrite E, mem_char_middle in Ha. discriminate.
  - injection E as _ E. rewrite <- E, mem_char_middle in Hb. discriminate.
  - injection E as -> E. destruct (IH y E) as [-> ->]. now split.
Qed.

Lemma name_chars_no_slash (n : string) :
  all_name_chars n = true -> mem_char "/"%char n = false.
Proof.
  induction n as [|c n IH]; [reflexivity|].
  cbn [all_name_chars mem_char].
  intros H. apply andb_true_iff in H as [Hc Hn].
  rewrite (IH Hn), orb_false_r.
  destruct (Ascii.eqb_spec "/"%char c) as [<-|]; [|reflexivity].
  vm_compute in Hc. discriminate.
Qed.

Lemma span_name_run (n r : string) :
  all_name_chars n = true ->
  span_name (n ++ String "/"%char r) = (n, String "/"%char r).
Proof.
  induction n as [|c n IH]; [reflexivity|].
  cbn [all_name_chars append span_name].
  intros H. apply andb_true_iff in H as [Hc Hn].
  now rewrite Hc, (IH Hn).
Qed.

Lemma sheet_regex_search_unfold (s : string) :
  sheet_regex_search s
  = match sheet_regex_match s with
    | Some g => Some g
    | None =>
        match s with
        | EmptyString => None
        | String _ s' => sheet_regex_search s'
        end
    end.
Proof. now destruct s. Qed.

(** The pattern matches at the start of the path of a sheet. *)
Lemma sheet_regex_match_core (n t : string) :
  n <> "" -> all_name_chars n = true ->
  t = "Variables" \/ t = "Dimensions" ->
  sheet_regex_match (sheet_path "" n t) = Some (n, t).
Proof.
  intros Hne Hn Ht. unfold sheet_path, sheet_regex_match.
  change ("" ++ n ++ "/" ++ n ++ ".xlsx/" ++ t ++ " - Specific.tsv")
    with (n ++ String "/"%char (n ++ ".xlsx/" ++ t ++ " - Specific.tsv")).
  rewrite (span_name_run n _ Hn).
  destruct (String.eqb_spec n "") as [|_]; [contradiction|].
  cbn [strip_prefix obind]. rewrite Ascii.eqb_refl. cbn [obind].
  rewrite strip_prefix_app. cbn [obind].
  destruct Ht as [-> | ->]; reflexivity.
Qed.

(** A match anywhere in the path of a sheet has the groups of that
    sheet. *)
Lemma sheet_regex_match_unique (pre n t n' t' : string) :
  all_name_chars n = true ->
  t = "Variables" \/ t = "Dimensions" ->
  sheet_regex_match (sheet_path pre n t) = Some (n', t') ->
  n' = n /\ t' = t.
Proof.
  intros Hn Ht M.
  destruct (sheet_regex_match_groups _ _ _ M) as (_ & Hn' & Ht').
  apply sheet_regex_match_sound in M as (c & e & E & _ & He).
  unfold sheet_path in E.
  assert (E' : ((pre ++ n) ++ String "/"%char n)
               ++ (".xlsx/" ++ t ++ " - Specific.tsv")
               = (n' ++ String "/"%char n')
                 ++ (".xlsx/" ++ t' ++ " - Specific" ++ String c ("tsv" ++ e))).
  { rewrite !str_app_assoc. exact E. }
  clear E.
  assert (G : forall A B,
             String.length A = String.length B ->
             (pre ++ n) ++ String "/"%char n ++ A = (n' ++ String "/"%char n') ++ B ->
             n' = n).
  { intros A B L E. rewrite <- !str_app_assoc in E.
    apply (app_inj_suffix _ _ A B L) in E as [E _].
    apply (last_separator_unique "/"%char) in E as [_ E];
      [now symmetry | now apply name_chars_no_slash
       | now apply name_chars_no_slash]. }
  destruct Ht as [-> | ->], Ht' as [-> | ->], He as [-> | ->];
    try (exfalso;
         apply (lastn_eq 24) in E';
         [vm_compute in E'; congruence
         | apply Nat.leb_le; reflexivity | apply Nat.leb_le; reflexivity]).
  - split; [|reflexivity].
    eapply G; [|rewrite !str_app_assoc; rewrite !str_app_assoc in E'; exact E'].
    reflexivity.
  - split; [|reflexivity].
    eapply G; [|rewrite !str_app_assoc; rewrite !str_app_assoc in E'; exact E'].
    reflexivity.
Qed.

Lemma sheet_regex_search_path (pre n t : string) :
  n <> "" -> all_name_chars n = true ->
  t = "Variables" \/ t = "Dimensions" ->
  sheet_regex_search (sheet_path pre n t) = Some (n, t).
Proof.
  intros Hne Hn Ht. induction pre as [|a pre IH];
    rewrite sheet_regex_search_unfold.
  - now rewrite sheet_regex_match_core.
  - destruct (sheet_regex_match (sheet_path (String a pre) n t))
      as [[n' t']|] eqn:M.
    + apply sheet_regex_match_unique in M as [-> ->]; auto.
    + exact IH.
Qed.

End RegexComplete.

(** X10: the sheet pattern is found in every path that ends with
    [<name>/<name>.xlsx/<type> - Specific.tsv] for a non-empty name of
    letters, digits and hyphens and the type [Variables] or [Dimensions],
    whatever comes before, and its groups are that name and that type;
    so the scan gives such a path the entry of the product with the
    facets [product, <name>, variable] or [product, <name>, dimension]. *)
Theorem sheet_path_is_recognised
    (K : Handler.cv_classes) (w : Handler.world) (self_path : string)
    (pre n : string) :
  n <> "" -> all_name_chars n = true ->
  (forall t, t = "Variables" \/ t = "Dimensions" ->
     Handler.sheet_regex_search
       (pre ++ n ++ "/" ++ n ++ ".xlsx/" ++ t ++ " - Specific.tsv")
     = Some (n, t)) /\
  entry_of K w self_path (sheet_path pre n "Variables")
  = Some {| Handler.path :=
              Handler.os_path_relpath w (sheet_path pre n "Variables") self_path;
            Handler.cls := Handler.VariablesCV K;
            Handler.facets := ["product"; n; "variable"] |} /\
  entry_of K w self_path (sheet_path pre n "Dimensions")
  = Some {| Handler.path :=
              Handler.os_path_relpath w (sheet_path pre n "Dimensions") self_path;
            Handler.cls := Handler.DimensionsCV K;
            Handler.facets := ["product"; n; "dimension"] |}.
Proof.
  intros Hne Hn. split; [|split].
  - intros t Ht. now apply (sheet_regex_search_path pre n t).
  - unfold entry_of.
    now rewrite (sheet_regex_search_path pre n "Variables") by auto.
  - unfold entry_of.
    now rewrite (sheet_regex_search_path pre n "Dimensions") by auto.
Qed.

Lemma sheet_path_is_recognised_witness :
  Handler.sheet_regex_search
    ("/in/Product Definition Spreadsheets/" ++ "lidar-2" ++ "/" ++ "lidar-2"
     ++ ".xlsx/" ++ "Dimensions" ++ " - Specific.tsv")
  = Some ("lidar-2", "Dimensions").
Proof.
  apply (proj1 (sheet_path_is_recognised Samples.K0 Samples.empty_tree
                  Samples.root "/in/Product Definition Spreadsheets/"
                  "lidar-2" ltac:(discriminate) eq_refl)).
  now right.
Defined.

(* ================================================================== *)
(** * More on the wrapper checks *)
(* ================================================================== *)

Section WrapperMore.

Import Handler.

Variable K : cv_classes.
Variable w : world.
Variable self_path : string.

(** The wrappers among the emitted records. *)
Lemma emitted_wrapper_inv (cvs gc : list amf_file)
    (children : list amf_file) (fs : list string) :
  result (get_all_cvs K w self_path (Some (YamlCheck K))) = Return cvs ->
  result (get_global_checks w self_path) = Return gc ->
  In (WrapperYamlCheck children fs) (all_checks_of cvs gc) ->
  exists p m,
    In p (named_products cvs) /\
    WrapperYamlCheck children fs = the_wrapper gc cvs p m.
Proof.
  intros Rc Rg Hin. rewrite all_checks_of_eq, !in_app_iff in Hin.
  destruct Hin as [H|[H|H]].
  - destruct (cvs_are_leaves K w self_path _ cvs Rc _ H) as (c & f & d & E).
    discriminate E.
  - pose proof (global_checks_not_wrappers w self_path gc Rg _ H) as N.
    discriminate N.
  - pose proof (group_cvs_spec cvs) as G.
    destruct (group_cvs cvs) as [P C]. simpl fst in H; simpl snd in H.
    destruct G as (HP & HC & HK & _).
    apply wrapper_checks_in in H as (p & l & m & Hpl & E).
    exists p, m. split.
    + apply HK. now apply (in_map fst) in Hpl.
    + rewrite E. unfold wrapper_for, the_wrapper.
      now rewrite HC, (HP p l Hpl).
Qed.

Lemma named_products_not_common (cvs : list amf_file) (p : string) :
  In p (named_products cvs) -> p <> "common".
Proof.
  unfold named_products. intros H.
  apply in_map_iff in H as (f & <- & Hf).
  apply filter_In in Hf as [_ Hn]. unfold is_named in Hn.
  apply andb_true_iff in Hn as [_ Hn].
  destruct (String.eqb_spec (second_facet f) "common"); [discriminate|assumption].
Qed.

Lemma leaf_not_in_global_checks (gc : list amf_file) (c : pyclass)
    (fs : list string) (d : json) :
  result (get_global_checks w self_path) = Return gc -> ~ In (CV c fs d) gc.
Proof.
  intros Rg Hin.
  destruct (global_checks_shape w self_path gc Rg) as [->|[d' ->]];
    simpl in Hin; repeat (destruct Hin as [Hin|Hin]; [discriminate Hin|]);
    exact Hin.
Qed.

End WrapperMore.

(** X11: the children of an emitted wrapper with facets
    [product, p, t] are: every global check; of the yielded leaf records,
    those of the named product [p] and the common ones whose last facet
    is [t]; and nothing else. Every child is itself among the emitted
    records, and [p] is never [common]. *)
Theorem wrapper_children
    (K : Handler.cv_classes) (w : Handler.world) (self_path : string)
    (checks cvs gc children : list Handler.amf_file) (p t : string) :
  result (Handler.compile_checks K w self_path) = Return checks ->
  result (Handler.get_all_cvs K w self_path (Some (Handler.YamlCheck K)))
  = Return cvs ->
  result (Handler.get_global_checks w self_path) = Return gc ->
  In (Handler.WrapperYamlCheck children ["product"; p; t]) checks ->
  (forall x,
     In x children <->
     In x gc \/
     (In x cvs /\ is_named x = true /\ second_facet x = p) \/
     (In x cvs /\ is_common x = true /\ last_facet x = t)) /\
  (forall x, In x children -> In x checks) /\
  p <> "common".
Proof.
  intros R Rc Rg Hin.
  destruct (compile_checks_inv K w self_path checks R)
    as (cvs' & gc' & Rc' & Rg' & ->).
  rewrite Rc in Rc'. injection Rc' as <-.
  rewrite Rg in Rg'. injection Rg' as <-.
  destruct (emitted_wrapper_inv K w self_path cvs gc children _ Rc Rg Hin)
    as (q & m & Hq & E).
  unfold the_wrapper in E. injection E as -> -> ->.
  assert (Ch : forall x,
     In x (gc ++ records_of_product q cvs
           ++ common_records (mode_token m) cvs)%list <->
     In x gc \/
     (In x cvs /\ is_named x = true /\ second_facet x = q) \/
     (In x cvs /\ is_common x = true /\ last_facet x = mode_token m)).
  { intros x. rewrite !in_app_iff. unfold records_of_product, common_records.
    rewrite !filter_In, !andb_true_iff, !String.eqb_eq. tauto. }
  split; [exact Ch|]. split.
  - intros x Hx. apply Ch in Hx. rewrite all_checks_of_eq, !in_app_iff.
    destruct Hx as [H|[[H _]|[H _]]]; auto.
  - now apply (named_products_not_common cvs).
Qed.

Lemma wrapper_children_witness :
  In Samples.common_vars_land Samples.radar_lidar_checks.
Proof.
  apply (proj1 (proj2 (wrapper_children Samples.K0 Samples.radar_lidar_tree
           Samples.root Samples.radar_lidar_checks
           [Samples.common_vars_land; Samples.leaf Samples.radar_vars;
            Samples.leaf Samples.radar_dims; Samples.leaf Samples.lidar_vars]
           Samples.global_checks3
           (Samples.global_checks3
            ++ [Samples.leaf Samples.lidar_vars] ++ [Samples.common_vars_land])
           "lidar" "land" eq_refl eq_refl eq_refl
           ltac:(do 10 right; left; reflexivity)))).
  do 4 right. left. reflexivity.
Defined.

(** X12: a yielded record that is not product-scoped, or that is a
    common record whose last facet is not the token of a deployment mode
    (as for the sheets of a product that is itself named [common], whose
    last facet is [variable] or [dimension]), is emitted as a file of
    its own and is the child of no emitted wrapper. *)
Theorem records_outside_every_wrapper
    (K : Handler.cv_classes) (w : Handler.world) (self_path : string)
    (checks cvs : list Handler.amf_file) (x f : Handler.amf_file) :
  result (Handler.compile_checks K w self_path) = Return checks ->
  result (Handler.get_all_cvs K w self_path (Some (Handler.YamlCheck K)))
  = Return cvs ->
  In x cvs ->
  product_scoped x = false
  \/ (is_common x = true /\ is_mode_token (last_facet x) = false) ->
  In f checks ->
  In x checks /\ ~ child_of x f.
Proof.
  intros R Rc Hx Hout Hf.
  destruct (compile_checks_inv K w self_path checks R)
    as (cvs' & gc & Rc' & Rg & ->).
  rewrite Rc in Rc'. injection Rc' as <-.
  split.
  - rewrite all_checks_of_eq, in_app_iff. now left.
  - destruct f as [| | | |children fs]; simpl; try tauto.
    intros Hc.
    destruct (emitted_wrapper_inv K w self_path cvs gc children fs Rc Rg Hf)
      as (q & m & _ & E).
    unfold the_wrapper in E. injection E as -> _.
    rewrite !in_app_iff in Hc. destruct Hc as [H|[H|H]].
    + destruct (cvs_are_leaves K w self_path _ cvs Rc x Hx) as (c & fs' & d & ->).
      exact (leaf_not_in_global_checks w self_path gc c fs' d Rg H).
    + unfold records_of_product in H. apply filter_In in H as [_ H].
      apply andb_true_iff in H as [H _]. unfold is_named, is_common in *.
      destruct Hout as [Ho|[Ho _]]; rewrite ?Ho in H; try discriminate.
      destruct (product_scoped x); simpl in *; [|discriminate].
      rewrite Ho in H. discriminate.
    + unfold common_records in H. apply filter_In in H as [_ H].
      apply andb_true_iff in H as [Hcm Hl]. apply String.eqb_eq in Hl.
      destruct Hout as [Ho|[_ Ho]].
      * unfold is_common in Hcm. rewrite Ho in Hcm. discriminate.
      * rewrite Hl in Ho. destruct m; discriminate Ho.
Qed.

Lemma records_outside_every_wrapper_witness :
  In (Samples.leaf Samples.common_product_vars) Samples.common_product_checks /\
  ~ child_of (Samples.leaf Samples.common_product_vars)
      (Handler.WrapperYamlCheck
         (Samples.global_checks2 ++ [Samples.leaf Samples.radar_vars] ++ [])
         ["product"; "radar"; "land"]).
Proof.
  apply (records_outside_every_wrapper Samples.K0 Samples.common_product_tree
           Samples.root Samples.common_product_checks
           [Samples.leaf Samples.radar_vars;
            Samples.leaf Samples.common_product_vars]).
  - reflexivity.
  - reflexivity.
  - right. left. reflexivity.
  - right. split; reflexivity.
  - do 4 right. left. reflexivity.
Defined.

(** The file names for a tree with a product named [common]: its sheet
    is written, and only [radar] gets wrappers. *)
Example common_product_filenames :
  filenames "yml" Samples.common_product_checks
  = [ "AMF_product_radar_variable.yml"; "AMF_product_common_variable.yml";
      "AMF_file_info.yml"; "AMF_file_structure.yml";
      "AMF_product_radar_land.yml"; "AMF_product_radar_sea.yml";
      "AMF_product_radar_air.yml" ].
Proof. reflexivity. Qed.

(* ================================================================== *)
(** * More on writing *)
(* ================================================================== *)

Section WriteMore.

Import Handler.

Variable K : cv_classes.
Variable w : world.
Variable self_path : string.

Lemma written_paths_app (l1 l2 : list event) :
  written_paths (l1 ++ l2) = (written_paths l1 ++ written_paths l2)%list.
Proof. apply flat_map_app. Qed.

Lemma written_paths_prints (l : list event) :
  Forall (fun e => exists s line, e = Print s line) l -> written_paths l = [].
Proof.
  induction 1 as [|e l (s & line & ->) _ IH]; [reflexivity|exact IH].
Qed.

Lemma written_paths_writes (callback : amf_file -> string)
    (output_dir ext : string) (files : list amf_file) :
  written_paths (map (write_of callback output_dir ext) files)
  = map (outpath_of output_dir ext) files.
Proof.
  induction files as [|f files IH]; [reflexivity|].
  simpl. now rewrite IH.
Qed.

Lemma load_warning_print (e : event) :
  load_warning e -> exists s line, e = Print s line.
Proof. intros [[p ->]|(p & m & ->)]; unfold parse_warning; eauto. Qed.

Lemma get_all_cvs_prints (bc : option pyclass) :
  Forall (fun e => exists s line, e = Print s line)
         (events (get_all_cvs K w self_path bc)).
Proof.
  destruct (get_all_cvs_unfold K w self_path bc) as (pp & _ & _ & S & E & _).
  rewrite E. apply Forall_app. split; [|apply Forall_app; split].
  - eapply Forall_impl; [|exact S]. intros e [line ->]. eauto.
  - destruct pp; repeat constructor. simpl. eauto.
  - eapply Forall_impl; [|apply load_events_shape].
    intros e. apply load_warning_print.
Qed.

Lemma get_global_checks_prints :
  Forall (fun e => exists s line, e = Print s line)
         (events (get_global_checks w self_path)).
Proof.
  eapply Forall_impl; [|apply global_checks_events_shape].
  intros e. apply load_warning_print.
Qed.

Lemma compile_checks_prints :
  Forall (fun e => exists s line, e = Print s line)
         (events (compile_checks K w self_path)).
Proof.
  unfold compile_checks. rewrite events_bind.
  pose proof (get_all_cvs_prints (Some (YamlCheck K))) as A.
  destruct (result (get_all_cvs K w self_path _)); [|exact A].
  apply Forall_app. split; [exact A|].
  rewrite events_bind.
  pose proof get_global_checks_prints as G.
  destruct (result (get_global_checks w self_path)); [|exact G].
  simpl. now rewrite app_nil_r.
Qed.

(** A path below the output directory determines the file name. *)
Lemma outpath_inj (output_dir ext : string) (f g : amf_file) :
  outpath_of output_dir ext f = outpath_of output_dir ext g ->
  get_filename f ext = get_filename g ext.
Proof.
  unfold outpath_of, PyStr.os_path_join.
  change (PyStr.startswith (get_filename f ext) "/") with false.
  change (PyStr.startswith (get_filename g ext) "/") with false.
  cbv iota.
  destruct (String.eqb output_dir "" || PyStr.endswith_char output_dir "/"%char).
  - apply app_cancel_l.
  - intros H. apply app_cancel_l in H. exact (app_cancel_l "/" _ _ H).
Qed.

Lemma outpaths_NoDup (output_dir ext : string) (l : list amf_file) :
  NoDup (filenames ext l) -> NoDup (map (outpath_of output_dir ext) l).
Proof.
  unfold filenames. induction l as [|f l IH]; simpl; intros H; [constructor|].
  apply NoDup_cons_iff in H as [Hn Hd]. constructor; [|now apply IH].
  intros Hin. apply Hn. apply in_map_iff in Hin as (g & E & Hg).
  apply outpath_inj in E. apply in_map_iff. now exists g.
Qed.

(** The token lists of the yielded leaf records are pairwise distinct
    when those of the scanned sheets are. *)
Lemma cvs_tokens_NoDup (bc : option pyclass) (cvs : list amf_file)
    (pp : list CVParseInfo) :
  result (get_all_cvs K w self_path bc) = Return cvs ->
  result (_get_per_product_parse_info K w self_path) = Return pp ->
  NoDup (map facets pp) ->
  NoDup (map tokens_of cvs).
Proof.
  intros Rc Rs D.
  destruct (get_all_cvs_unfold K w self_path bc)
    as (pp' & Rs' & F & _ & _ & E).
  rewrite Rs in Rs'. injection Rs' as <-. rewrite E in Rc.
  rewrite map_tokens_clean.
  - rewrite (loaded_facets w self_path _ _ _ Rc).
    apply NoDup_map_filter. now apply parse_infos_facets_NoDup.
  - intros x Hx. apply leaf_facets_clean.
    apply (loaded_in_result w self_path _ _ _ Rc) in Hx
      as (i & d & Hi & _ & _ & ->).
    simpl. now apply (parse_infos_leaf_facets K self_path pp).
Qed.

Lemma all_checks_of_length (cvs gc : list amf_file) :
  List.length (all_checks_of cvs gc)
  = List.length cvs + List.length gc
    + 3 * List.length (nodup string_dec (named_products cvs)).
Proof.
  rewrite all_checks_of_eq, !List.length_app.
  pose proof (group_cvs_spec cvs) as G.
  destruct (group_cvs cvs) as [P C]. simpl fst; simpl snd.
  destruct G as (_ & _ & HK & HD).
  rewrite wrapper_checks_length, <- (length_map fst P).
  rewrite (Permutation_length
             (NoDup_Permutation HD (NoDup_nodup string_dec _)
                (fun x => iff_trans (HK x) (iff_sym (nodup_In string_dec _ x))))).
  lia.
Qed.

End WriteMore.

(** X13: a global attributes sheet that exists and fails to parse ends
    [write_yaml] with the exception of its parser, whatever it is (a
    [CVParseError] too: unlike the sheets of the CVs, this one is parsed
    outside any handler), and nothing is written. *)
Theorem malformed_global_attributes_end_the_run
    (K : Handler.cv_classes) (w : Handler.world)
    (self_path output_dir : string) (e : exn) (cvs : list Handler.amf_file) :
  result (Handler.get_all_cvs K w self_path (Some (Handler.YamlCheck K)))
  = Return cvs ->
  Handler.os_path_isfile w (global_attrs_path self_path) = true ->
  Handler.parse_global_attrs w (global_attrs_path self_path) = Raise e ->
  result (Handler.write_yaml K w self_path output_dir) = Raise e /\
  written_paths (events (Handler.write_yaml K w self_path output_dir)) = [].
Proof.
  intros Rc Hfile P.
  assert (Rg : result (Handler.get_global_checks w self_path) = Raise e).
  { unfold Handler.get_global_checks. rewrite _isfile_eq.
    fold (global_attrs_path self_path). now rewrite Hfile, P. }
  assert (R : result (Handler.compile_checks K w self_path) = Raise e).
  { unfold Handler.compile_checks. now rewrite result_bind, Rc, result_bind, Rg. }
  unfold Handler.write_yaml. rewrite result_bind, events_bind, R.
  split; [reflexivity|].
  apply written_paths_prints, compile_checks_prints.
Qed.

Lemma malformed_global_attributes_end_the_run_witness :
  result (Handler.write_yaml Samples.K0 Samples.broken_attrs_tree
            Samples.root "out")
  = Raise (CVParseError "Invalid headers").
Proof.
  exact (proj1 (malformed_global_attributes_end_the_run Samples.K0
                  Samples.broken_attrs_tree Samples.root "out"
                  (CVParseError "Invalid headers")
                  [Samples.leaf Samples.radar_vars]
                  eq_refl eq_refl eq_refl)).
Defined.

(** X14: when check compilation returns and no write fails,
    [write_yaml] writes the emitted records one by one after the
    warnings of the compilation, reports their number and returns; that
    number is the number of leaf records plus the number of global checks
    plus three for each named product. *)
Theorem write_yaml_writes_every_record
    (K : Handler.cv_classes) (w : Handler.world)
    (self_path output_dir : string)
    (checks cvs gc : list Handler.amf_file) :
  result (Handler.compile_checks K w self_path) = Return checks ->
  result (Handler.get_all_cvs K w self_path (Some (Handler.YamlCheck K)))
  = Return cvs ->
  result (Handler.get_global_checks w self_path) = Return gc ->
  (forall f, In f checks ->
     Handler.write_fails w (outpath_of output_dir "yml" f) = None) ->
  Handler.write_yaml K w self_path output_dir
  = ((events (Handler.compile_checks K w self_path)
      ++ map (write_of (Handler.to_yaml_check w) output_dir "yml") checks
      ++ [Print Stdout (Handler.str_of_nat (List.length checks)
                        ++ " files written")])%list,
     Return tt) /\
  List.length checks
  = List.length cvs + List.length gc
    + 3 * List.length (nodup string_dec (named_products cvs)).
Proof.
  intros R Rc Rg Hw. split.
  - unfold Handler.write_yaml, Handler._write_output_files.
    destruct (Handler.compile_checks K w self_path) as [ev r] eqn:E.
    simpl in R. subst r. cbn [bind events fst].
    rewrite (write_loop_ok w _ output_dir "yml" checks 0 Hw).
    reflexivity.
  - destruct (compile_checks_inv K w self_path checks R)
      as (cvs' & gc' & Rc' & Rg' & ->).
    rewrite Rc in Rc'. injection Rc' as <-.
    rewrite Rg in Rg'. injection Rg' as <-.
    apply all_checks_of_length.
Qed.

Lemma write_yaml_writes_every_record_witness :
  List.length Samples.radar_lidar_checks = 4 + 3 + 3 * 2.
Proof.
  exact (proj2 (write_yaml_writes_every_record Samples.K0
                  Samples.radar_lidar_tree Samples.root "out"
                  Samples.radar_lidar_checks
                  [Samples.common_vars_land; Samples.leaf Samples.radar_vars;
                   Samples.leaf Samples.radar_dims;
                   Samples.leaf Samples.lidar_vars]
                  Samples.global_checks3 eq_refl eq_refl eq_refl
                  (fun _ _ => eq_refl))).
Defined.

(** X15: when no two sheets found by the scan have the same facets and
    no write fails, the paths [write_yaml] writes to are pairwise
    distinct, so that it leaves as many files as it reports. *)
Theorem write_yaml_paths_distinct
    (K : Handler.cv_classes) (w : Handler.world)
    (self_path output_dir : string)
    (checks : list Handler.amf_file) (pp : list Handler.CVParseInfo) :
  result (Handler.compile_checks K w self_path) = Return checks ->
  result (Handler._get_per_product_parse_info K w self_path) = Return pp ->
  NoDup (map Handler.facets pp) ->
  (forall f, In f checks ->
     Handler.write_fails w (outpath_of output_dir "yml" f) = None) ->
  let written :=
    written_paths (events (Handler.write_yaml K w self_path output_dir)) in
  written = map (outpath_of output_dir "yml") checks /\
  NoDup written /\
  List.length written = List.length checks.
Proof.
  intros R Rs D Hw written.
  assert (E : written = map (outpath_of output_dir "yml") checks).
  { subst written.
    unfold Handler.write_yaml, Handler._write_output_files.
    pose proof (compile_checks_prints K w self_path) as Pr.
    destruct (Handler.compile_checks K w self_path) as [ev r].
    simpl in R, Pr. subst r. cbn [bind events fst].
    rewrite (write_loop_ok w _ output_dir "yml" checks 0 Hw).
    cbn [bind events fst print].
    rewrite !written_paths_app, (written_paths_prints ev Pr).
    rewrite written_paths_writes. simpl. now rewrite app_nil_r. }
  rewrite E. split; [reflexivity|]. split; [|apply length_map].
  apply outpaths_NoDup, filenames_NoDup.
  now apply (compile_checks_tokens_NoDup K w self_path checks pp).
Qed.

Lemma write_yaml_paths_distinct_witness :
  NoDup (written_paths
           (events (Handler.write_yaml Samples.K0 Samples.radar_lidar_tree
                      Samples.root "out"))).
Proof.
  apply (write_yaml_paths_distinct Samples.K0 Samples.radar_lidar_tree
           Samples.root "out" Samples.radar_lidar_checks
           [Samples.radar_vars; Samples.radar_dims; Samples.lidar_vars]).
  - reflexivity.
  - reflexivity.
  - repeat (constructor;
            [intros H; simpl in H;
             repeat (destruct H as [H|H]; [discriminate H|]); exact H|]).
    constructor.
  - intros f _. reflexivity.
Defined.

(** X16: [write_cvs] writes, for each record [get_all_cvs] yields
    without a filter and in that order, the JSON rendering of its
    [cv_dict] to [AMF_<facets>.json] below the output directory, then
    reports their number; when the enumeration raises, [write_cvs] ends
    with that exception and writes nothing; and when no two scanned
    sheets have the same facets the JSON paths are pairwise distinct. *)
Theorem write_cvs_contract
    (K : Handler.cv_classes) (w : Handler.world)
    (self_path output_dir : string) :
  (forall cvs,
     result (Handler.get_all_cvs K w self_path None) = Return cvs ->
     (forall f, In f cvs ->
        Handler.write_fails w (outpath_of output_dir "json" f) = None) ->
     Handler.write_cvs K w self_path output_dir
     = ((events (Handler.get_all_cvs K w self_path None)
         ++ map (write_of (Handler.to_json w) output_dir "json") cvs
         ++ [Print Stdout (Handler.str_of_nat (List.length cvs)
                           ++ " files written")])%list,
        Return tt) /\
     (forall f, In f cvs ->
        exists c fs d,
          f = Handler.CV c fs d /\
          write_of (Handler.to_json w) output_dir "json" f
          = WriteFile (PyStr.os_path_join output_dir
                         ("AMF_" ++ PyStr.join "_" fs ++ ".json"))
                      (Handler.json_dumps w d)) /\
     (forall pp,
        result (Handler._get_per_product_parse_info K w self_path) = Return pp ->
        NoDup (map Handler.facets pp) ->
        NoDup (map (outpath_of output_dir "json") cvs))) /\
  (forall e,
     result (Handler.get_all_cvs K w self_path None) = Raise e ->
     result (Handler.write_cvs K w self_path output_dir) = Raise e /\
     written_paths (events (Handler.write_cvs K w self_path output_dir)) = []).
Proof.
  split.
  - intros cvs Rc Hw. split; [|split].
    + unfold Handler.write_cvs, Handler._write_output_files.
      destruct (Handler.get_all_cvs K w self_path None) as [ev r].
      simpl in Rc. subst r. cbn [bind events fst].
      rewrite (write_loop_ok w _ output_dir "json" cvs 0 Hw).
      reflexivity.
    + intros f Hf.
      destruct (cvs_are_leaves K w self_path None cvs Rc f Hf)
        as (c & fs & d & ->).
      exists c, fs, d. split; reflexivity.
    + intros pp Rs D. apply outpaths_NoDup, filenames_NoDup.
      now apply (cvs_tokens_NoDup K w self_path None cvs pp).
  - intros e Re. unfold Handler.write_cvs.
    rewrite result_bind, events_bind, Re. split; [reflexivity|].
    apply written_paths_prints, get_all_cvs_prints.
Qed.

Lemma write_cvs_contract_witness :
  Handler.write_cvs Samples.K0 Samples.radar_tree Samples.root "out"
  = ((events (Handler.get_all_cvs Samples.K0 Samples.radar_tree Samples.root None)
      ++ map (write_of (Handler.to_json Samples.radar_tree) "out" "json")
             [Samples.leaf Samples.radar_vars]
      ++ [Print Stdout (Handler.str_of_nat 1 ++ " files written")])%list,
     Return tt).
Proof.
  apply (proj1 (proj1 (write_cvs_contract Samples.K0 Samples.radar_tree
                         Samples.root "out")
                  [Samples.leaf Samples.radar_vars] eq_refl
                  (fun _ _ => eq_refl))).
Defined.

(* ================================================================== *)
(** * Where the common sheets are looked for *)
(* ================================================================== *)

Section PathFacts.

Import PyStr Handler.

Lemma os_path_join_absolute (a b : string) :
  startswith b "/" = true -> os_path_join a b = b.
Proof. unfold os_path_join. now intros ->. Qed.

Lemma os_path_join_relative (a b : string) :
  startswith b "/" = false ->
  exists sep, (sep = "" \/ sep = "/") /\ os_path_join a b = a ++ sep ++ b.
Proof.
  unfold os_path_join. intros ->.
  destruct (String.eqb a "" || endswith_char a "/"%char).
  - exists "". split; [now left|reflexivity].
  - exists "/". split; [now right|reflexivity].
Qed.

Lemma startswith_slash_app (a b : string) :
  startswith a "/" = true -> startswith (a ++ b) "/" = true.
Proof.
  destruct a as [|c a]; [discriminate|].
  unfold startswith. cbn [strip_prefix append].
  now destruct (Ascii.eqb "/"%char c).
Qed.

Lemma startswith_slash_app_not (a b : string) :
  a <> "" -> startswith a "/" = false -> startswith (a ++ b) "/" = false.
Proof.
  destruct a as [|c a]; [congruence|]. intros _.
  unfold startswith. cbn [strip_prefix append].
  now destruct (Ascii.eqb "/"%char c).
Qed.

Lemma os_path_join_keeps_absolute (a b : string) :
  startswith a "/" = true -> startswith (os_path_join a b) "/" = true.
Proof.
  intros Ha. destruct (startswith b "/") eqn:Hb.
  - now rewrite os_path_join_absolute.
  - destruct (os_path_join_relative a b Hb) as (sep & _ & ->).
    now apply startswith_slash_app.
Qed.

Lemma os_path_join_keeps_relative (a b : string) :
  a <> "" -> startswith a "/" = false -> startswith b "/" = false ->
  startswith (os_path_join a b) "/" = false.
Proof.
  intros Hne Ha Hb.
  destruct (os_path_join_relative a b Hb) as (sep & _ & ->).
  now apply startswith_slash_app_not.
Qed.

Lemma common_parse_info_paths (K : cv_classes) (self_path : string) :
  map path (_get_common_var_dim_parse_info K self_path)
  = map (common_sheet_path self_path) common_sheet_names.
Proof. reflexivity. Qed.

Lemma prefixed_differs (a sep b : string) : a <> "" -> a ++ sep ++ b <> b.
Proof.
  intros Hne E. apply (f_equal String.length) in E.
  rewrite !str_length_app in E. destruct a; [congruence|]. simpl in E. lia.
Qed.

End PathFacts.

(** X17: each common sheet is given the path
    [<self.path>/Common.xlsx/<Type> - <Mode>.tsv], which already holds
    [self.path], and the loading loop joins [self.path] to it once more.
    With an absolute or empty [self.path] the loop therefore looks for
    the sheet at that path; with any other [self.path] it looks for it
    at a different path, that path behind [self.path] and a separator. *)
Theorem common_sheets_lookup
    (K : Handler.cv_classes) (self_path : string) (i : Handler.CVParseInfo) :
  In i (Handler._get_common_var_dim_parse_info K self_path) ->
  (exists name,
     In name common_sheet_names /\
     Handler.path i = common_sheet_path self_path name) /\
  (PyStr.startswith self_path "/" = true \/ self_path = "" ->
   full_path_of self_path i = Handler.path i) /\
  (PyStr.startswith self_path "/" = false -> self_path <> "" ->
   full_path_of self_path i <> Handler.path i /\
   exists sep,
     (sep = "" \/ sep = "/") /\
     full_path_of self_path i = self_path ++ sep ++ Handler.path i).
Proof.
  intros Hin.
  assert (Hp : exists name,
             In name common_sheet_names /\
             Handler.path i = common_sheet_path self_path name).
  { apply (in_map Handler.path) in Hin.
    rewrite common_parse_info_paths in Hin.
    apply in_map_iff in Hin as (name & E & Hn). eauto. }
  split; [exact Hp|].
  destruct Hp as (name & Hn & Ep).
  assert (Rn : PyStr.startswith name "/" = false).
  { simpl in Hn. repeat (destruct Hn as [<-|Hn]; [reflexivity|]). destruct Hn. }
  unfold full_path_of. rewrite Ep. unfold common_sheet_path. split.
  - intros [Habs| ->].
    + apply os_path_join_absolute.
      now do 2 apply os_path_join_keeps_absolute.
    + clear Rn. simpl in Hn.
      repeat (destruct Hn as [<-|Hn]; [reflexivity|]). destruct Hn.
  - intros Hrel Hne.
    assert (R : PyStr.startswith
                  (PyStr.os_path_join
                     (PyStr.os_path_join self_path Handler.common_spreadsheet)
                     name) "/" = false).
    { apply os_path_join_keeps_relative; [| |exact Rn].
      - destruct (os_path_join_relative self_path Handler.common_spreadsheet
                    eq_refl) as (sep & _ & ->).
        destruct self_path; [congruence|discriminate].
      - now apply os_path_join_keeps_relative. }
    destruct (os_path_join_relative self_path _ R) as (sep & Hs & E).
    rewrite E. split; [now apply prefixed_differs|]. eauto.
Qed.

Lemma common_sheets_lookup_witness :
  full_path_of "sheets"
    {| Handler.path := "sheets/Common.xlsx/Variables - Land.tsv";
       Handler.cls := Handler.VariablesCV Samples.K0;
       Handler.facets := ["product"; "common"; "variable"; "land"] |}
  <> "sheets/Common.xlsx/Variables - Land.tsv".
Proof.
  apply (proj2 (proj2 (common_sheets_lookup Samples.K0 "sheets"
                         {| Handler.path := "sheets/Common.xlsx/Variables - Land.tsv";
                            Handler.cls := Handler.VariablesCV Samples.K0;
                            Handler.facets :=
                              ["product"; "common"; "variable"; "land"] |}
                         ltac:(left; reflexivity)))).
  - reflexivity.
  - discriminate.
Defined.

(** With a relative directory of spreadsheets the common variables of
    the mode Land are looked for below that directory twice over. *)
Example relative_root_common_sheet :
  map (full_path_of "sheets")
      (firstn 1 (Handler._get_common_var_dim_parse_info Samples.K0 "sheets"))
  = ["sheets/sheets/Common.xlsx/Variables - Land.tsv"]
  /\ global_attrs_path "sheets" = "sheets/Common.xlsx/Global Attributes.tsv".
Proof. split; reflexivity. Qed.

(* ================================================================== *)
(** * Paths the sheet pattern is not found in *)
(* ================================================================== *)

Section RegexReject.

Import PyStr Handler.

(** Two readings of one path as folder, workbook and sheet agree. *)
Lemma sheet_tail_unique (X Y b n t t0 e : string) (c : ascii) :
  mem_char "/"%char b = false -> mem_char "/"%char n = false ->
  t0 = "Variables" \/ t0 = "Dimensions" ->
  t = "Variables" \/ t = "Dimensions" ->
  e = "" \/ e = String "010"%char "" ->
  (Y ++ String "/"%char b) ++ (".xlsx/" ++ t0 ++ " - Specific.tsv")
  = (X ++ String "/"%char n)
    ++ (".xlsx/" ++ t ++ " - Specific" ++ String c ("tsv" ++ e)) ->
  Y = X /\ b = n /\ t = t0.
Proof.
  intros Hb Hn Ht0 Ht He E.
  assert (G : forall A B,
             String.length A = String.length B ->
             (Y ++ String "/"%char b) ++ A = (X ++ String "/"%char n) ++ B ->
             Y = X /\ b = n).
  { intros A B L H. apply (app_inj_suffix _ _ A B L) in H as [H _].
    now apply (last_separator_unique "/"%char) in H. }
  destruct Ht0 as [-> | ->], Ht as [-> | ->], He as [-> | ->];
    try (exfalso;
         apply (lastn_eq 24) in E;
         [vm_compute in E; congruence
         | apply Nat.leb_le; reflexivity | apply Nat.leb_le; reflexivity]).
  - pose proof (fun L => G _ _ L E) as G'.
    destruct (G' eq_refl) as [-> ->]. now repeat split.
  - pose proof (fun L => G _ _ L E) as G'.
    destruct (G' eq_refl) as [-> ->]. now repeat split.
Qed.

Lemma sheet_regex_search_rejects (d b t : string) :
  all_name_chars b = true ->
  t = "Variables" \/ t = "Dimensions" ->
  (forall x, d <> x ++ b) ->
  sheet_regex_search (d ++ "/" ++ b ++ ".xlsx/" ++ t ++ " - Specific.tsv")
  = None.
Proof.
  intros Hb Ht Hd.
  destruct (sheet_regex_search _) as [[n t']|] eqn:S; [|reflexivity].
  exfalso.
  destruct (sheet_regex_search_groups _ _ _ S) as (_ & Hn & Ht').
  apply sheet_regex_search_sound in S as (pre & c & e & E & _ & He).
  assert (E' : (d ++ String "/"%char b) ++ (".xlsx/" ++ t ++ " - Specific.tsv")
               = ((pre ++ n) ++ String "/"%char n)
                 ++ (".xlsx/" ++ t' ++ " - Specific" ++ String c ("tsv" ++ e))).
  { rewrite !str_app_assoc. exact E. }
  apply sheet_tail_unique in E' as (Ed & Eb & _); auto using name_chars_no_slash.
  apply (Hd pre). now rewrite Ed, Eb.
Qed.

End RegexReject.

(** X18: a file [<Type> - Specific.tsv] in a workbook folder
    [<b>.xlsx], with [b] made of letters, digits and hyphens, is not
    taken for a sheet when the path before the workbook folder does not
    end with [b] (the product folder has another name): the pattern is
    not found, and the scan prints its warning and yields no entry. *)
Theorem mismatched_workbook_is_skipped
    (K : Handler.cv_classes) (w : Handler.world) (self_path : string)
    (d b t fname : string) :
  all_name_chars b = true ->
  t = "Variables" \/ t = "Dimensions" ->
  lastn (String.length b) d <> b ->
  fname = t ++ " - Specific.tsv" ->
  Handler.sheet_regex_search (d ++ "/" ++ b ++ ".xlsx/" ++ fname) = None /\
  Handler.scan_file K w self_path (d ++ "/" ++ b ++ ".xlsx") fname
  = ([Print Stdout ("WARNING: No match for '"
                    ++ (d ++ "/" ++ b ++ ".xlsx/" ++ fname) ++ "'")],
     Return []).
Proof.
  intros Hb Ht Hd ->.
  assert (S : Handler.sheet_regex_search
                (d ++ "/" ++ b ++ ".xlsx/" ++ t ++ " - Specific.tsv") = None).
  { apply sheet_regex_search_rejects; [assumption..|].
    intros x E. apply Hd. rewrite E, lastn_app by apply Nat.le_refl.
    clear. induction b as [|a b IH]; [reflexivity|].
    cbn [lastn String.length].
    destruct (Nat.leb_spec (S (String.length b)) (String.length b));
      [lia|reflexivity]. }
  split; [exact S|].
  assert (J : PyStr.os_path_join (d ++ "/" ++ b ++ ".xlsx")
                                 (t ++ " - Specific.tsv")
              = d ++ "/" ++ b ++ ".xlsx/" ++ t ++ " - Specific.tsv").
  { unfold PyStr.os_path_join.
    assert (F : PyStr.startswith (t ++ " - Specific.tsv") "/" = false)
      by (destruct Ht as [-> | ->]; reflexivity).
    rewrite F.
    assert (N : String.eqb (d ++ "/" ++ b ++ ".xlsx") "" = false).
    { apply String.eqb_neq. intros H. apply (f_equal String.length) in H.
      rewrite !str_length_app in H. simpl in H. lia. }
    assert (L : PyStr.endswith_char (d ++ "/" ++ b ++ ".xlsx") "/"%char = false).
    { unfold PyStr.endswith_char.
      replace (d ++ "/" ++ b ++ ".xlsx") with ((d ++ "/" ++ b) ++ ".xlsx")
        by (now rewrite !str_app_assoc).
      generalize (d ++ "/" ++ b). intros u.
      induction u as [|a u IH]; [reflexivity|].
      cbn [append PyStr.last_char].
      destruct (PyStr.last_char (u ++ ".xlsx")) eqn:Q; [exact IH|].
      exfalso. clear IH. induction u as [|a' u IHu]; [discriminate|].
      cbn [append PyStr.last_char] in Q.
      destruct (PyStr.last_char (u ++ ".xlsx")); [discriminate|auto]. }
    rewrite N, L. cbn [orb]. rewrite !str_app_assoc. reflexivity. }
  unfold Handler.scan_file. rewrite J, S. reflexivity.
Qed.

Lemma mismatched_workbook_is_skipped_witness :
  Handler.sheet_regex_search
    ("/in/Product Definition Spreadsheets/radar" ++ "/" ++ "lidar" ++ ".xlsx/"
     ++ "Variables - Specific.tsv") = None.
Proof.
  apply (proj1 (mismatched_workbook_is_skipped Samples.K0 Samples.empty_tree
                  Samples.root "/in/Product Definition Spreadsheets/radar"
                  "lidar" "Variables" "Variables - Specific.tsv"
                  eq_refl (or_introl eq_refl) ltac:(discriminate) eq_refl)).
Defined.

(* ================================================================== *)
(** * More on the facet namer *)
(* ================================================================== *)

Section NamerMore.

Import PyStr.

Lemma join_app (sep : string) (F G : list string) :
  F <> [] -> G <> [] ->
  join sep (F ++ G) = join sep F ++ sep ++ join sep G.
Proof.
  intros HF HG. induction F as [|a F IH]; [congruence|].
  destruct F as [|b F].
  - destruct G as [|g G]; [congruence|]. reflexivity.
  - change (join sep ((a :: b :: F) ++ G))
      with (a ++ sep ++ join sep ((b :: F) ++ G)).
    rewrite IH by discriminate.
    change (join sep (a :: b :: F)) with (a ++ sep ++ join sep (b :: F)).
    now rewrite !str_app_assoc.
Qed.

Lemma join_cons (sep a : string) (l : list string) :
  l <> [] -> join sep (a :: l) = a ++ sep ++ join sep l.
Proof. destruct l; [congruence|reflexivity]. Qed.

Lemma join_split_facet (sep a b : string) (F G : list string) :
  join sep (F ++ (a ++ sep ++ b) :: G) = join sep (F ++ a :: b :: G).
Proof.
  induction F as [|x F IH].
  - cbn [app]. rewrite (join_cons sep a) by discriminate.
    destruct G as [|g G]; [reflexivity|].
    rewrite !join_cons by discriminate. now rewrite !str_app_assoc.
  - cbn [app]. rewrite !join_cons by (now destruct F). now rewrite IH.
Qed.

End NamerMore.

(** X19: the name space of a concatenation of two non-empty facet lists
    is the two name spaces joined by the separator; and a facet that
    holds the separator is named like the two facets it falls into, at
    any place of any list: nothing is escaped. *)
Theorem namespace_of_concatenation (F G : list string) :
  (F <> [] -> G <> [] ->
   AmfFile.namespace (F ++ G)
   = AmfFile.namespace F ++ "_" ++ AmfFile.namespace G) /\
  forall a b ext,
    AmfFile.get_filename (F ++ (a ++ "_" ++ b) :: G) ext
    = AmfFile.get_filename (F ++ a :: b :: G) ext.
Proof.
  split; [intros HF HG; now apply join_app|].
  intros a b ext. unfold AmfFile.get_filename, AmfFile.namespace.
  now rewrite (join_split_facet "_").
Qed.

Lemma namespace_of_concatenation_witness :
  AmfFile.namespace (["product"; "radar"] ++ ["land"])
  = AmfFile.namespace ["product"; "radar"] ++ "_" ++ AmfFile.namespace ["land"].
Proof.
  apply (proj1 (namespace_of_concatenation ["product"; "radar"] ["land"]));
    discriminate.
Defined.

(* ================================================================== *)
(** * The rate limiter of the downloader *)
(* ================================================================== *)

Section LimiterFacts.

Import Drive.

Variable float : Type.
Variable exceeds_window : float -> float -> bool.
Variable wait_time : float -> float -> float.

Abbreviation old := (exceeds_window).

Lemma trim_all_old (now : float) (times : list float) :
  forallb (old now) times = true -> trim float old now times = ([], true).
Proof.
  induction times as [|t rest IH]; simpl; [reflexivity|].
  intros H. apply andb_true_iff in H as [Ht Hr]. rewrite Ht. now apply IH.
Qed.

Lemma trim_some_recent (now : float) (times : list float) :
  forallb (old now) times = false ->
  trim float old now times = (within_window (old now) times, false) /\
  exists t0 rest,
    within_window (old now) times = t0 :: rest /\ old now t0 = false.
Proof.
  induction times as [|t rest IH]; simpl; [discriminate|].
  destruct (old now t) eqn:Ht; simpl.
  - exact IH.
  - intros _. split; [reflexivity|]. eauto.
Qed.

Lemma within_window_suffix (now : float) (times : list float) :
  exists dropped,
    times = (dropped ++ within_window (old now) times)%list /\
    forallb (old now) dropped = true.
Proof.
  induction times as [|t rest (dropped & E & F)]; simpl.
  - now exists [].
  - destruct (old now t) eqn:Ht.
    + exists (t :: dropped). simpl. rewrite Ht, F. split; [now f_equal|reflexivity].
    + now exists [].
Qed.

End LimiterFacts.

(** X20: a rate-limited call raises [IndexError] exactly when the log
    of earlier calls is not empty and every entry of it lies outside the
    window: the trimming loop then pops the whole log and looks at the
    first entry of an empty list. The log is left empty. *)
Theorem api_call_raises_when_all_calls_are_old
    (float : Type) (exceeds_window : float -> float -> bool)
    (wait_time : float -> float -> float)
    (now after : float) (times : list float) :
  (times <> [] /\ forallb (exceeds_window now) times = true ->
   Drive.api_call float exceeds_window wait_time now after times
   = Drive.RaisesIndexError float []) /\
  (forall left,
     Drive.api_call float exceeds_window wait_time now after times
     = Drive.RaisesIndexError float left ->
     times <> [] /\ forallb (exceeds_window now) times = true /\ left = []).
Proof.
  unfold Drive.api_call. split.
  - intros [Hne Hall]. destruct times as [|t rest]; [congruence|].
    now rewrite trim_all_old.
  - intros left. destruct times as [|t rest].
    + discriminate.
    + destruct (forallb (exceeds_window now) (t :: rest)) eqn:F.
      * rewrite trim_all_old by exact F. intros [= <-].
        repeat split. discriminate.
      * destruct (trim_some_recent float exceeds_window now (t :: rest) F)
          as [-> _].
        discriminate.
Qed.

Lemma api_call_raises_when_all_calls_are_old_witness :
  Drive.api_call nat Samples.exceeds_window Samples.wait_time 1000 1000 [10; 500]
  = Drive.RaisesIndexError nat [].
Proof.
  apply (proj1 (api_call_raises_when_all_calls_are_old nat
                  Samples.exceeds_window Samples.wait_time 1000 1000 [10; 500])).
  split; [discriminate|reflexivity].
Defined.

(** X21: when the log is empty or holds an entry within the window, a
    rate-limited call goes on: it drops the leading entries of the log
    that lie outside the window, and only those; it sleeps exactly when
    [max_requests] or more entries are left, for the time computed from
    the first of them; and it then adds one entry at the end, so that
    the log can grow beyond [max_requests]. *)
Theorem api_call_trims_and_appends
    (float : Type) (exceeds_window : float -> float -> bool)
    (wait_time : float -> float -> float)
    (now after : float) (times : list float) :
  times = [] \/ forallb (exceeds_window now) times = false ->
  let kept := within_window (exceeds_window now) times in
  (exists dropped,
     times = (dropped ++ kept)%list /\
     forallb (exceeds_window now) dropped = true) /\
  (forall t0 rest, kept = t0 :: rest -> exceeds_window now t0 = false) /\
  exists slept,
    Drive.api_call float exceeds_window wait_time now after times
    = Drive.Proceeds float (kept ++ [after])%list slept /\
    (List.length kept < 100 -> slept = None) /\
    (100 <= List.length kept ->
     exists t0 rest, kept = t0 :: rest /\ slept = Some (wait_time now t0)).
Proof.
  intros H kept. split; [apply within_window_suffix|].
  assert (E : (times = [] /\ kept = [])
              \/ (exists t0 rest, kept = t0 :: rest
                  /\ exceeds_window now t0 = false
                  /\ Drive.trim float exceeds_window now times = (kept, false)
                  /\ times <> [])).
  { destruct H as [-> | F]; [left; now split|]. right.
    destruct (trim_some_recent float exceeds_window now times F)
      as (T & t0 & rest & Ek & Ht).
    exists t0, rest. repeat split; try assumption.
    intros ->. discriminate. }
  split.
  - intros t0 rest Ek. destruct E as [[_ E]|(t1 & r1 & E & Ht & _)].
    + rewrite E in Ek. discriminate.
    + rewrite E in Ek. injection Ek as <- _. exact Ht.
  - unfold Drive.api_call.
    destruct E as [[-> Ek]|(t0 & rest & Ek & _ & T & Hne)].
    + subst kept. simpl. eexists. split; [reflexivity|]. split; [reflexivity|].
      simpl. lia.
    + destruct times as [|t ts]; [congruence|]. rewrite T. rewrite Ek.
      eexists. split; [reflexivity|].
      unfold Drive.max_requests.
      destruct (Nat.leb_spec 100 (List.length (t0 :: rest))) as [L|L]; split.
      * lia.
      * intros _. now exists t0, rest.
      * reflexivity.
      * lia.
Qed.

Lemma api_call_trims_and_appends_witness :
  exists slept,
    Drive.api_call nat Samples.exceeds_window Samples.wait_time 1000 1001
      [10; 900; 20; 950]
    = Drive.Proceeds nat ([900; 20; 950] ++ [1001])%list slept /\
    (List.length [900; 20; 950] < 100 -> slept = None) /\
    (100 <= List.length [900; 20; 950] ->
     exists t0 rest,
       [900; 20; 950] = t0 :: rest /\ slept = Some (Samples.wait_time 1000 t0)).
Proof.
  apply (proj2 (proj2 (api_call_trims_and_appends nat Samples.exceeds_window
                         Samples.wait_time 1000 1001 [10; 900; 20; 950]
                         (or_intror eq_refl)))).
Defined.

(* ================================================================== *)
(** * From the drive to the scan *)
(* ================================================================== *)

Section LayoutFacts.

Import PyStr Handler.

Lemma last_char_app (u v : string) :
  v <> "" -> last_char (u ++ v) = last_char v.
Proof.
  intros Hv. induction u as [|c u IH]; [reflexivity|].
  cbn [append last_char]. rewrite IH.
  destruct v as [|d v]; [congruence|].
  cbn [last_char]. now destruct (last_char v).
Qed.

Lemma last_char_some (v : string) : v <> "" -> exists c, last_char v = Some c.
Proof.
  induction v as [|d v IH]; [congruence|]. intros _.
  cbn [last_char]. destruct v as [|e v].
  - now exists d.
  - destruct IH as [c ->]; [discriminate|]. now exists c.
Qed.

Lemma name_last_char (n : string) (c : ascii) :
  all_name_chars n = true -> last_char n = Some c -> is_name_char c = true.
Proof.
  revert c. induction n as [|d n IH]; intros c; [discriminate|].
  cbn [all_name_chars last_char]. intros H.
  apply andb_true_iff in H as [Hd Hn].
  destruct (last_char n) as [e|] eqn:L.
  - intros [= <-]. now apply IH.
  - now intros [= <-].
Qed.

(** Joining behind a path that ends with a character other than the
    separator. *)
Lemma os_path_join_after (X b : string) (c : ascii) :
  last_char X = Some c -> c <> "/"%char -> startswith b "/" = false ->
  os_path_join X b = X ++ "/" ++ b.
Proof.
  intros L Hc Hb. unfold os_path_join. rewrite Hb.
  assert (N : String.eqb X "" = false)
    by (destruct X; [discriminate|reflexivity]).
  unfold endswith_char. rewrite N, L.
  destruct (Ascii.eqb_spec "/"%char c); [congruence|reflexivity].
Qed.

Lemma name_not_absolute (n r : string) :
  n <> "" -> all_name_chars n = true -> startswith (n ++ r) "/" = false.
Proof.
  destruct n as [|c n]; [congruence|]. intros _.
  cbn [all_name_chars append]. intros H.
  apply andb_true_iff in H as [Hc _].
  unfold startswith. cbn [strip_prefix].
  destruct (Ascii.eqb_spec "/"%char c) as [<-|]; [|reflexivity].
  vm_compute in Hc. discriminate.
Qed.

Lemma os_path_join_ends (a pre n : string) :
  exists pre', os_path_join a (pre ++ n) = pre' ++ n.
Proof.
  destruct (startswith (pre ++ n) "/") eqn:S.
  - exists pre. now apply os_path_join_absolute.
  - destruct (os_path_join_relative a (pre ++ n) S) as (sep & _ & ->).
    exists (a ++ sep ++ pre). now rewrite !str_app_assoc.
Qed.

(** The file a sheet of a workbook is saved to. *)
Lemma downloaded_sheet_path (out_dir parent n t : string) :
  n <> "" -> all_name_chars n = true ->
  t = "Variables" \/ t = "Dimensions" ->
  exists pre,
    Drive.out_file
      (Drive.target_dir out_dir (Drive.new_folder parent n) (n ++ ".xlsx"))
      (t ++ " - Specific")
    = sheet_path pre n t.
Proof.
  intros Hne Hn Ht.
  unfold Drive.out_file, Drive.target_dir, Drive.new_folder.
  destruct (os_path_join_ends parent "" n) as (pA & EA). cbn [append] in EA.
  rewrite EA.
  destruct (os_path_join_ends out_dir pA n) as (pB & EB). rewrite EB.
  exists pB.
  destruct (last_char_some n Hne) as (c & Lc).
  assert (Hc : c <> "/"%char).
  { intros ->. apply (name_last_char n _ Hn) in Lc. vm_compute in Lc.
    discriminate. }
  rewrite (os_path_join_after (pB ++ n) (n ++ ".xlsx") c);
    [| now rewrite last_char_app | exact Hc | now apply name_not_absolute].
  rewrite (os_path_join_after _ ((t ++ " - Specific") ++ ".tsv") "x"%char).
  - unfold sheet_path. rewrite !str_app_assoc.
    destruct Ht as [-> | ->]; reflexivity.
  - replace ((pB ++ n) ++ "/" ++ n ++ ".xlsx")
      with (((pB ++ n) ++ "/" ++ n) ++ ".xlsx")
      by (now rewrite !str_app_assoc).
    now rewrite last_char_app.
  - discriminate.
  - destruct Ht as [-> | ->]; reflexivity.
Qed.

End LayoutFacts.

(** X22: what the downloader saves, the scan finds: the sheet titled
    [Variables - Specific] or [Dimensions - Specific] of a spreadsheet
    named [<n>.xlsx] found in a drive folder named [n] (a non-empty name
    of letters, digits and hyphens) is saved to a path in which the sheet
    pattern is found with the product name [n] and the type of the
    sheet, whatever the output directory and the folders above. *)
Theorem downloaded_sheets_are_recognised
    (out_dir parent n t : string) :
  n <> "" -> all_name_chars n = true ->
  t = "Variables" \/ t = "Dimensions" ->
  Handler.sheet_regex_search
    (Drive.out_file
       (Drive.target_dir out_dir (Drive.new_folder parent n) (n ++ ".xlsx"))
       (t ++ " - Specific"))
  = Some (n, t).
Proof.
  intros Hne Hn Ht.
  destruct (downloaded_sheet_path out_dir parent n t Hne Hn Ht) as (pre & ->).
  now apply sheet_regex_search_path.
Qed.

Lemma downloaded_sheets_are_recognised_witness :
  Handler.sheet_regex_search
    (Drive.out_file
       (Drive.target_dir "/in"
          (Drive.new_folder "Product Definition Spreadsheets" "radar")
          ("radar" ++ ".xlsx"))
       ("Dimensions" ++ " - Specific"))
  = Some ("radar", "Dimensions").
Proof.
  apply (downloaded_sheets_are_recognised "/in"
           "Product Definition Spreadsheets" "radar" "Dimensions").
  - discriminate.
  - reflexivity.
  - now right.
Defined.

(* ================================================================== *)
(** * The search of the drive *)
(* ================================================================== *)

Section SearchFacts.

Import PyStr Drive.

Lemma drive_file_rect' (P : drive_file -> Prop) :
  (forall name id mimeType children,
     Forall P children -> P (Entry name id mimeType children)) ->
  forall f, P f.
Proof.
  intros H. fix IH 1. intros [name id mimeType children].
  apply H. induction children as [|c children IHc]; constructor.
  - apply IH.
  - exact IHc.
Qed.

Lemma visit_prune (f : drive_file) :
  forall fn, visit fn (prune f) = visit fn f.
Proof.
  induction f as [name id mimeType children IH] using drive_file_rect'.
  intros fn. cbn [prune visit].
  destruct (String.eqb mimeType FOLDER_MIME_TYPE) eqn:Em; cbn [andb].
  - fold (skipped name). destruct (skipped name) eqn:Es; cbn [negb visit].
    + rewrite Em. fold (skipped name). now rewrite Es.
    + rewrite Em. fold (skipped name). rewrite Es.
      induction children as [|c children IHc]; [reflexivity|].
      apply Forall_cons_iff in IH as [Hc Hr].
      cbn [map flat_map]. now rewrite Hc, (IHc Hr).
  - cbn [visit]. now rewrite Em.
Qed.

Lemma reach_widen (fn fn' : string) (c f : drive_file)
    (l : list drive_file) :
  In c l -> reach fn [c] fn' f -> reach fn l fn' f.
Proof.
  intros Hc R.
  inversion R as [fn1 l1 f1 Hf|fn1 l1 nm idd chn fn2 f1 Hf Hsk R']; subst.
  - destruct Hf as [E|[]]. subst c. now apply reach_here.
  - destruct Hf as [E|[]]. subst c. eapply reach_below; eauto.
Qed.

Lemma reach_narrow (fn fn' : string) (f : drive_file)
    (l : list drive_file) :
  reach fn l fn' f -> exists c, In c l /\ reach fn [c] fn' f.
Proof.
  intros R.
  inversion R as [fn1 l1 f1 Hf|fn1 l1 nm idd chn fn2 f1 Hf Hsk R']; subst.
  - exists f. split; [exact Hf|]. apply reach_here. now left.
  - exists (Entry nm idd FOLDER_MIME_TYPE chn). split; [exact Hf|].
    eapply reach_below; [now left | exact Hsk | exact R'].
Qed.

Lemma callbacks_of_listing (l : list drive_file) :
  Forall callbacks_spec l ->
  forall fn n i fn',
    In (Callback n i fn') (flat_map (visit fn) l) <->
    exists mime ch,
      reach fn l fn' (Entry n i mime ch) /\
      mime <> FOLDER_MIME_TYPE /\
      contains mime SPREADSHEET_MIME_TYPES = true.
Proof.
  intros HF fn n i fn'. rewrite Forall_forall in HF.
  rewrite in_flat_map. split.
  - intros (c & Hc & Hin).
    apply (HF c Hc) in Hin as (mime & ch & R & Hm & Hs).
    exists mime, ch. repeat split; try assumption.
    now apply (reach_widen fn fn' c).
  - intros (mime & ch & R & Hm & Hs).
    apply reach_narrow in R as (c & Hc & R).
    exists c. split; [exact Hc|]. apply (HF c Hc). eauto.
Qed.

Lemma visit_callback (f : drive_file) : callbacks_spec f.
Proof.
  induction f as [name id mimeType children IH] using drive_file_rect'.
  pose proof (callbacks_of_listing children IH) as Below.
  intros fn n i fn'. cbn [visit].
  destruct (String.eqb_spec mimeType FOLDER_MIME_TYPE) as [->|Nm].
  - fold (skipped name). destruct (skipped name) eqn:Es.
    + split.
      * intros [H|[]]. discriminate H.
      * intros (mime & ch & R & Hm & Hs).
        inversion R as [fn1 l1 f1 Hf|fn1 l1 nm idd chn fn2 f1 Hf Hsk R']; subst.
        -- destruct Hf as [[= -> -> <- ->]|[]]. congruence.
        -- destruct Hf as [[= -> -> ->]|[]]. congruence.
    + rewrite Below. split.
      * intros (mime & ch & R & Hm & Hs). exists mime, ch.
        repeat split; try assumption.
        eapply reach_below; [now left | exact Es | exact R].
      * intros (mime & ch & R & Hm & Hs). exists mime, ch.
        repeat split; try assumption.
        inversion R as [fn1 l1 f1 Hf|fn1 l1 nm idd chn fn2 f1 Hf Hsk R']; subst.
        -- destruct Hf as [[= -> -> <- ->]|[]]. congruence.
        -- destruct Hf as [[= -> -> ->]|[]]. exact R'.
  - destruct (contains mimeType SPREADSHEET_MIME_TYPES) eqn:Ec.
    + split.
      * intros [[= -> -> ->]|[]]. exists mimeType, children.
        repeat split; try assumption. apply reach_here. now left.
      * intros (mime & ch & R & Hm & Hs).
        inversion R as [fn1 l1 f1 Hf|fn1 l1 nm idd chn fn2 f1 Hf Hsk R']; subst.
        -- destruct Hf as [[= -> -> -> ->]|[]]. now left.
        -- destruct Hf as [[= _ _ E _]|[]]. congruence.
    + split; [intros []|].
      intros (mime & ch & R & Hm & Hs).
      inversion R as [fn1 l1 f1 Hf|fn1 l1 nm idd chn fn2 f1 Hf Hsk R']; subst.
      * destruct Hf as [[= -> -> -> ->]|[]]. congruence.
      * destruct Hf as [[= _ _ E _]|[]]. congruence.
Qed.

End SearchFacts.

(** X23: the search of the drive does not depend on what is below a
    folder to skip, nor on what is listed for an entry that is not a
    folder: with those listings emptied, at any depth, it reports and
    calls back the same, in the same order. *)
Theorem search_ignores_unused_listings
    (listing : list Drive.drive_file) (folder_name : string) :
  Drive.find_all_spreadsheets (map prune listing) folder_name
  = Drive.find_all_spreadsheets listing folder_name.
Proof.
  unfold Drive.find_all_spreadsheets.
  induction listing as [|f listing IH]; [reflexivity|].
  cbn [map flat_map]. now rewrite visit_prune, IH.
Qed.

(** X24: the search calls back exactly for the entries it meets through
    folders that are not skipped, whose type is not the folder type and
    OCCURS IN the spreadsheet type, with the folder name they are met
    under; an entry with an empty type is therefore called back for, as
    the spreadsheet types are one string and not a tuple. *)
Theorem search_callbacks
    (listing : list Drive.drive_file) (folder_name : string) :
  (forall n i fn',
     In (Drive.Callback n i fn')
        (Drive.find_all_spreadsheets listing folder_name) <->
     exists mime ch,
       reach folder_name listing fn' (Drive.Entry n i mime ch) /\
       mime <> Drive.FOLDER_MIME_TYPE /\
       PyStr.contains mime Drive.SPREADSHEET_MIME_TYPES = true) /\
  (forall n i ch,
     In (Drive.Entry n i "" ch) listing ->
     In (Drive.Callback n i folder_name)
        (Drive.find_all_spreadsheets listing folder_name)).
Proof.
  assert (C : forall n i fn',
     In (Drive.Callback n i fn')
        (Drive.find_all_spreadsheets listing folder_name) <->
     exists mime ch,
       reach folder_name listing fn' (Drive.Entry n i mime ch) /\
       mime <> Drive.FOLDER_MIME_TYPE /\
       PyStr.contains mime Drive.SPREADSHEET_MIME_TYPES = true).
  { intros n i fn'. apply callbacks_of_listing.
    apply Forall_forall. intros c _. apply visit_callback. }
  split; [exact C|].
  intros n i ch Hin. apply C. exists "", ch.
  repeat split; [now apply reach_here | discriminate].
Qed.

Lemma search_callbacks_witness :
  In (Drive.Callback "untyped" "u1" "")
     (Drive.find_all_spreadsheets [Drive.Entry "untyped" "u1" "" []] "").
Proof.
  apply (proj2 (search_callbacks [Drive.Entry "untyped" "u1" "" []] "")
           "untyped" "u1" []).
  now left.
Defined.

(** The search of the sample drive: the workbook of [radar] and the
    common workbook are called back for, the archive is skipped. *)
Example search_of_sample_drive :
  Drive.find_all_spreadsheets Samples.drive_listing ""
  = [ Drive.Callback "radar.xlsx" "s1" "Product Definition Spreadsheets/radar";
      Drive.Skipping "Archive_1";
      Drive.Callback "Common.xlsx" "s3" "" ].
Proof. reflexivity. Qed.

(** X25: [get_all_cvs] prints the warning that no product sheet was
    found exactly when the per-product scan yields no entry: once if it
    yields none, never if it yields one or more. *)
Theorem no_products_warning_iff_empty_scan
    (K : Handler.cv_classes) (w : Handler.world) (self_path : string)
    (bc : option Handler.pyclass) (pp : list Handler.CVParseInfo) :
  result (Handler._get_per_product_parse_info K w self_path) = Return pp ->
  count_event (Print Stderr (Handler.no_products_warning self_path))
    (events (Handler.get_all_cvs K w self_path bc))
  = match pp with
    | [] => 1
    | _ :: _ => 0
    end.
Proof.
  intros R.
  destruct (get_all_cvs_unfold K w self_path bc) as (pp' & R' & _ & S & E & _).
  rewrite R in R'. injection R' as <-.
  rewrite E, !count_event_app.
  rewrite (count_no_products_stdout self_path _ S).
  rewrite (count_no_products_load self_path _ (load_events_shape w self_path bc _)).
  destruct pp; cbn [no_products_events_of].
  - now rewrite count_no_products_self.
  - reflexivity.
Qed.

Lemma no_products_warning_iff_empty_scan_witness :
  count_event (Print Stderr (Handler.no_products_warning Samples.root))
    (events (Handler.get_all_cvs Samples.K0 Samples.radar_tree Samples.root None))
  = 0.
Proof.
  exact (no_products_warning_iff_empty_scan Samples.K0 Samples.radar_tree
           Samples.root None [Samples.radar_vars] eq_refl).
Defined.
